(** * Incremental batch-training engine: a shallow embedding

    The development follows [utils/incremental.py] (the engine
    [entrenar_por_lotes] and the safeguard [imputar_valores_faltantes]),
    [utils/evaluacion.py] ([evaluar_modelo], [generar_informe]),
    [utils/pipelines.py] (the factory) and the incremental branch of
    [main] in [entrenar_modelo.py].

    Python objects that are mutated in place (the pipelines) live in a
    store indexed by object identity; exceptions are values of [result];
    numpy's global generator is threaded explicitly.  What scikit-learn,
    numpy and the file system compute is not part of the repository: it is
    taken as an interface (type classes below) and every theorem is proved
    for all its implementations.  One small implementation, a mean
    predictor with the usual R2 formula over the rationals, is given at the
    end of the definitions so that the engine can be run on concrete data. *)

From Stdlib Require Import ssreflect ZArith QArith List String Lia Permutation.
From stdpp Require Import base option list gmap strings fin_maps pretty.

#[local] Set Warnings "-rewrite-rw".

Local Open Scope Z_scope.
Local Open Scope string_scope.
Local Open Scope list_scope.
Local Open Scope stdpp_scope.

(** ** Python exceptions and results *)

(** The classes that the modelled calls raise; all derive from
    [Exception].  As in scikit-learn, [NotFittedError] derives from
    [ValueError]. *)
Inductive exc_class :=
  | ValueError | TypeError | KeyError | IndexError
  | AttributeError | NotFittedError | OSError | RuntimeError.

Record exn := Exn { exn_class : exc_class; exn_msg : string }.

(** [isinstance(e, ValueError)], the test made by [except ValueError]. *)
Definition isinstance_ValueError (e : exn) : bool :=
  match exn_class e with
  | ValueError | NotFittedError => true
  | _ => false
  end.

Inductive result (A : Type) :=
  | Ok (a : A)
  | Raise (e : exn).
Arguments Ok {A} a.
Arguments Raise {A} e.

Definition rbind {A B} (r : result A) (k : A -> result B) : result B :=
  match r with
  | Ok a => k a
  | Raise e => Raise e
  end.

Notation "x <-r c ;; k" := (rbind c (fun x => k))
  (at level 100, c at next level, right associativity, only parsing).

Definition is_ok {A} (r : result A) : bool :=
  match r with Ok _ => true | Raise _ => false end.

(** ** Tabular data: numpy arrays and pandas frames *)

Section Tables.
Context {cell : Type}.

Record frame := Frame { columns : list string; rows : list (list cell) }.

Inductive table :=
  | NdArray (m : list (list cell))
  | DataFrame (f : frame).

Definition isinstance_ndarray (t : table) : bool :=
  match t with NdArray _ => true | DataFrame _ => false end.

(** [X.values if isinstance(X, pd.DataFrame) else X] *)
Definition to_numpy (t : table) : list (list cell) :=
  match t with
  | NdArray m => m
  | DataFrame f => rows f
  end.

(** [M[idx]] with an integer index array: the rows at those positions;
    a position past the end raises [IndexError]. *)
Fixpoint take_rows {A} (M : list A) (idx : list nat) : result (list A) :=
  match idx with
  | [] => Ok []
  | i :: idx' =>
      match M !! i with
      | None => Raise (Exn IndexError "index out of bounds")
      | Some r =>
          match take_rows M idx' with
          | Ok rs => Ok (r :: rs)
          | Raise e => Raise e
          end
      end
  end.

(** The cells of a row that stand under the label [c]. *)
Fixpoint pick (c : string) (names : list string) (r : list cell) : list cell :=
  match names, r with
  | n :: names', x :: r' =>
      if String.eqb c n then x :: pick c names' r' else pick c names' r'
  | _, _ => []
  end.

Definition has_column (names : list string) (c : string) : bool :=
  existsb (String.eqb c) names.

(** [X[cols]] with a list of labels: the named columns in the order of
    the list; a label that is not a column raises [KeyError]. *)
Definition getitem_columns (f : frame) (cols : list string) : result frame :=
  if forallb (has_column (columns f)) cols
  then Ok {| columns := flat_map (fun c => filter (fun n => String.eqb c n = true) (columns f)) cols;
             rows := map (fun r => flat_map (fun c => pick c (columns f) r) cols) (rows f) |}
  else Raise (Exn KeyError "not in index").
End Tables.
Arguments frame : clear implicits.
Arguments table : clear implicits.

(** ** Estimator descriptions (what [get_params] shows) *)

#[local] Set Warnings "-register-all".

Inductive pval :=
  | PInt (z : Z)
  | PNum (q : Q)
  | PStr (s : string)
  | PEst (cls : string) (ps : list (string * pval)).

(** A model object is a [Pipeline] with named steps, or a bare estimator. *)
Inductive hyper :=
  | Pipeline (steps : list (string * pval))
  | Bare (cls : string) (ps : list (string * pval)).

(** [modelo.named_steps], absent on objects that are not pipelines. *)
Definition named_steps (h : hyper) : option (list (string * pval)) :=
  match h with
  | Pipeline steps => Some steps
  | Bare _ _ => None
  end.

Fixpoint step_lookup (name : string) (steps : list (string * pval)) : option pval :=
  match steps with
  | [] => None
  | (n, v) :: steps' => if String.eqb name n then Some v else step_lookup name steps'
  end.

Definition gradient_boosting : pval :=
  PEst "GradientBoostingRegressor"
    [("n_estimators", PInt 300); ("learning_rate", PNum (5 # 100));
     ("max_depth", PInt 4); ("min_samples_split", PInt 5);
     ("min_samples_leaf", PInt 3); ("subsample", PNum (8 # 10));
     ("random_state", PInt 42)].

Definition factory_steps : list (string * pval) :=
  [("imputer", PEst "SimpleImputer" [("strategy", PStr "median")]);
   ("scaler", PEst "StandardScaler" []);
   ("model", PEst "MultiOutputRegressor"
               [("estimator", gradient_boosting); ("n_jobs", PInt (-1))])].

(** [utils/incremental.py] *)
Definition crear_pipeline_incremental : hyper := Pipeline factory_steps.

(** [utils/pipelines.py] *)
Definition crear_pipeline_multioutput : hyper := Pipeline factory_steps.

(** ** Interfaces of the libraries *)

(** Python floats as far as the engine uses them: the constant
    [-np.inf] and the comparison [a > b] (false whenever a NaN takes
    part). *)
Class PyFloat (num : Type) := {
  neg_inf : num;
  fgt : num -> num -> bool;
}.

Class PyFloatLaws (num : Type) `{PyFloat num} := {
  fgt_irrefl : forall a, fgt a a = false;
  fgt_trans : forall a b c, fgt a b = true -> fgt b c = true -> fgt a c = true;
}.

(** numpy's global generator.  [random_choice a size] is
    [np.random.choice(a, size, replace=False)] and [random_shuffle] is
    [np.random.shuffle] (the shuffled contents are returned). *)
Class NumpyRandom (G : Type) := {
  random_choice : Z -> Z -> G -> result (list nat) * G;
  random_shuffle : list nat -> G -> list nat * G;
}.

Class NumpyRandomLaws (G : Type) `{NumpyRandom G} := {
  choice_ok : forall a size g, 0 < a -> 0 <= size <= a ->
    exists idx, (random_choice a size g).1 = Ok idx /\
                Z.of_nat (length idx) = size /\
                NoDup idx /\
                Forall (fun i => Z.of_nat i < a) idx;
  shuffle_perm : forall l g, Permutation l (random_shuffle l g).1;
}.

(** What one call of [fit] does to the learned state of an object. *)
Inductive fit_outcome (learned : Type) :=
  | Fitted (s : learned)
  | FitRaised (e : exn) (after : option learned).
Arguments Fitted {learned} s.
Arguments FitRaised {learned} e after.

Inductive scoring := ScoringR2 | ScoringNegMSE.

(** scikit-learn and numpy as seen from the repository.  [learned] is
    the fitted state of a model object ([None] on a new or cloned one);
    a call of [fit] sees the hyperparameters, the state the object is in
    and the data. *)
Class Sklearn (cell num learned : Type) := {
  sk_fit : hyper -> option learned -> list (list cell) -> list (list cell) -> fit_outcome learned;
  sk_predict : hyper -> option learned -> list (list cell) -> result (list (list cell));
  (** the number of target columns of the [y] the state was fitted on *)
  sk_outputs : learned -> Z;
  (** [modelo.n_outputs_] where [hasattr(modelo, 'n_outputs_')] *)
  sk_n_outputs_attr : hyper -> option learned -> option Z;
  (** [hasattr(modelo.named_steps['imputer'], 'statistics_')] *)
  sk_imputer_statistics : hyper -> option learned -> bool;
  r2_score : list (list cell) -> list (list cell) -> result num;
  mean_squared_error : list (list cell) -> list (list cell) -> result num;
  cross_val_score : hyper -> option learned -> list (list cell) -> list (list cell) ->
                    Z -> scoring -> result (list num);
  np_mean : list num -> num;
  np_std : list num -> num;
  np_sqrt : num -> num;
  np_neg : num -> num;
  (** [SimpleImputer(strategy='mean').fit_transform] *)
  simple_imputer_mean : list (list cell) -> result (list (list cell));
}.

(** ** Metric dictionaries *)

Inductive jval (num : Type) :=
  | JNum (x : num)
  | JNone
  | JStr (s : string).
Arguments JNum {num} x.
Arguments JNone {num}.
Arguments JStr {num} s.

(** Writing the artifacts: [json.dump] into an opened file, and the
    plotting and HTML part of [generar_informe]. *)
Class ReportIO (cell num : Type) := {
  json_dump_file : string -> gmap string (gmap string (jval num)) -> result unit;
  render_informe : list (list cell) -> list (list cell) -> string -> result unit;
}.

(** ** Model objects and the store *)

Section Objects.
Context {cell num learned : Type} `{!Sklearn cell num learned}.

Record pipeline := Obj { params : hyper; state : option learned }.

(** [modelo.fit(X, y)]: the object is changed in place, also when the
    call raises. *)
Definition call_fit (h : gmap nat pipeline) (l : nat) (X y : list (list cell))
  : gmap nat pipeline * result unit :=
  match h !! l with
  | None => (h, Raise (Exn AttributeError "no such object"))
  | Some p =>
      match sk_fit (params p) (state p) X y with
      | Fitted s => (<[l := Obj (params p) (Some s)]> h, Ok tt)
      | FitRaised e after => (<[l := Obj (params p) after]> h, Raise e)
      end
  end.

(** The object as one call of [fit] leaves it. *)
Definition despues_de_fit (p : pipeline) (X y : list (list cell)) : pipeline :=
  match sk_fit (params p) (state p) X y with
  | Fitted s => Obj (params p) (Some s)
  | FitRaised _ after => Obj (params p) after
  end.

(** [modelo.predict(X)] *)
Definition call_predict (h : gmap nat pipeline) (l : nat) (X : list (list cell))
  : result (list (list cell)) :=
  match h !! l with
  | None => Raise (Exn AttributeError "no such object")
  | Some p => sk_predict (params p) (state p) X
  end.

(** [sklearn.base.clone]: same parameters, nothing learned. *)
Definition clone (p : pipeline) : pipeline := Obj (params p) None.

(** [clone(modelo)] as an allocation of a new object. *)
Definition call_clone (h : gmap nat pipeline) (l : nat) : gmap nat pipeline * nat :=
  let l' := fresh (dom h) in
  match h !! l with
  | None => (h, l')
  | Some p => (<[l' := clone p]> h, l')
  end.

(** A newly constructed pipeline. *)
Definition alloc (h : gmap nat pipeline) (p : pipeline) : gmap nat pipeline * nat :=
  let l' := fresh (dom h) in (<[l' := p]> h, l').
End Objects.
Arguments pipeline : clear implicits.

(** ** [utils/evaluacion.py] *)

Section Evaluacion.
Context {cell num learned : Type}.
Context `{!Sklearn cell num learned} `{!ReportIO cell num}.

Definition cv_disponible (cv_scores mse_scores : list num) : gmap string (jval num) :=
  let rmse_scores := map np_sqrt mse_scores in
  list_to_map
    [("r2_mean", JNum (np_mean cv_scores)); ("r2_std", JNum (np_std cv_scores));
     ("rmse_mean", JNum (np_mean rmse_scores)); ("rmse_std", JNum (np_std rmse_scores));
     ("mse_mean", JNum (np_mean mse_scores)); ("mse_std", JNum (np_std mse_scores))].

(** The dictionary stored by the [except Exception] branch. *)
Definition cv_no_disponible (e : exn) : gmap string (jval num) :=
  list_to_map
    [("r2_mean", JNone); ("r2_std", JNone); ("rmse_mean", JNone);
     ("rmse_std", JNone); ("mse_mean", JNone); ("mse_std", JNone);
     ("error", JStr (exn_msg e))].

(** The first [try] block: every exception is caught. *)
Definition evaluar_cv (p : pipeline learned) (X y : list (list cell)) (cv : Z)
  : gmap string (jval num) :=
  match cross_val_score (params p) (state p) X y cv ScoringR2 with
  | Raise e => cv_no_disponible e
  | Ok cv_scores =>
      match cross_val_score (params p) (state p) X y cv ScoringNegMSE with
      | Raise e => cv_no_disponible e
      | Ok neg_scores => cv_disponible cv_scores (map np_neg neg_scores)
      end
  end.

Definition validacion_no_disponible : gmap string (jval num) :=
  list_to_map [("r2", JNone); ("rmse", JNone); ("mse", JNone)].

(** The body of the second [try] block. *)
Definition validacion_metricas (p : pipeline learned) (X_val y_val : list (list cell))
  : result (gmap string (jval num)) :=
  y_pred <-r sk_predict (params p) (state p) X_val ;;
  val_mse <-r mean_squared_error y_val y_pred ;;
  val_r2 <-r r2_score y_val y_pred ;;
  Ok (list_to_map [("r2", JNum val_r2); ("rmse", JNum (np_sqrt val_mse)); ("mse", JNum val_mse)]).

(** The second [try] block: only [except ValueError]. *)
Definition evaluar_validacion (p : pipeline learned) (X_val y_val : list (list cell))
  : result (gmap string (jval num)) :=
  match validacion_metricas p X_val y_val with
  | Ok d => Ok d
  | Raise e => if isinstance_ValueError e then Ok validacion_no_disponible else Raise e
  end.

Definition evaluar_modelo (p : pipeline learned) (X y : list (list cell))
    (X_val y_val : option (list (list cell))) (cv : Z)
  : result (gmap string (gmap string (jval num))) :=
  let resultados : gmap string (gmap string (jval num)) := {[ "cv" := evaluar_cv p X y cv ]} in
  match X_val, y_val with
  | Some Xv, Some yv =>
      d <-r evaluar_validacion p Xv yv ;;
      Ok (<["validation" := d]> resultados)
  | _, _ => Ok resultados
  end.

(** [not hasattr(modelo, 'named_steps') or
     not hasattr(modelo.named_steps['imputer'], 'statistics_')] *)
Definition no_ajustado (p : pipeline learned) : result bool :=
  match named_steps (params p) with
  | None => Ok true
  | Some steps =>
      match step_lookup "imputer" steps with
      | None => Raise (Exn KeyError "imputer")
      | Some _ => Ok (negb (sk_imputer_statistics (params p) (state p)))
      end
  end.

(** [generar_informe]: refits a pipeline that looks unfitted on the
    validation data, predicts and writes the report.  Whatever is raised
    is printed and raised again, so only the store and the outcome are
    kept. *)
Definition generar_informe (h : gmap nat (pipeline learned)) (l : nat)
    (X_val y_val : list (list cell)) (directorio_salida : string)
  : gmap nat (pipeline learned) * result unit :=
  match h !! l with
  | None => (h, Raise (Exn AttributeError "no such object"))
  | Some p =>
      match no_ajustado p with
      | Raise e => (h, Raise e)
      | Ok refit =>
          let '(h1, r1) := if refit then call_fit h l X_val y_val else (h, Ok tt) in
          match r1 with
          | Raise e => (h1, Raise e)
          | Ok _ =>
              match call_predict h1 l X_val with
              | Raise e => (h1, Raise e)
              | Ok y_pred => (h1, render_informe y_val y_pred directorio_salida)
              end
          end
      end
  end.
End Evaluacion.

(** ** [utils/incremental.py] *)

Inductive log_line (num : Type) :=
  | LogInicio (n_epochs batch_size : Z)
  | LogDimensiones (filas_X filas_y : nat)
  | LogEpoca (k : nat) (n_epochs : Z)
  | LogProcesado (end_idx n_samples : nat) (score : num)
  | LogErrorBatch (start_idx end_idx : nat) (msg : string)
  | LogMejor (score : num)
  | LogGenerando
  | LogErrorInformes (msg : string).
Arguments LogInicio {num}.
Arguments LogDimensiones {num}.
Arguments LogEpoca {num}.
Arguments LogProcesado {num}.
Arguments LogErrorBatch {num}.
Arguments LogMejor {num}.
Arguments LogGenerando {num}.
Arguments LogErrorInformes {num}.

(** [range(0, n, step)] *)
Definition py_range (n : nat) (step : Z) : result (list nat) :=
  if (step =? 0)%Z then Raise (Exn ValueError "range() arg 3 must not be zero")
  else if (step <? 0)%Z then Ok []
  else let b := Z.to_nat step in
       Ok (map (fun k => k * b)%nat (seq 0 ((n + b - 1) / b)%nat)).

(** [l[a:b]] for [0 <= a] and [0 <= b] *)
Definition slice {A} (l : list A) (a b : nat) : list A := take (b - a) (drop a l).

Section Imputar.
Context {cell num learned : Type} `{!Sklearn cell num learned}.

Definition imputar_valores_faltantes (X : table cell) : result (table cell) :=
  match X with
  | NdArray m => m' <-r simple_imputer_mean m ;; Ok (NdArray m')
  | _ => Ok X
  end.
End Imputar.

Section Engine.
Context {cell num learned G : Type}.
Context `{!Sklearn cell num learned} `{!ReportIO cell num}.
Context `{!PyFloat num} `{!NumpyRandom G}.

(** The variables of the epoch loop.  [st_fits] and [st_scores] are
    ghost fields: the index arrays the live pipeline was fitted on inside
    the loop and the scores computed on the evaluation set, oldest
    first. *)
Record train_state := St {
  st_heap : gmap nat (pipeline learned);
  mejor_score : num;
  mejor_modelo : option nat;
  st_log : list (log_line num);
  st_fits : list (list nat);
  st_scores : list num;
}.

Definition con_log (st : train_state) (ln : log_line num) : train_state :=
  St (st_heap st) (mejor_score st) (mejor_modelo st) (st_log st ++ [ln])
     (st_fits st) (st_scores st).

(** The [except Exception] branch of the batch. *)
Definition batch_error (st : train_state) (start_idx end_idx : nat) (e : exn) : train_state :=
  con_log st (LogErrorBatch start_idx end_idx (exn_msg e)).

(** The progress line printed every tenth batch. *)
Definition batch_progreso (st : train_state) (start_idx end_idx n_samples b : nat)
    (score : num) : train_state :=
  if ((start_idx + b) mod (b * 10) =? 0)%nat
  then con_log st (LogProcesado end_idx n_samples score)
  else st.

(** The body of the [try] of one batch (lines 96-112). *)
Definition batch_step (modelo : nat) (X_eval y_eval : list (list cell))
    (n_samples b : nat) (st : train_state) (start_idx : nat)
    (batch_indices : list nat) (X_batch y_batch : list (list cell)) : train_state :=
  let end_idx := Nat.min (start_idx + b) n_samples in
  let '(h1, r) := call_fit (st_heap st) modelo X_batch y_batch in
  let st1 := St h1 (mejor_score st) (mejor_modelo st) (st_log st)
                (st_fits st ++ [batch_indices]) (st_scores st) in
  match r with
  | Raise e => batch_error st1 start_idx end_idx e
  | Ok _ =>
      match call_predict h1 modelo X_eval with
      | Raise e => batch_error st1 start_idx end_idx e
      | Ok y_pred =>
          match r2_score y_eval y_pred with
          | Raise e => batch_error st1 start_idx end_idx e
          | Ok score =>
              let scores := st_scores st ++ [score] in
              if fgt score (mejor_score st) then
                let '(h2, c) := call_clone h1 modelo in
                let '(h3, r3) := call_fit h2 c X_batch y_batch in
                let st3 := St h3 score (Some c) (st_log st)
                              (st_fits st ++ [batch_indices]) scores in
                match r3 with
                | Raise e => batch_error st3 start_idx end_idx e
                | Ok _ => batch_progreso st3 start_idx end_idx n_samples b score
                end
              else
                batch_progreso
                  (St h1 (mejor_score st) (mejor_modelo st) (st_log st)
                      (st_fits st ++ [batch_indices]) scores)
                  start_idx end_idx n_samples b score
          end
      end
  end.

(** The inner [for]: slicing the batch out of [X] and [y] is outside
    the [try]. *)
Fixpoint run_batches (modelo : nat) (X y X_eval y_eval : list (list cell))
    (n_samples b : nat) (indices : list nat) (starts : list nat)
    (st : train_state) : result train_state :=
  match starts with
  | [] => Ok st
  | start_idx :: rest =>
      let end_idx := Nat.min (start_idx + b) n_samples in
      let batch_indices := slice indices start_idx end_idx in
      X_batch <-r take_rows X batch_indices ;;
      y_batch <-r take_rows y batch_indices ;;
      run_batches modelo X y X_eval y_eval n_samples b indices rest
        (batch_step modelo X_eval y_eval n_samples b st start_idx
                    batch_indices X_batch y_batch)
  end.

(** The outer [for]: [indices] is shuffled in place at the start of each
    epoch. *)
Fixpoint run_epochs (modelo : nat) (X y X_eval y_eval : list (list cell))
    (n_samples : nat) (batch_size n_epochs : Z) (epochs : list nat)
    (indices : list nat) (g : G) (st : train_state)
  : result (train_state * list nat * G) :=
  match epochs with
  | [] => Ok (st, indices, g)
  | epoch :: rest =>
      let st1 := con_log st (LogEpoca (epoch + 1) n_epochs) in
      let '(indices1, g1) := random_shuffle indices g in
      starts <-r py_range n_samples batch_size ;;
      st2 <-r run_batches modelo X y X_eval y_eval n_samples (Z.to_nat batch_size)
                indices1 starts st1 ;;
      run_epochs modelo X y X_eval y_eval n_samples batch_size n_epochs rest indices1 g1 st2
  end.

(** Lines 63-72: creation of the pipeline when none is given, and the
    initial fit on a sample of [min(10 * batch_size, n)] rows. *)
Definition ajuste_inicial (h : gmap nat (pipeline learned)) (modelo : option nat)
    (X y : list (list cell)) (batch_size : Z) (g : G)
  : result (gmap nat (pipeline learned) * nat * G) :=
  let '(h0, m) := match modelo with
                  | Some l => (h, l)
                  | None => alloc h (Obj crear_pipeline_incremental None)
                  end in
  let n := Z.of_nat (length X) in
  let initial_size := Z.min (batch_size * 10) n in
  let '(r, g1) := random_choice n initial_size g in
  indices_iniciales <-r r ;;
  X0 <-r take_rows X indices_iniciales ;;
  y0 <-r take_rows y indices_iniciales ;;
  let '(h1, r1) := call_fit h0 m X0 y0 in
  fitted <-r r1 ;;
  Ok (h1, m, g1).

(** Lines 116-131: the reports, inside [try ... except Exception]. *)
Definition informes (st : train_state) (modelo : nat)
    (X_eval y_eval : list (list cell)) (directorio_salida : string)
  : gmap nat (pipeline learned) * list (log_line num) :=
  let h := st_heap st in
  let lg := st_log st ++ [LogGenerando] in
  let modelo_final := match mejor_modelo st with Some c => c | None => modelo end in
  match h !! modelo_final with
  | None => (h, lg ++ [LogErrorInformes "no such object"])
  | Some p =>
      match evaluar_modelo p X_eval y_eval None None 5 with
      | Raise e => (h, lg ++ [LogErrorInformes (exn_msg e)])
      | Ok resultados =>
          match json_dump_file (directorio_salida ++ "/resultados_modelo_incremental.json")
                               resultados with
          | Raise e => (h, lg ++ [LogErrorInformes (exn_msg e)])
          | Ok _ =>
              let '(h', r) := generar_informe h modelo_final X_eval y_eval directorio_salida in
              match r with
              | Raise e => (h', lg ++ [LogErrorInformes (exn_msg e)])
              | Ok _ => (h', lg)
              end
          end
      end
  end.

(** What a call that returns leaves behind: the store, the returned
    reference, the generator and the log; and, as ghost fields, the live
    pipeline, the evaluation indices and the state at the end of the
    loop. *)
Record salida := Salida {
  sal_heap : gmap nat (pipeline learned);
  sal_modelo : nat;
  sal_rng : G;
  sal_log : list (log_line num);
  sal_vivo : nat;
  sal_indices_eval : list nat;
  sal_bucle : train_state;
}.

Definition entrenar_por_lotes (h : gmap nat (pipeline learned)) (modelo : option nat)
    (X y : table cell) (batch_size n_epochs : Z) (directorio_salida : string) (g : G)
  : result salida :=
  let X := to_numpy X in
  let y := to_numpy y in
  inicio <-r ajuste_inicial h modelo X y batch_size g ;;
  let '(h1, m, g1) := inicio in
  let n_samples := length X in
  let n_eval := Z.min 1000 (Z.of_nat n_samples) in
  let '(r, g2) := random_choice (Z.of_nat n_samples) n_eval g1 in
  indices_eval <-r r ;;
  X_eval <-r take_rows X indices_eval ;;
  y_eval <-r take_rows y indices_eval ;;
  let st0 := St h1 neg_inf None
                [LogInicio n_epochs batch_size; LogDimensiones (length X) (length y)]
                [] [] in
  fin <-r run_epochs m X y X_eval y_eval n_samples batch_size n_epochs
            (seq 0 (Z.to_nat n_epochs)) (seq 0 n_samples) g2 st0 ;;
  let '(st, _, g3) := fin in
  let st' := con_log st (LogMejor (mejor_score st)) in
  let '(hf, lg) := informes st' m X_eval y_eval directorio_salida in
  Ok (Salida hf (match mejor_modelo st with Some c => c | None => m end)
             g3 lg m indices_eval st).
End Engine.

(** ** The incremental branch of [main] ([entrenar_modelo.py], lines 74-105) *)

(** What [joblib.load] returns: a dictionary that may hold the keys
    ['modelo'] (a model object, here its reference) and ['columnas']. *)
Record bundle := Bundle {
  b_modelo : option nat;
  b_columnas : option (list string);
}.

(** The warnings printed while a stored model is taken over. *)
Inductive aviso :=
  | AvisoObjetivos (n_modelo n_datos : Z)
  | AvisoCaracteristicas (faltantes nuevas : gset string).

Section Main.
Context {cell num learned G : Type}.
Context `{!Sklearn cell num learned} `{!ReportIO cell num}.
Context `{!PyFloat num} `{!NumpyRandom G}.

(** [hasattr(modelo, 'n_outputs_') and modelo.n_outputs_ != y.shape[1]] *)
Definition objetivos_incompatibles (p : pipeline learned) (y : frame cell) : option (Z * Z) :=
  match sk_n_outputs_attr (params p) (state p) with
  | Some k =>
      let m := Z.of_nat (length (columns y)) in
      if (k =? m)%Z then None else Some (k, m)
  | None => None
  end.

(** [columnas_modelo and set(columnas_modelo) != set(columnas_procesadas)] *)
Definition columnas_distintas (columnas_modelo : option (list string))
    (columnas_procesadas : list string) : option (list string) :=
  match columnas_modelo with
  | Some (c :: cs) =>
      if bool_decide ((list_to_set (c :: cs) : gset string) = list_to_set columnas_procesadas)
      then None else Some (c :: cs)
  | _ => None
  end.

Record preparado := Preparado {
  pre_heap : gmap nat (pipeline learned);
  pre_modelo : nat;
  pre_X : frame cell;
  pre_avisos : list aviso;
}.

(** Lines 76-96.  [almacenado] is [None] when no file exists at
    [ruta_modelo]. *)
Definition preparar_incremental (h : gmap nat (pipeline learned))
    (almacenado : option bundle) (X y : frame cell)
    (columnas_procesadas : list string) : result preparado :=
  match almacenado with
  | None =>
      let '(h1, m) := alloc h (Obj crear_pipeline_multioutput None) in
      Ok (Preparado h1 m X [])
  | Some modelo_dict =>
      match b_modelo modelo_dict with
      | None => Raise (Exn KeyError "modelo")
      | Some l =>
          match h !! l with
          | None => Raise (Exn AttributeError "no such object")
          | Some p =>
              let '(h1, m, av1) :=
                match objetivos_incompatibles p y with
                | Some (k, n) =>
                    let '(h1, m) := alloc h (Obj crear_pipeline_multioutput None) in
                    (h1, m, [AvisoObjetivos k n])
                | None => (h, l, [])
                end in
              match columnas_distintas (b_columnas modelo_dict) columnas_procesadas with
              | Some columnas_modelo =>
                  let faltantes : gset string :=
                    list_to_set columnas_modelo ∖ list_to_set columnas_procesadas in
                  let nuevas : gset string :=
                    list_to_set columnas_procesadas ∖ list_to_set columnas_modelo in
                  X' <-r getitem_columns X columnas_modelo ;;
                  Ok (Preparado h1 m X' (av1 ++ [AvisoCaracteristicas faltantes nuevas]))
              | None => Ok (Preparado h1 m X av1)
              end
          end
      end
  end.

(** Lines 74-105: preparation, the missing-value safeguard, the engine
    and the dictionary handed to [joblib.dump]. *)
Definition main_incremental (h : gmap nat (pipeline learned))
    (almacenado : option bundle) (X y : frame cell)
    (columnas_procesadas : list string) (batch_size epochs : Z)
    (salida_dir : string) (g : G) : result (salida * bundle) :=
  pre <-r preparar_incremental h almacenado X y columnas_procesadas ;;
  X1 <-r imputar_valores_faltantes (DataFrame (pre_X pre)) ;;
  out <-r entrenar_por_lotes (pre_heap pre) (Some (pre_modelo pre)) X1 (DataFrame y)
            batch_size epochs salida_dir g ;;
  Ok (out, Bundle (Some (sal_modelo out)) (Some columnas_procesadas)).
End Main.

(** ** Notions used in the statements *)

Section Nociones.
Context {cell num learned G : Type}.
Context `{!Sklearn cell num learned} `{!ReportIO cell num}.
Context `{!PyFloat num} `{!NumpyRandom G}.

(** Lines 98-101 for one batch: the score of the refitted live
    pipeline on the evaluation set, or the exception that the fit, the
    prediction or the scoring raises. *)
Definition batch_score (h : gmap nat (pipeline learned)) (modelo : nat)
    (X_eval y_eval X_batch y_batch : list (list cell)) : result num :=
  match call_fit h modelo X_batch y_batch with
  | (_, Raise e) => Raise e
  | (h1, Ok _) =>
      y_pred <-r call_predict h1 modelo X_eval ;;
      r2_score y_eval y_pred
  end.

(** The exception, if any, raised inside the cross-validation block of
    [evaluar_modelo]. *)
Definition cv_falla (p : pipeline learned) (X y : list (list cell)) (cv : Z) : option exn :=
  match cross_val_score (params p) (state p) X y cv ScoringR2 with
  | Raise e => Some e
  | Ok _ =>
      match cross_val_score (params p) (state p) X y cv ScoringNegMSE with
      | Raise e => Some e
      | Ok _ => None
      end
  end.

(** R2 of a model object on an evaluation set. *)
Definition r2_en (p : pipeline learned) (X_eval y_eval : list (list cell)) : result num :=
  y_pred <-r sk_predict (params p) (state p) X_eval ;;
  r2_score y_eval y_pred.

(** R2, on the rows [indices_eval], of the pipeline as the initial fit
    leaves it. *)
Definition r2_del_ajuste_inicial (h : gmap nat (pipeline learned)) (modelo : option nat)
    (X y : list (list cell)) (batch_size : Z) (g : G) (indices_eval : list nat)
  : result num :=
  ini <-r ajuste_inicial h modelo X y batch_size g ;;
  X_eval <-r take_rows X indices_eval ;;
  y_eval <-r take_rows y indices_eval ;;
  match ini.1.1 !! ini.1.2 with
  | Some p => r2_en p X_eval y_eval
  | None => Raise (Exn AttributeError "no such object")
  end.

(** R2, on the evaluation rows of the call, of the model it returned. *)
Definition r2_del_devuelto (out : @salida num learned G) (X y : list (list cell))
  : result num :=
  X_eval <-r take_rows X (sal_indices_eval out) ;;
  y_eval <-r take_rows y (sal_indices_eval out) ;;
  match sal_heap out !! sal_modelo out with
  | Some p => r2_en p X_eval y_eval
  | None => Raise (Exn AttributeError "no such object")
  end.

(** The live pipeline exists, and a checkpoint is another, existing
    object. *)
Definition inv_refs (modelo : nat) (st : @train_state num learned) : Prop :=
  modelo ∈ dom (st_heap st) /\
  forall c, mejor_modelo st = Some c -> c ∈ dom (st_heap st) /\ c <> modelo.

(** No checkpoint yet: the best score is still [-inf] and no score was
    above it; a checkpoint: some score was above [-inf]. *)
Definition inv_scores (st : @train_state num learned) : Prop :=
  (mejor_modelo st = None ->
     mejor_score st = neg_inf /\
     Forall (fun s => fgt s neg_inf = false) (st_scores st)) /\
  (is_Some (mejor_modelo st) ->
     Exists (fun s => fgt s neg_inf = true) (st_scores st)).

(** No computed score is above the best score, which is [-inf] or one of
    them. *)
Definition inv_best (st : @train_state num learned) : Prop :=
  Forall (fun s => fgt s (mejor_score st) = false) (st_scores st) /\
  (mejor_score st = neg_inf \/ mejor_score st ∈ st_scores st).

(** The state in which the loop starts. *)
Definition estado_inicial (h1 : gmap nat (pipeline learned)) (X y : list (list cell))
    (batch_size n_epochs : Z) : @train_state num learned :=
  St h1 neg_inf None
     [LogInicio n_epochs batch_size; LogDimensiones (length X) (length y)] [] [].

Definition es_epoca (ln : log_line num) : bool :=
  match ln with LogEpoca _ _ => true | _ => false end.

(** The number of epochs announced in a log. *)
Definition epocas (lg : list (log_line num)) : nat :=
  length (filter (fun ln => es_epoca ln = true) lg).

(** No batch the live pipeline was fitted on holds a row of the
    evaluation set. *)
Definition holdout_excluido (out : @salida num learned G) : Prop :=
  forall i b, i ∈ sal_indices_eval out -> b ∈ st_fits (sal_bucle out) -> i ∉ b.
End Nociones.

(** ** A small implementation of the interfaces

    Cells are rationals or NaN.  The only regressor is scikit-learn's
    [DummyRegressor] (it predicts the column means of the targets it was
    fitted on), alone or as the last step of a pipeline; an object whose
    last step is anything else is treated as a transformer, without
    [predict].  R2 and the mean squared error are the usual formulas, with
    [uniform_average] over the target columns.  Square roots are taken to
    a fixed number of Newton steps. *)

Module Toy.
Local Open Scope Q_scope.

Definition cell : Type := option Q.

Inductive float :=
  | NegInf
  | Num (q : Q)
  | NaN.

Definition float_gt (a b : float) : bool :=
  match a, b with
  | Num x, Num y => negb (Qle_bool x y)
  | Num _, NegInf => true
  | _, _ => false
  end.

Definition qsum (l : list Q) : Q := fold_right Qplus 0 l.

Definition qmean (l : list Q) : Q := Qred (qsum l / inject_Z (Z.of_nat (length l))).

Definition has_nan (M : list (list cell)) : bool :=
  existsb (existsb (fun c => match c with None => true | Some _ => false end)) M.

Definition valor (c : cell) : Q := match c with Some q => q | None => 0 end.

Definition n_cols (M : list (list cell)) : nat :=
  match M with [] => 0%nat | r :: _ => length r end.

Definition columna (j : nat) (M : list (list cell)) : list Q :=
  map (fun r => valor (nth j r None)) M.

Definition last_class (h : hyper) : string :=
  match h with
  | Bare cls _ => cls
  | Pipeline steps =>
      match last steps with
      | Some (_, PEst cls _) => cls
      | _ => ""
      end
  end.

Definition is_regressor (h : hyper) : bool := String.eqb (last_class h) "DummyRegressor".

Definition fit (h : hyper) (s : option (list Q)) (X y : list (list cell))
  : fit_outcome (list Q) :=
  if (length X =? 0)%nat then FitRaised (Exn ValueError "Found array with 0 sample(s)") s
  else if negb (length X =? length y)%nat
  then FitRaised (Exn ValueError "Found input variables with inconsistent numbers of samples") s
  else if has_nan y then FitRaised (Exn ValueError "Input y contains NaN") s
  else Fitted (map (fun j => qmean (columna j y)) (seq 0 (n_cols y))).

Definition predict (h : hyper) (s : option (list Q)) (X : list (list cell))
  : result (list (list cell)) :=
  if negb (is_regressor h) then Raise (Exn AttributeError "This object has no predict")
  else match s with
       | None => Raise (Exn NotFittedError "This instance is not fitted yet")
       | Some means => Ok (map (fun _ => map Some means) X)
       end.

Definition sq (q : Q) : Q := q * q.

Definition r2_columna (yt yp : list Q) : Q :=
  let m := qmean yt in
  let ss_res := qsum (map (fun '(a, b) => sq (a - b)) (combine yt yp)) in
  let ss_tot := qsum (map (fun a => sq (a - m)) yt) in
  if Qeq_bool ss_tot 0 then (if Qeq_bool ss_res 0 then 1 else 0)
  else 1 - ss_res / ss_tot.

Definition r2 (y_true y_pred : list (list cell)) : result float :=
  if negb (length y_true =? length y_pred)%nat
  then Raise (Exn ValueError "Found input variables with inconsistent numbers of samples")
  else if has_nan y_true || has_nan y_pred then Raise (Exn ValueError "Input contains NaN")
  else if (length y_true <? 2)%nat then Ok NaN
  else Ok (Num (qmean (map (fun j => r2_columna (columna j y_true) (columna j y_pred))
                           (seq 0 (n_cols y_true))))).

Definition mse (y_true y_pred : list (list cell)) : result float :=
  if negb (length y_true =? length y_pred)%nat
  then Raise (Exn ValueError "Found input variables with inconsistent numbers of samples")
  else if has_nan y_true || has_nan y_pred then Raise (Exn ValueError "Input contains NaN")
  else Ok (Num (qmean (map (fun j => qmean (map (fun '(a, b) => sq (a - b))
                                               (combine (columna j y_true) (columna j y_pred))))
                           (seq 0 (n_cols y_true))))).

Fixpoint newton (k : nat) (q x : Q) : Q :=
  match k with
  | O => x
  | S k' => newton k' q (Qred ((x + q / x) / 2))
  end.

Definition sqrt (a : float) : float :=
  match a with
  | Num q => if Qle_bool q 0 then (if Qeq_bool q 0 then Num 0 else NaN)
             else Num (newton 4 q (Qred ((q + 1) / 2)))
  | _ => NaN
  end.

Definition neg (a : float) : float :=
  match a with
  | Num q => Num (Qred (- q))
  | _ => NaN
  end.

Definition nums (l : list float) : option (list Q) :=
  mapM (fun a => match a with Num q => Some q | _ => None end) l.

Definition mean (l : list float) : float :=
  match nums l with
  | Some (q :: qs) => Num (qmean (q :: qs))
  | _ => NaN
  end.

Definition std (l : list float) : float :=
  match nums l with
  | Some (q :: qs) =>
      let m := qmean (q :: qs) in
      sqrt (Num (qmean (map (fun a => sq (a - m)) (q :: qs))))
  | _ => NaN
  end.

(** K-fold over contiguous folds of [length X / cv] rows. *)
Definition cv_score (h : hyper) (s : option (list Q)) (X y : list (list cell))
    (cv : Z) (sc : scoring) : result (list float) :=
  let n := length X in
  let k := Z.to_nat cv in
  if (cv <? 2)%Z then Raise (Exn ValueError "k-fold cross-validation requires at least one train/test split")
  else if (n <? k)%nat then Raise (Exn ValueError "Cannot have number of splits greater than the number of samples")
  else
    let w := (n / k)%nat in
    let fold (i : nat) : result float :=
      let X_te := take w (drop (i * w) X) in
      let y_te := take w (drop (i * w) y) in
      let X_tr := (take (i * w) X ++ drop (i * w + w) X)%list in
      let y_tr := (take (i * w) y ++ drop (i * w + w) y)%list in
      match fit h None X_tr y_tr with
      | FitRaised e _ => Raise e
      | Fitted means =>
          y_pred <-r predict h (Some means) X_te ;;
          match sc with
          | ScoringR2 => r2 y_te y_pred
          | ScoringNegMSE => v <-r mse y_te y_pred ;; Ok (neg v)
          end
      end in
    (fix go (l : list nat) : result (list float) :=
       match l with
       | [] => Ok []
       | i :: l' => a <-r fold i ;; rest <-r go l' ;; Ok (a :: rest)
       end) (seq 0 k).

Definition imputer_column (M : list (list cell)) (j : nat) : option Q :=
  match omap id (map (fun r => nth j r None) M) with
  | [] => None
  | q :: qs => Some (qmean (q :: qs))
  end.

(** Missing cells take the mean of their column; a column without any
    value is dropped. *)
Definition imputer_mean (M : list (list cell)) : result (list (list cell)) :=
  let stats := map (imputer_column M) (seq 0 (n_cols M)) in
  Ok (map (fun r =>
             omap (fun '(c, st) =>
                     match st with
                     | None => None
                     | Some m => Some (Some (match c with Some q => q | None => m end))
                     end)
                  (combine r stats)) M).

#[global] Instance toy_float : PyFloat float :=
  {| neg_inf := NegInf; fgt := float_gt |}.

#[global] Instance toy_sklearn : Sklearn cell float (list Q) :=
  {| sk_fit := fit;
     sk_predict := predict;
     sk_outputs := fun means => Z.of_nat (length means);
     sk_n_outputs_attr := fun h s =>
       match h, s with
       | Bare _ _, Some means => Some (Z.of_nat (length means))
       | _, _ => None
       end;
     sk_imputer_statistics := fun h s => match s with Some _ => true | None => false end;
     r2_score := r2;
     mean_squared_error := mse;
     cross_val_score := cv_score;
     np_mean := mean;
     np_std := std;
     np_sqrt := sqrt;
     np_neg := neg;
     simple_imputer_mean := imputer_mean |}.

(** Files can be written anywhere but under [/proc].  Of the report
    only the writing is taken in, not the arithmetic of the plots on
    [y_val] and the predictions: on a data frame with one target column
    and the prediction of a regressor for a single output that arithmetic
    raises [ValueError] (line 103 of [evaluacion.py]), which is why the
    runs of the branch without [--incremental] that go through the report
    are on two targets, where a prediction has the shape of the targets. *)
Definition escribible (path : string) : bool := negb (String.prefix "/proc" path).

#[global] Instance toy_io : ReportIO cell float :=
  {| json_dump_file := fun path _ =>
       if escribible path then Ok tt else Raise (Exn OSError "Permission denied");
     render_informe := fun _ _ dir =>
       if escribible dir then Ok tt else Raise (Exn OSError "Permission denied") |}.

(** The generator is a counter; drawing rotates by it. *)
Definition rotar {A} (k : nat) (l : list A) : list A :=
  (drop (k mod length l) l ++ take (k mod length l) l)%list.

Definition choice (a size : Z) (g : nat) : result (list nat) * nat :=
  if ((size <? 0) || (a <? size))%Z
  then (Raise (Exn ValueError "Cannot take a larger sample than population"), g)
  else (Ok (take (Z.to_nat size) (rotar g (seq 0 (Z.to_nat a)))), S g).

#[global] Instance toy_random : NumpyRandom nat :=
  {| random_choice := choice;
     random_shuffle := fun l g => (rotar g l, S g) |}.

Definition dummy_pipeline : hyper :=
  Pipeline [("imputer", PEst "SimpleImputer" [("strategy", PStr "median")]);
            ("model", PEst "DummyRegressor" [("strategy", PStr "mean")])].
End Toy.

(** ** Concrete inputs *)

Module Ejemplo.
Import Toy.

(** Two rows, one feature, one target. *)
Definition X2 : table cell := NdArray [[Some (0 # 1)]; [Some (1 # 1)]].
Definition y2 : table cell := NdArray [[Some (0 # 1)]; [Some (2 # 1)]].

(** The same features with a missing target in the second row. *)
Definition y_nan : table cell := NdArray [[Some (0 # 1)]; [None]].

(** A store with one unfitted pipeline. *)
Definition store0 : gmap nat (pipeline (list Q)) :=
  {[ 0%nat := Obj dummy_pipeline None ]}.

(** The live pipeline after a fit on both rows, and the loop state
    before the first batch. *)
Definition store1 : gmap nat (pipeline (list Q)) :=
  {[ 0%nat := Obj dummy_pipeline (Some [1 # 1]) ]}.

Definition estado1 : @train_state float (list Q) :=
  St store1 NegInf None [] [] [].

(** A pipeline that was fitted on two target columns, stored with the
    names of its columns. *)
Definition store_dos : gmap nat (pipeline (list Q)) :=
  {[ 0%nat := Obj dummy_pipeline (Some [1 # 1; 5 # 1]) ]}.

(** The same for a bare regressor, which shows [n_outputs_]. *)
Definition store_bare : gmap nat (pipeline (list Q)) :=
  {[ 0%nat := Obj (Bare "DummyRegressor" [("strategy", PStr "mean")])
                  (Some [1 # 1; 5 # 1]) ]}.

Definition guardado : bundle :=
  Bundle (Some 0%nat) (Some ["sessions"; "activeUsers"]).

Definition X_frame : frame cell :=
  Frame ["sessions"; "bounceRate"; "activeUsers"]
        [[Some (3 # 1); None; Some (2 # 1)];
         [Some (4 # 1); Some (1 # 2); Some (4 # 1)]].

(** Features without the stored column [activeUsers]. *)
Definition X_frame_sin : frame cell :=
  Frame ["sessions"] [[Some (3 # 1)]; [Some (4 # 1)]].

Definition y_frame3 : frame cell :=
  Frame ["engagementRate"; "conversions"; "purchaseRevenue"]
        [[Some (1 # 1); Some (0 # 1); Some (9 # 1)];
         [Some (2 # 1); Some (1 # 1); Some (7 # 1)]].

Definition y_frame2 : frame cell :=
  Frame ["engagementRate"; "conversions"]
        [[Some (1 # 1); Some (0 # 1)]; [Some (2 # 1); Some (1 # 1)]].


Definition dummy_fitted : pipeline (list Q) := Obj dummy_pipeline (Some [1 # 1]).
End Ejemplo.

(** * Further code and notions *)

(** A batch as the loop cuts it: between one and [b] row indices, all
    different, all rows of the data. *)
Definition batch_bien_formado (b n : nat) (bi : list nat) : Prop :=
  (0 < length bi <= b)%nat /\ NoDup bi /\ Forall (fun i => (i < n)%nat) bi.

Section NocionesExtra.
Context {cell num learned : Type} `{!Sklearn cell num learned}.

(** A successful [fit] learns the same from the same data whatever the
    object had learned before (no warm start inside the estimator). *)
Definition fit_sin_memoria : Prop :=
  forall hp (s : option learned) (X y : list (list cell)) l,
    sk_fit hp s X y = Fitted l -> sk_fit hp None X y = Fitted l.
End NocionesExtra.

Section NocionesLote.
Context {cell num learned : Type} `{!Sklearn cell num learned} `{!PyFloat num}.

(** The exception, if any, that ends the [try] of a batch (lines 96-109):
    raised by the fit of the live pipeline, the prediction or the scoring
    or, when the score is a new best, by the fit of the clone. *)
Definition batch_falla (h : gmap nat (pipeline learned)) (modelo : nat)
    (X_eval y_eval X_batch y_batch : list (list cell)) (mejor : num) : option exn :=
  match batch_score h modelo X_eval y_eval X_batch y_batch with
  | Raise e => Some e
  | Ok score =>
      if fgt score mejor then
        let h1 := (call_fit h modelo X_batch y_batch).1 in
        let '(h2, c) := call_clone h1 modelo in
        match (call_fit h2 c X_batch y_batch).2 with
        | Raise e => Some e
        | Ok _ => None
        end
      else None
  end.

Definition es_error_batch (ln : log_line num) : bool :=
  match ln with LogErrorBatch _ _ _ => true | _ => false end.
End NocionesLote.

Section NocionesCarga.
Context {cell num learned : Type} `{!Sklearn cell num learned}.

(** What lines 76-93 of [main] print while a stored model is taken over,
    whether or not the selection [X[columnas_modelo]] that follows
    raises. *)
Definition avisos_de_carga (h : gmap nat (pipeline learned)) (almacenado : option bundle)
    (y : frame cell) (columnas_procesadas : list string) : list aviso :=
  match almacenado with
  | None => []
  | Some modelo_dict =>
      match b_modelo modelo_dict with
      | None => []
      | Some l =>
          match h !! l with
          | None => []
          | Some p =>
              match objetivos_incompatibles p y with
              | Some (k, n) => [AvisoObjetivos k n]
              | None => []
              end
              ++ match columnas_distintas (b_columnas modelo_dict) columnas_procesadas with
                 | Some columnas_modelo =>
                     [AvisoCaracteristicas
                        (list_to_set columnas_modelo ∖ list_to_set columnas_procesadas)
                        (list_to_set columnas_procesadas ∖ list_to_set columnas_modelo)]
                 | None => []
                 end
          end
      end
  end.
End NocionesCarga.

(** ** [entrenar_modelo.py], lines 59-65: rows with a missing target *)

Section Faltantes.
Context {cell : Type} (isnan : cell -> bool).

Definition fila_completa (r : list cell) : bool := negb (existsb isnan r).

(** [M[mask]] with a boolean mask: the rows where the mask is [True]. *)
Fixpoint filtrar_mascara {A} (M : list A) (mask : list bool) : list A :=
  match M, mask with
  | r :: M', b :: mask' =>
      if b then r :: filtrar_mascara M' mask' else filtrar_mascara M' mask'
  | _, _ => []
  end.

(** [if np.any(pd.isnull(y)): mask = ~np.isnan(y).any(axis=1);
     X = X[mask]; y = y[mask]].  [X] and [y] are cut from the same frame
    and carry the same row index; the targets are numeric, where
    [pd.isnull] and [np.isnan] agree. *)
Definition filtrar_objetivos_faltantes (X y : frame cell) : frame cell * frame cell :=
  if existsb (existsb isnan) (rows y)
  then let mask := map fila_completa (rows y) in
       (Frame (columns X) (filtrar_mascara (rows X) mask),
        Frame (columns y) (filtrar_mascara (rows y) mask))
  else (X, y).
End Faltantes.

(** ** [entrenar_modelo.py], lines 106-147: the branch without [--incremental] *)

(** [joblib.dump] of the dictionary with the model and the columns. *)
Class JoblibIO (learned : Type) := {
  joblib_dump : string -> pipeline learned -> list string -> result unit;
}.

Section Tradicional.
Context {cell num learned : Type}.
Context `{!Sklearn cell num learned} `{!ReportIO cell num} `{!JoblibIO learned}.

(** Lines 107-123: which model is trained. *)
Definition elegir_modelo (h : gmap nat (pipeline learned)) (almacenado : option bundle)
    (columnas_procesadas : list string) : result (gmap nat (pipeline learned) * nat) :=
  match almacenado with
  | None => Ok (alloc h (Obj crear_pipeline_multioutput None))
  | Some modelo_dict =>
      match columnas_distintas (b_columnas modelo_dict) columnas_procesadas with
      | Some _ => Ok (alloc h (Obj crear_pipeline_multioutput None))
      | None =>
          match b_modelo modelo_dict with
          | Some l => Ok (h, l)
          | None => Raise (Exn KeyError "modelo")
          end
      end
  end.

(** What a run leaves: the store, the files written (the bundle, then
    the metrics) and how it ended; [Ok] also stands for the early
    [return]. *)
Record traza := Traza {
  tr_heap : gmap nat (pipeline learned);
  tr_guardado : option bundle;
  tr_metricas : option (gmap string (gmap string (jval num)));
  tr_fin : result unit;
}.

(** Lines 125-147: fit, check of the outputs, evaluation, report, and
    only then the two files. *)
Definition entrenar_y_guardar (h0 : gmap nat (pipeline learned)) (m : nat)
    (X_train y_train X_val y_val : frame cell) (columnas_procesadas : list string)
    (salida ruta_modelo : string) : traza :=
  let '(h1, r1) := call_fit h0 m (rows X_train) (rows y_train) in
  match r1, h1 !! m with
  | Raise e, _ => Traza h1 None None (Raise e)
  | Ok _, None => Traza h1 None None (Raise (Exn AttributeError "no such object"))
  | Ok _, Some p =>
      match objetivos_incompatibles p y_val with
      | Some _ => Traza h1 None None (Ok tt)
      | None =>
          match evaluar_modelo p (rows X_train) (rows y_train)
                  (Some (rows X_val)) (Some (rows y_val)) 5 with
          | Raise e => Traza h1 None None (Raise e)
          | Ok resultados =>
              let '(h2, r2) := generar_informe h1 m (rows X_val) (rows y_val) salida in
              match r2, h2 !! m with
              | Raise e, _ => Traza h2 None None (Raise e)
              | Ok _, None => Traza h2 None None (Raise (Exn AttributeError "no such object"))
              | Ok _, Some p2 =>
                  match joblib_dump ruta_modelo p2 columnas_procesadas with
                  | Raise e => Traza h2 None None (Raise e)
                  | Ok _ =>
                      let guardado := Bundle (Some m) (Some columnas_procesadas) in
                      match json_dump_file (salida ++ "/resultados_modelo.json") resultados with
                      | Raise e => Traza h2 (Some guardado) None (Raise e)
                      | Ok _ => Traza h2 (Some guardado) (Some resultados) (Ok tt)
                      end
                  end
              end
          end
      end
  end.

Definition rama_tradicional (h : gmap nat (pipeline learned)) (almacenado : option bundle)
    (X_train y_train X_val y_val : frame cell) (columnas_procesadas : list string)
    (salida ruta_modelo : string) : traza :=
  match elegir_modelo h almacenado columnas_procesadas with
  | Raise e => Traza h None None (Raise e)
  | Ok (h0, m) =>
      entrenar_y_guardar h0 m X_train y_train X_val y_val columnas_procesadas
                         salida ruta_modelo
  end.
End Tradicional.

(** ** [utils/datos.py], lines 8-28 *)

(** pandas as [cargar_multiples_archivos] uses it. *)
Class Pandas (cell : Type) := {
  read_csv : string -> result (frame cell);
  pd_concat : list (frame cell) -> result (frame cell);
  drop_duplicates : frame cell -> result (frame cell);
}.

Section Datos.
Context {cell : Type} `{!Pandas cell}.

(** The frames of the files that could be read, in the order of the
    list. *)
Definition cargar_dataframes (archivos_csv : list string) : list (frame cell) :=
  flat_map (fun archivo => match read_csv archivo with
                           | Ok df => [df]
                           | Raise _ => []
                           end) archivos_csv.

Definition cargar_multiples_archivos (archivos_csv : list string) : result (frame cell) :=
  match cargar_dataframes archivos_csv with
  | [] => Raise (Exn ValueError "No se pudo cargar ningún archivo de datos")
  | dataframes =>
      datos_combinados <-r pd_concat dataframes ;;
      drop_duplicates datos_combinados
  end.
End Datos.

(** ** [utils/train_column.py] of the add-on, lines 76-112: the targets *)

Definition mapeo_columnas : list (string * list string) :=
  [("engagementRate", ["engagementRate"]);
   ("sessions", ["sessions"]);
   ("activeUsers", ["activeUsers"; "users"])].

Fixpoint alternativas (col_deseada : string) (mapeo : list (string * list string))
  : option (list string) :=
  match mapeo with
  | [] => None
  | (k, alts) :: mapeo' =>
      if String.eqb col_deseada k then Some alts else alternativas col_deseada mapeo'
  end.

(** The first alternative name that is a column of the frame. *)
Fixpoint primera_presente (cols alts : list string) : option string :=
  match alts with
  | [] => None
  | alt :: alts' => if has_column cols alt then Some alt else primera_presente cols alts'
  end.

(** The column that stands for a requested target, if any. *)
Definition resolver_objetivo (cols : list string) (col_deseada : string) : option string :=
  if has_column cols col_deseada then Some col_deseada
  else match alternativas col_deseada mapeo_columnas with
       | Some alts => primera_presente cols alts
       | None => None
       end.

(** [columnas_disponibles] paired with [mapeo_final]. *)
Definition objetivos_disponibles (cols columnas_objetivo : list string)
  : list (string * string) :=
  match columnas_objetivo with
  | [] => flat_map (fun '(k, _) => if has_column cols k then [(k, k)] else [])
                   mapeo_columnas
  | _ => flat_map (fun c => match resolver_objetivo cols c with
                            | Some alt => [(c, alt)]
                            | None => []
                            end) columnas_objetivo
  end.

Section Objetivos.
Context {cell : Type}.

(** Lines 76-112: the targets that are available, the frame [y] cut out
    under their requested names, or [ValueError] when none is.  (The
    message of the source also lists the columns of the frame.) *)
Definition seleccionar_objetivos (df : frame cell) (columnas_objetivo : option (list string))
  : result (frame cell * list string) :=
  let pares := objetivos_disponibles (columns df)
                 (match columnas_objetivo with Some l => l | None => [] end) in
  let columnas_disponibles := map fst pares in
  match pares with
  | [] => Raise (Exn ValueError "No se encontraron las columnas objetivo en el CSV")
  | _ =>
      y <-r getitem_columns df (map snd pares) ;;
      if (length (columns y) =? length columnas_disponibles)%nat
      then Ok (Frame columnas_disponibles (rows y), columnas_disponibles)
      else Raise (Exn ValueError "Length mismatch")
  end.
End Objetivos.

(** ** The metrics file and its reader ([models/model_trainer.py], lines 201-212) *)

Section Resumen.
Context {cell num learned : Type} `{!Sklearn cell num learned}.

(** The entries of the cross-validation dictionary in the order in which
    [evaluar_modelo] writes them. *)
Definition cv_items (p : pipeline learned) (X y : list (list cell)) (cv : Z)
  : list (string * jval num) :=
  let no_disponible (e : exn) : list (string * jval num) :=
    [("r2_mean", JNone); ("r2_std", JNone); ("rmse_mean", JNone);
     ("rmse_std", JNone); ("mse_mean", JNone); ("mse_std", JNone);
     ("error", JStr (exn_msg e))] in
  match cross_val_score (params p) (state p) X y cv ScoringR2 with
  | Raise e => no_disponible e
  | Ok cv_scores =>
      match cross_val_score (params p) (state p) X y cv ScoringNegMSE with
      | Raise e => no_disponible e
      | Ok neg_scores =>
          let mse_scores := map np_neg neg_scores in
          let rmse_scores := map np_sqrt mse_scores in
          [("r2_mean", JNum (np_mean cv_scores)); ("r2_std", JNum (np_std cv_scores));
           ("rmse_mean", JNum (np_mean rmse_scores)); ("rmse_std", JNum (np_std rmse_scores));
           ("mse_mean", JNum (np_mean mse_scores)); ("mse_std", JNum (np_std mse_scores))]
      end
  end.

Definition validacion_items (p : pipeline learned) (X_val y_val : list (list cell))
  : result (list (string * jval num)) :=
  let metricas :=
    y_pred <-r sk_predict (params p) (state p) X_val ;;
    val_mse <-r mean_squared_error y_val y_pred ;;
    val_r2 <-r r2_score y_val y_pred ;;
    Ok [("r2", JNum val_r2); ("rmse", JNum (np_sqrt val_mse)); ("mse", JNum val_mse)] in
  match metricas with
  | Ok d => Ok d
  | Raise e =>
      if isinstance_ValueError e
      then Ok [("r2", JNone); ("rmse", JNone); ("mse", JNone)]
      else Raise e
  end.

(** The dictionary of [evaluar_modelo] with the order of its keys, which
    is the order [json.dump] writes and [json.load] gives back. *)
Definition resultados_items (p : pipeline learned) (X y : list (list cell))
    (X_val y_val : option (list (list cell))) (cv : Z)
  : result (list (string * list (string * jval num))) :=
  let cv_entry := ("cv", cv_items p X y cv) in
  match X_val, y_val with
  | Some Xv, Some yv =>
      d <-r validacion_items p Xv yv ;;
      Ok [cv_entry; ("validation", d)]
  | _, _ => Ok [cv_entry]
  end.

(** From the ordered entries to the dictionary. *)
Definition a_diccionario (items : list (string * list (string * jval num)))
  : gmap string (gmap string (jval num)) :=
  list_to_map (map (fun kv => (kv.1, list_to_map kv.2)) items).

Context (formato_4f : num -> string).

Definition salto : string := String (Ascii.ascii_of_nat 10) EmptyString.

(** [f"{v:.4f}"] *)
Definition formato_valor (v : jval num) : result string :=
  match v with
  | JNum x => Ok (formato_4f x)
  | JNone => Raise (Exn TypeError "unsupported format string passed to NoneType.__format__")
  | JStr _ => Raise (Exn ValueError "Unknown format code 'f' for object of type 'str'")
  end.

Fixpoint resumen_valores (resumen : string) (valores : list (string * jval num))
  : result string :=
  match valores with
  | [] => Ok resumen
  | (k, v) :: valores' =>
      s <-r formato_valor v ;;
      resumen_valores (resumen ++ "  - " ++ k ++ ": " ++ s ++ salto)%string valores'
  end.

Fixpoint resumen_metricas (resumen : string)
    (resultados : list (string * list (string * jval num))) : result string :=
  match resultados with
  | [] => Ok resumen
  | (metrica, valores) :: resultados' =>
      r <-r resumen_valores (resumen ++ metrica ++ ":" ++ salto)%string valores ;;
      resumen_metricas r resultados'
  end.

(** Lines 201-212; [archivo] is what [json.load] gives when the metrics
    file exists. *)
Definition resumen_entrenamiento
    (archivo : option (list (string * list (string * jval num)))) : result string :=
  match archivo with
  | Some resultados =>
      resumen_metricas (salto ++ "Resumen de resultados:" ++ salto)%string resultados
  | None => Ok (salto ++ "No se encontraron métricas detalladas del entrenamiento.")%string
  end.
End Resumen.

(** ** [models/model_trainer.py], lines 83-125: the targets the add-on asks for *)

(** The values of the selection field [tipo_modelo]. *)
Inductive tipo_modelo := Conversiones | Engagement | Todos.

Definition metricas (t : tipo_modelo) : list string :=
  match t with
  | Conversiones => ["eventCount"; "eventsPerSession"; "screenPageViews"]
  | Engagement => ["engagementRate"; "sessions"; "activeUsers"]
  | Todos => ["eventCount"; "eventsPerSession"; "screenPageViews";
              "engagementRate"; "sessions"; "activeUsers";
              "bounceRate"; "sessionsPerUser"; "userEngagementDuration"]
  end.

(** How the method ends: it returns the list, or raises [UserError]. *)
Inductive fin_metricas :=
  | Devuelve (metricas_objetivo : list string)
  | UserError (mensaje : string).

(** [csv] is [None] when the record has no file, and otherwise what
    decoding and reading it gives: the columns of the frame, or the
    exception raised on the way. *)
Definition definir_metricas_objetivo (tipo : tipo_modelo)
    (csv : option (result (list string))) : fin_metricas :=
  let error_de_lectura (msg : string) :=
    UserError ("Error al leer el archivo CSV: " ++ msg)%string in
  match csv with
  | None => Devuelve (metricas tipo)
  | Some (Raise e) => error_de_lectura (exn_msg e)
  | Some (Ok columnas_disponibles) =>
      let metricas_requeridas := metricas tipo in
      let metricas_faltantes :=
        List.filter (fun m => negb (has_column columnas_disponibles m)) metricas_requeridas in
      match metricas_faltantes with
      | [] => Devuelve (metricas tipo)
      | _ =>
          error_de_lectura
            ("Faltan las siguientes métricas en el CSV: "
             ++ String.concat ", " metricas_faltantes
             ++ ". Por favor, asegúrese de incluir estas métricas al descargar los datos de GA4.")%string
      end
  end.

(** ** More of the small implementation, and more inputs *)

Module ToyMas.
Import Toy.

#[global] Instance toy_joblib : JoblibIO (list Q) :=
  {| joblib_dump := fun path _ _ =>
       if escribible path then Ok tt else Raise (Exn OSError "Permission denied") |}.

Definition es_nan (c : cell) : bool :=
  match c with None => true | Some _ => false end.

(** Ten-thousandths, rounded down, instead of four decimals. *)
Definition formato (a : float) : string :=
  match a with
  | Num q => (pretty ((Qnum q * 10000) / Z.pos (Qden q))%Z ++ "e-4")%string
  | NegInf => "-inf"
  | NaN => "nan"
  end.

(** Targets with a missing value in the second of three rows. *)
Definition X_tres : frame cell :=
  Frame ["sessions"] [[Some (3 # 1)]; [Some (4 # 1)]; [Some (5 # 1)]].
Definition y_tres : frame cell :=
  Frame ["engagementRate"] [[Some (1 # 1)]; [None]; [Some (2 # 1)]].

(** Train and validation parts for the branch without [--incremental]. *)
Definition X_train : frame cell :=
  Frame ["sessions"] [[Some (3 # 1)]; [Some (4 # 1)]].
Definition y_train : frame cell :=
  Frame ["engagementRate"] [[Some (1 # 1)]; [Some (3 # 1)]].
Definition X_val : frame cell :=
  Frame ["sessions"] [[Some (5 # 1)]; [Some (6 # 1)]].
Definition y_val : frame cell :=
  Frame ["engagementRate"] [[Some (2 # 1)]; [Some (4 # 1)]].

(** Twelve rows; the target of the last one is missing. *)
Definition X_doce : table cell :=
  NdArray (map (fun i => [Some (inject_Z (Z.of_nat i))]) (seq 0 12)).
Definition y_doce : table cell :=
  NdArray (map (fun i => [if (i =? 11)%nat then None else Some (inject_Z (Z.of_nat i))])
               (seq 0 12)).

(** Train and validation parts with two targets. *)
Definition X_train2 : frame cell :=
  Frame ["activeUsers"] [[Some (3 # 1)]; [Some (4 # 1)]; [Some (6 # 1)]].
Definition y_train2 : frame cell :=
  Frame ["engagementRate"; "sessions"]
        [[Some (1 # 1); Some (5 # 1)]; [Some (3 # 1); Some (9 # 1)];
         [Some (2 # 1); Some (7 # 1)]].
Definition X_val2 : frame cell :=
  Frame ["activeUsers"] [[Some (5 # 1)]; [Some (6 # 1)]; [Some (8 # 1)]].
Definition y_val2 : frame cell :=
  Frame ["engagementRate"; "sessions"]
        [[Some (2 # 1); Some (4 # 1)]; [Some (4 # 1); Some (6 # 1)];
         [Some (3 # 1); Some (11 # 1)]].

(** The data of a run on the target [engagementRate] alone, from a file
    with the columns [engagementRate] and [sessions]. *)
Definition X_cuatro : frame cell :=
  Frame ["sessions"] [[Some (3 # 1)]; [Some (4 # 1)]; [Some (6 # 1)]; [Some (7 # 1)]].
Definition y_cuatro : frame cell :=
  Frame ["engagementRate"]
        [[Some (1 # 2)]; [Some (1 # 4)]; [Some (3 # 4)]; [Some (1 # 1)]].

(** The bundle of an earlier run on the targets [engagementRate] and
    [sessions]: [main] stores the list that the selection of the columns
    returns third, which holds the names of the targets. *)
Definition guardado_objetivos : bundle :=
  Bundle (Some 0%nat) (Some ["engagementRate"; "sessions"]).

(** A bundle whose column list is not the current one. *)
Definition guardado_otro : bundle := Bundle (Some 0%nat) (Some ["bounceRate"]).

(** A frame where the active users are in the column [users]. *)
Definition df_ga : frame cell :=
  Frame ["date"; "sessions"; "users"]
        [[Some (1 # 1); Some (3 # 1); Some (2 # 1)];
         [Some (2 # 1); Some (4 # 1); Some (4 # 1)]].

(** A frame with the three engagement metrics and one more column. *)
Definition df_engagement : frame cell :=
  Frame ["date"; "activeUsers"; "sessions"; "engagementRate"]
        [[Some (1 # 1); Some (2 # 1); Some (3 # 1); Some (1 # 2)];
         [Some (2 # 1); Some (4 # 1); Some (4 # 1); Some (1 # 4)]].

(** A bare regressor fitted on one target. *)
Definition store_bare1 : gmap nat (pipeline (list Q)) :=
  {[ 0%nat := Obj (Bare "DummyRegressor" [("strategy", PStr "mean")]) (Some [1 # 1]) ]}.
End ToyMas.

(** * Properties *)

(** ** Indexing and batches *)

Lemma take_rows_ok {A} (M : list A) (idx : list nat) :
  Forall (fun i => (i < length M)%nat) idx ->
  exists rs, take_rows M idx = Ok rs /\ length rs = length idx.
Proof.
  induction 1 as [|i idx Hi _ [rs [IH Hlen]]]; simpl.
  - by exists [].
  - destruct (lookup_lt_is_Some_2 M i Hi) as [r ->].
    rewrite IH. exists (r :: rs). by rewrite /= Hlen.
Qed.

Lemma slice_elem {A} (l : list A) (a b : nat) (x : A) : x ∈ slice l a b -> x ∈ l.
Proof.
  unfold slice. intros Hx.
  apply (subseteq_drop a l), (subseteq_take (b - a) (drop a l)), Hx.
Qed.

Lemma py_range_pos (n : nat) (step : Z) :
  (0 < step)%Z ->
  py_range n step =
  Ok (map (fun k => k * Z.to_nat step)%nat (seq 0 ((n + Z.to_nat step - 1) / Z.to_nat step)%nat)).
Proof.
  intros Hs. unfold py_range.
  destruct (Z.eqb_spec step 0) as [->|_]; [lia|].
  destruct (Z.ltb_spec step 0); [lia|done].
Qed.

(** The first [j] batches of size [b] make up the first [j * b] entries. *)
Lemma batches_prefix {A} (l : list A) (b j : nat) :
  concat (map (fun s => slice l s (Nat.min (s + b) (length l)))
              (map (fun k => k * b)%nat (seq 0 j)))
  = take (j * b) l.
Proof.
  induction j as [|j IH]; [done|].
  rewrite seq_S !map_app concat_app IH /= app_nil_r.
  unfold slice.
  destruct (Nat.le_gt_cases (j * b + b) (length l)) as [Hle|Hgt].
  - rewrite (Nat.min_l _ _ Hle).
    replace (j * b + b - j * b)%nat with b by lia.
    replace (b + j * b)%nat with (j * b + b)%nat by lia.
    by rewrite take_take_drop.
  - rewrite (Nat.min_r (j * b + b) (length l)); [lia|].
    rewrite (take_ge l (b + j * b)); [lia|].
    destruct (Nat.le_gt_cases (j * b) (length l)) as [Hle'|Hgt'].
    + rewrite take_take_drop.
      replace (j * b + (length l - j * b))%nat with (length l) by lia.
      by rewrite take_ge.
    + rewrite (take_ge l (j * b)); [lia|].
      rewrite drop_ge; [lia|]. by rewrite take_nil app_nil_r.
Qed.

(** The batches of one epoch, in order, are the shuffled index array. *)
Lemma batches_cover {A} (l : list A) (b : nat) :
  (0 < b)%nat ->
  concat (map (fun s => slice l s (Nat.min (s + b) (length l)))
              (map (fun k => k * b)%nat (seq 0 ((length l + b - 1) / b)%nat)))
  = l.
Proof.
  intros Hb. rewrite batches_prefix. apply take_ge.
  pose proof (Nat.div_mod_eq (length l + b - 1) b) as Hdm.
  pose proof (Nat.mod_upper_bound (length l + b - 1) b ltac:(lia)) as Hm.
  nia.
Qed.

(** ** The store *)

Section Store.
Context {cell num learned : Type} `{!Sklearn cell num learned}.
Implicit Types (h : gmap nat (pipeline learned)) (l c : nat).

Lemma call_fit_lookup h l p X y :
  h !! l = Some p -> (call_fit h l X y).1 !! l = Some (despues_de_fit p X y).
Proof.
  intros Hp. unfold call_fit, despues_de_fit. rewrite Hp.
  destruct (sk_fit _ _ _ _); simpl; by rewrite lookup_insert_eq.
Qed.

Lemma call_fit_lookup_ne h l l' X y :
  l' <> l -> (call_fit h l X y).1 !! l' = h !! l'.
Proof.
  intros Hne. unfold call_fit.
  destruct (h !! l) as [p|]; [|done].
  destruct (sk_fit _ _ _ _); simpl; by rewrite lookup_insert_ne.
Qed.

Lemma call_fit_dom h l X y : dom (call_fit h l X y).1 = dom h.
Proof.
  unfold call_fit.
  destruct (h !! l) as [p|] eqn:Hp; [|done].
  assert (Hin : l ∈ dom h) by (apply elem_of_dom; eauto).
  destruct (sk_fit _ _ _ _); simpl; rewrite dom_insert_L;
    by apply subseteq_union_1_L, singleton_subseteq_l.
Qed.

Lemma call_fit_ok h l X y u :
  (call_fit h l X y).2 = Ok u -> l ∈ dom h.
Proof.
  unfold call_fit. destruct (h !! l) as [p|] eqn:Hp; [|done].
  intros _. apply elem_of_dom; eauto.
Qed.

Lemma call_clone_fresh h l : (call_clone h l).2 ∉ dom h.
Proof.
  unfold call_clone. destruct (h !! l); simpl; apply is_fresh.
Qed.

Lemma call_clone_lookup h l p :
  h !! l = Some p -> (call_clone h l).1 !! (call_clone h l).2 = Some (clone p).
Proof.
  intros Hp. unfold call_clone. rewrite Hp /=. by rewrite lookup_insert_eq.
Qed.

Lemma call_clone_lookup_old h l l' :
  l' ∈ dom h -> (call_clone h l).1 !! l' = h !! l'.
Proof.
  intros Hl'. unfold call_clone. destruct (h !! l); [|done]. simpl.
  rewrite lookup_insert_ne; [|done].
  intros <-. by apply (is_fresh (dom h)).
Qed.

Lemma call_clone_dom h l : dom h ⊆ dom (call_clone h l).1.
Proof.
  unfold call_clone. destruct (h !! l); [|done]. simpl.
  rewrite dom_insert_L. set_solver.
Qed.

Lemma call_clone_new_dom h l p :
  h !! l = Some p -> (call_clone h l).2 ∈ dom (call_clone h l).1.
Proof.
  intros Hp. apply elem_of_dom. rewrite (call_clone_lookup _ _ _ Hp). eauto.
Qed.
End Store.

(** ** One batch *)

Section Batch.
Context {cell num learned : Type}.
Context `{!Sklearn cell num learned} `{!PyFloat num}.
Implicit Types (st : @train_state num learned).

(** The three ways a batch can go. *)
Lemma batch_step_cases modelo X_eval y_eval n b st start bi Xb yb :
  let h1 := (call_fit (st_heap st) modelo Xb yb).1 in
  let c := (call_clone h1 modelo).2 in
  let st' := batch_step modelo X_eval y_eval n b st start bi Xb yb in
  (exists e,
      batch_score (st_heap st) modelo X_eval y_eval Xb yb = Raise e /\
      st' = St h1 (mejor_score st) (mejor_modelo st)
               (st_log st ++ [LogErrorBatch start (Nat.min (start + b) n) (exn_msg e)])
               (st_fits st ++ [bi]) (st_scores st)) \/
  (exists score lg,
      batch_score (st_heap st) modelo X_eval y_eval Xb yb = Ok score /\
      fgt score (mejor_score st) = false /\
      st' = St h1 (mejor_score st) (mejor_modelo st) lg
               (st_fits st ++ [bi]) (st_scores st ++ [score])) \/
  (exists score lg,
      batch_score (st_heap st) modelo X_eval y_eval Xb yb = Ok score /\
      fgt score (mejor_score st) = true /\
      st' = St (call_fit (call_clone h1 modelo).1 c Xb yb).1 score (Some c) lg
               (st_fits st ++ [bi]) (st_scores st ++ [score])).
Proof.
  intros h1 c st'. subst h1 c st'. unfold batch_step, batch_score.
  destruct (call_fit (st_heap st) modelo Xb yb) as [h1 [u|e]] eqn:Hfit; simpl.
  2: { left. by exists e. }
  destruct (call_predict h1 modelo X_eval) as [y_pred|e]; simpl.
  2: { left. by exists e. }
  destruct (r2_score y_eval y_pred) as [score|e]; simpl.
  2: { left. by exists e. }
  destruct (fgt score (mejor_score st)) eqn:Hgt.
  - right; right.
    destruct (call_clone h1 modelo) as [h2 c] eqn:Hclone. simpl.
    destruct (call_fit h2 c Xb yb) as [h3 [u3|e3]] eqn:Hfit3; simpl.
    + unfold batch_progreso.
      destruct (_ =? _)%nat; eexists score, _; (split; [done|split; [done|reflexivity]]).
    + eexists score, _. split; [done|split; [done|reflexivity]].
  - right; left. unfold batch_progreso.
    destruct (_ =? _)%nat; eexists score, _; (split; [done|split; [done|reflexivity]]).
Qed.

Lemma batch_step_fits modelo X_eval y_eval n b st start bi Xb yb :
  st_fits (batch_step modelo X_eval y_eval n b st start bi Xb yb) = st_fits st ++ [bi].
Proof.
  destruct (batch_step_cases modelo X_eval y_eval n b st start bi Xb yb)
    as [(e & _ & ->)|[(s & lg & _ & _ & ->)|(s & lg & _ & _ & ->)]]; done.
Qed.

Lemma batch_step_dom modelo X_eval y_eval n b st start bi Xb yb :
  dom (st_heap st) ⊆ dom (st_heap (batch_step modelo X_eval y_eval n b st start bi Xb yb)).
Proof.
  destruct (batch_step_cases modelo X_eval y_eval n b st start bi Xb yb)
    as [(e & _ & ->)|[(s & lg & _ & _ & ->)|(s & lg & _ & _ & ->)]]; simpl.
  - by rewrite call_fit_dom.
  - by rewrite call_fit_dom.
  - rewrite call_fit_dom. etrans; [|apply call_clone_dom]. by rewrite call_fit_dom.
Qed.

(** Objects other than the live pipeline are left as they are: the
    refit changes the live pipeline, the clone is a new object. *)
Lemma batch_step_frame modelo X_eval y_eval n b st start bi Xb yb r :
  r ∈ dom (st_heap st) -> r <> modelo ->
  st_heap (batch_step modelo X_eval y_eval n b st start bi Xb yb) !! r = st_heap st !! r.
Proof.
  intros Hr Hne.
  destruct (batch_step_cases modelo X_eval y_eval n b st start bi Xb yb)
    as [(e & _ & ->)|[(s & lg & _ & _ & ->)|(s & lg & _ & _ & ->)]]; simpl.
  - by apply call_fit_lookup_ne.
  - by apply call_fit_lookup_ne.
  - assert (Hr1 : r ∈ dom (call_fit (st_heap st) modelo Xb yb).1)
      by (by rewrite call_fit_dom).
    rewrite call_fit_lookup_ne.
    { intros ->. by apply (call_clone_fresh _ modelo) in Hr1. }
    rewrite call_clone_lookup_old; [done|].
    by apply call_fit_lookup_ne.
Qed.

Lemma batch_score_ok_dom h modelo X_eval y_eval Xb yb score :
  batch_score h modelo X_eval y_eval Xb yb = Ok score -> modelo ∈ dom h.
Proof.
  unfold batch_score.
  destruct (call_fit h modelo Xb yb) as [h1 [u|e]] eqn:Hfit; [|done].
  intros _. apply (call_fit_ok h modelo Xb yb u). by rewrite Hfit.
Qed.

Lemma batch_step_refs modelo X_eval y_eval n b st start bi Xb yb :
  inv_refs modelo st ->
  inv_refs modelo (batch_step modelo X_eval y_eval n b st start bi Xb yb).
Proof.
  intros [Hm Hc].
  split; [by apply batch_step_dom|].
  destruct (batch_step_cases modelo X_eval y_eval n b st start bi Xb yb)
    as [(e & _ & ->)|[(s & lg & _ & _ & ->)|(s & lg & _ & _ & ->)]]; simpl.
  - intros c Hbest. rewrite call_fit_dom. by apply Hc.
  - intros c Hbest. rewrite call_fit_dom. by apply Hc.
  - intros c [= <-]. rewrite call_fit_dom.
    assert (Hm1 : modelo ∈ dom (call_fit (st_heap st) modelo Xb yb).1)
      by (by rewrite call_fit_dom).
    destruct (proj1 (elem_of_dom _ _) Hm1) as [p Hp].
    split; [by apply (call_clone_new_dom _ _ p)|].
    intros Heq.
    apply (call_clone_fresh (call_fit (st_heap st) modelo Xb yb).1 modelo).
    by rewrite Heq.
Qed.

Lemma batch_step_scores modelo X_eval y_eval n b st start bi Xb yb :
  inv_scores st ->
  inv_scores (batch_step modelo X_eval y_eval n b st start bi Xb yb).
Proof.
  intros [Hnone Hsome].
  destruct (batch_step_cases modelo X_eval y_eval n b st start bi Xb yb)
    as [(e & _ & ->)|[(s & lg & _ & Hgt & ->)|(s & lg & _ & Hgt & ->)]];
    split; simpl.
  - done.
  - done.
  - intros Hn. destruct (Hnone Hn) as [Hb Hall]. split; [done|].
    apply Forall_app. split; [done|]. apply Forall_singleton. by rewrite -Hb.
  - intros Hs. apply Exists_app. left. by apply Hsome.
  - done.
  - intros _. destruct (mejor_modelo st) as [c0|] eqn:Hbest.
    + apply Exists_app. left. apply Hsome. by eexists.
    + destruct (Hnone eq_refl) as [Hb _].
      apply Exists_app. right. apply Exists_cons_hd. by rewrite -Hb.
Qed.

Lemma batch_step_monotone modelo X_eval y_eval n b st start bi Xb yb :
  let st' := batch_step modelo X_eval y_eval n b st start bi Xb yb in
  mejor_score st' = mejor_score st \/ fgt (mejor_score st') (mejor_score st) = true.
Proof.
  simpl.
  destruct (batch_step_cases modelo X_eval y_eval n b st start bi Xb yb)
    as [(e & _ & ->)|[(s & lg & _ & Hgt & ->)|(s & lg & _ & Hgt & ->)]];
    simpl; auto.
Qed.

Lemma batch_step_best `{!PyFloatLaws num} modelo X_eval y_eval n b st start bi Xb yb :
  inv_best st ->
  inv_best (batch_step modelo X_eval y_eval n b st start bi Xb yb).
Proof.
  intros [Hall Hin].
  destruct (batch_step_cases modelo X_eval y_eval n b st start bi Xb yb)
    as [(e & _ & ->)|[(s & lg & _ & Hgt & ->)|(s & lg & _ & Hgt & ->)]];
    split; simpl.
  - done.
  - done.
  - apply Forall_app. split; [done|]. by apply Forall_singleton.
  - destruct Hin as [?|?]; [by left|right]. apply elem_of_app. by left.
  - apply Forall_app. split.
    + eapply Forall_impl; [exact Hall|]. simpl. intros x Hx.
      destruct (fgt x s) eqn:Hxs; [|done].
      by rewrite (fgt_trans x s (mejor_score st) Hxs Hgt) in Hx.
    + apply Forall_singleton. apply fgt_irrefl.
  - right. apply elem_of_app. right. by apply list_elem_of_singleton.
Qed.

Lemma epocas_snoc (lg : list (log_line num)) ln :
  es_epoca ln = false -> epocas (lg ++ [ln]) = epocas lg.
Proof.
  intros Hln. unfold epocas. rewrite filter_app length_app.
  rewrite filter_cons_False; [by rewrite Hln|]. simpl. lia.
Qed.

Lemma batch_step_epocas modelo X_eval y_eval n b st start bi Xb yb :
  epocas (st_log (batch_step modelo X_eval y_eval n b st start bi Xb yb))
  = epocas (st_log st).
Proof.
  unfold batch_step, batch_error, batch_progreso.
  destruct (call_fit (st_heap st) modelo Xb yb) as [h1 [u|e]]; simpl;
    [|by apply epocas_snoc].
  destruct (call_predict h1 modelo X_eval) as [y_pred|e]; simpl;
    [|by apply epocas_snoc].
  destruct (r2_score y_eval y_pred) as [score|e]; simpl;
    [|by apply epocas_snoc].
  destruct (fgt score (mejor_score st)).
  - destruct (call_clone h1 modelo) as [h2 c].
    destruct (call_fit h2 c Xb yb) as [h3 [u3|e3]]; simpl;
      [|by apply epocas_snoc].
    destruct (_ =? _)%nat; simpl; [by apply epocas_snoc|done].
  - destruct (_ =? _)%nat; simpl; [by apply epocas_snoc|done].
Qed.
End Batch.

(** ** The loops *)

Section Loops.
Context {cell num learned G : Type}.
Context `{!Sklearn cell num learned} `{!ReportIO cell num}.
Context `{!PyFloat num} `{!NumpyRandom G}.
Implicit Types (st : @train_state num learned).

(** What every batch keeps, the inner loop keeps. *)
Lemma run_batches_inv (P : @train_state num learned -> Prop)
    modelo X y X_eval y_eval n b indices starts st st' :
  (forall st start bi Xb yb,
      P st -> P (batch_step modelo X_eval y_eval n b st start bi Xb yb)) ->
  P st ->
  run_batches modelo X y X_eval y_eval n b indices starts st = Ok st' ->
  P st'.
Proof.
  intros Hstep. revert st.
  induction starts as [|s starts IH]; intros st HP; simpl.
  - by intros [= <-].
  - destruct (take_rows X _) as [Xb|e]; [|done]. simpl.
    destruct (take_rows y _) as [yb|e]; [|done]. simpl.
    apply IH. by apply Hstep.
Qed.

(** What every batch and every log line keep, the whole loop keeps. *)
Lemma run_epochs_inv (P : @train_state num learned -> Prop)
    modelo X y X_eval y_eval n batch_size n_epochs epochs indices g st res :
  (forall st start bi Xb yb,
      P st -> P (batch_step modelo X_eval y_eval n (Z.to_nat batch_size) st start bi Xb yb)) ->
  (forall st ln, P st -> P (con_log st ln)) ->
  P st ->
  run_epochs modelo X y X_eval y_eval n batch_size n_epochs epochs indices g st = Ok res ->
  P res.1.1.
Proof.
  intros Hstep Hlog. revert indices g st.
  induction epochs as [|ep epochs IH]; intros indices g st HP; simpl.
  - by intros [= <-].
  - destruct (random_shuffle indices g) as [indices1 g1].
    destruct (py_range n batch_size) as [starts|e]; [|done]. simpl.
    destruct (run_batches _ _ _ _ _ _ _ _ _ _) as [st2|e] eqn:Hb; [|done]. simpl.
    apply IH.
    eapply run_batches_inv; [exact Hstep| |exact Hb]. by apply Hlog.
Qed.

Lemma run_batches_fits modelo X y X_eval y_eval n b indices starts st st' :
  run_batches modelo X y X_eval y_eval n b indices starts st = Ok st' ->
  st_fits st' = st_fits st ++ map (fun s => slice indices s (Nat.min (s + b) n)) starts.
Proof.
  revert st. induction starts as [|s starts IH]; intros st; simpl.
  - intros [= <-]. by rewrite app_nil_r.
  - destruct (take_rows X _) as [Xb|e]; [|done]. simpl.
    destruct (take_rows y _) as [yb|e]; [|done]. simpl.
    intros Hrun. rewrite (IH _ Hrun) batch_step_fits. by rewrite -app_assoc.
Qed.

(** Slicing the batches cannot fail when the indices are rows of both
    arrays; what happens inside the [try] never stops the loop. *)
Lemma run_batches_total modelo X y X_eval y_eval n b indices starts st :
  Forall (fun i => (i < length X)%nat) indices ->
  Forall (fun i => (i < length y)%nat) indices ->
  exists st', run_batches modelo X y X_eval y_eval n b indices starts st = Ok st'.
Proof.
  intros HX Hy. revert st.
  induction starts as [|s starts IH]; intros st; simpl; [by eexists|].
  assert (Hsl : forall (M : list (list cell)),
             Forall (fun i => (i < length M)%nat) indices ->
             Forall (fun i => (i < length M)%nat) (slice indices s (Nat.min (s + b) n))).
  { intros M HM. apply Forall_forall. intros i Hi.
    eapply Forall_forall in HM; [exact HM|]. by eapply slice_elem. }
  destruct (take_rows_ok X _ (Hsl X HX)) as [Xb [-> _]].
  destruct (take_rows_ok y _ (Hsl y Hy)) as [yb [-> _]]. simpl.
  apply IH.
Qed.

Lemma run_epochs_total `{!NumpyRandomLaws G}
    modelo X y X_eval y_eval batch_size n_epochs epochs indices g st :
  (0 < batch_size)%Z ->
  length y = length X ->
  Permutation indices (seq 0 (length X)) ->
  exists res,
    run_epochs modelo X y X_eval y_eval (length X) batch_size n_epochs epochs indices g st
    = Ok res.
Proof.
  intros Hb Hlen. revert indices g st.
  induction epochs as [|ep epochs IH]; intros indices g st Hperm; simpl; [by eexists|].
  pose proof (shuffle_perm indices g) as Hsh.
  destruct (random_shuffle indices g) as [indices1 g1]. simpl in Hsh.
  rewrite (py_range_pos _ _ Hb). simpl.
  assert (Hin : Forall (fun i => (i < length X)%nat) indices1).
  { apply Forall_forall. intros i Hi.
    assert (Hi' : i ∈ seq 0 (length X)) by (by rewrite -Hperm Hsh).
    apply elem_of_seq in Hi'. lia. }
  destruct (run_batches_total modelo X y X_eval y_eval (length X) (Z.to_nat batch_size)
              indices1 (map (fun k => k * Z.to_nat batch_size)%nat
                            (seq 0 ((length X + Z.to_nat batch_size - 1) / Z.to_nat batch_size)%nat))
              (con_log st (LogEpoca (ep + 1) n_epochs)) Hin) as [st2 ->].
  { by rewrite Hlen. }
  simpl. apply IH. by rewrite -Hsh.
Qed.

(** Over the epochs, the batches the live pipeline is fitted on are,
    put together, every row index once per epoch. *)
Lemma run_epochs_fits `{!NumpyRandomLaws G}
    modelo X y X_eval y_eval n batch_size n_epochs epochs indices g st res :
  (0 < batch_size)%Z ->
  Permutation indices (seq 0 n) ->
  run_epochs modelo X y X_eval y_eval n batch_size n_epochs epochs indices g st = Ok res ->
  Permutation (concat (st_fits res.1.1))
              (concat (st_fits st) ++ concat (replicate (length epochs) (seq 0 n))) /\
  length (st_fits res.1.1)
  = (length (st_fits st)
     + length epochs * ((n + Z.to_nat batch_size - 1) / Z.to_nat batch_size))%nat.
Proof.
  intros Hb. revert indices g st.
  induction epochs as [|ep epochs IH]; intros indices g st Hperm; simpl.
  - intros [= <-]. simpl. rewrite app_nil_r. split; [done|lia].
  - pose proof (shuffle_perm indices g) as Hsh.
    destruct (random_shuffle indices g) as [indices1 g1]. simpl in Hsh.
    rewrite (py_range_pos _ _ Hb). simpl.
    destruct (run_batches _ _ _ _ _ _ _ _ _ _) as [st2|e] eqn:Hrun; [|done]. simpl.
    intros Hres.
    assert (Hperm1 : Permutation indices1 (seq 0 n)) by (by rewrite -Hsh).
    destruct (IH _ _ _ Hperm1 Hres) as [IHp IHl].
    apply run_batches_fits in Hrun. simpl in Hrun.
    assert (Hn : length indices1 = n).
    { by rewrite (Permutation_length Hperm1) length_seq. }
    split.
    + rewrite IHp Hrun concat_app -Hn batches_cover; [lia|].
      rewrite -app_assoc. apply Permutation_app_head.
      apply Permutation_app_tail. by rewrite Hn.
    + rewrite IHl Hrun length_app !length_map length_seq. lia.
Qed.

(** Epoch by epoch: the batches of each epoch, put together, are every
    row index exactly once. *)
Lemma run_epochs_por_epoca `{!NumpyRandomLaws G}
    modelo X y X_eval y_eval n batch_size n_epochs epochs indices g st res :
  (0 < batch_size)%Z ->
  Permutation indices (seq 0 n) ->
  run_epochs modelo X y X_eval y_eval n batch_size n_epochs epochs indices g st = Ok res ->
  exists eps : list (list (list nat)),
    st_fits res.1.1 = st_fits st ++ concat eps /\
    length eps = length epochs /\
    Forall (fun ep => Permutation (concat ep) (seq 0 n)) eps.
Proof.
  intros Hb. revert indices g st.
  induction epochs as [|ep epochs IH]; intros indices g st Hperm; simpl.
  - intros [= <-]. exists []. simpl. by rewrite app_nil_r.
  - pose proof (shuffle_perm indices g) as Hsh.
    destruct (random_shuffle indices g) as [indices1 g1]. simpl in Hsh.
    rewrite (py_range_pos _ _ Hb). simpl.
    destruct (run_batches _ _ _ _ _ _ _ _ _ _) as [st2|e] eqn:Hrun; [|done]. simpl.
    intros Hres.
    assert (Hperm1 : Permutation indices1 (seq 0 n)) by (by rewrite -Hsh).
    destruct (IH _ _ _ Hperm1 Hres) as (eps & Hfits & Hlen & Hall).
    apply run_batches_fits in Hrun. simpl in Hrun.
    assert (Hn : length indices1 = n).
    { by rewrite (Permutation_length Hperm1) length_seq. }
    eexists (_ :: eps). split; [|split].
    + rewrite Hfits Hrun. cbn [concat]. by rewrite -app_assoc.
    + simpl. by rewrite Hlen.
    + constructor; [|done]. rewrite -Hn batches_cover; [lia|]. by rewrite Hn.
Qed.

Lemma run_epochs_epocas
    modelo X y X_eval y_eval n batch_size n_epochs epochs indices g st res :
  run_epochs modelo X y X_eval y_eval n batch_size n_epochs epochs indices g st = Ok res ->
  epocas (st_log res.1.1) = (epocas (st_log st) + length epochs)%nat.
Proof.
  revert indices g st.
  induction epochs as [|ep epochs IH]; intros indices g st; simpl.
  - intros [= <-]. simpl. lia.
  - destruct (random_shuffle indices g) as [indices1 g1].
    destruct (py_range n batch_size) as [starts|e]; [|done]. simpl.
    destruct (run_batches _ _ _ _ _ _ _ _ _ _) as [st2|e] eqn:Hrun; [|done]. simpl.
    intros Hres. rewrite (IH _ _ _ Hres).
    assert (Hst2 : epocas (st_log st2)
                   = epocas (st_log (con_log st (LogEpoca (ep + 1) n_epochs)))).
    { eapply (run_batches_inv
                (fun s => epocas (st_log s)
                          = epocas (st_log (con_log st (LogEpoca (ep + 1) n_epochs)))));
        [|done|exact Hrun].
      intros s start bi Xb yb Hs. by rewrite batch_step_epocas. }
    rewrite Hst2. unfold epocas. simpl. rewrite filter_app length_app. simpl. lia.
Qed.
End Loops.

(** ** The reports and the whole call *)

Section Call.
Context {cell num learned G : Type}.
Context `{!Sklearn cell num learned} `{!ReportIO cell num}.
Context `{!PyFloat num} `{!NumpyRandom G}.
Implicit Types (st : @train_state num learned) (h : gmap nat (pipeline learned)).

Lemma take_rows_bound {A} (M : list A) idx rs :
  take_rows M idx = Ok rs -> Forall (fun i => (i < length M)%nat) idx.
Proof.
  revert rs. induction idx as [|i idx IH]; intros rs; simpl; [done|].
  destruct (M !! i) eqn:Hi; [|done].
  destruct (take_rows M idx) as [rs'|e]; [|done].
  intros _. constructor; [by eapply lookup_lt_Some|by eapply IH].
Qed.

Lemma generar_informe_dom h l Xv yv dir :
  dom (generar_informe h l Xv yv dir).1 = dom h.
Proof.
  unfold generar_informe.
  destruct (h !! l) as [p|]; [|done].
  destruct (no_ajustado p) as [[|]|e]; [| |done].
  - pose proof (call_fit_dom h l Xv yv) as Hd.
    destruct (call_fit h l Xv yv) as [h1 [u|e]]; simpl in *; [|done].
    by destruct (call_predict h1 l Xv).
  - simpl. by destruct (call_predict h l Xv).
Qed.

(** A pipeline that does not look unfitted is not touched by the
    report. *)
Lemma generar_informe_same h l p Xv yv dir :
  h !! l = Some p -> no_ajustado p <> Ok true ->
  (generar_informe h l Xv yv dir).1 = h.
Proof.
  intros Hp Hna. unfold generar_informe. rewrite Hp.
  destruct (no_ajustado p) as [[|]|e]; [done| |done].
  simpl. by destruct (call_predict h l Xv).
Qed.

Lemma informes_dom st m Xe ye dir :
  dom (informes st m Xe ye dir).1 = dom (st_heap st).
Proof.
  unfold informes. cbv zeta.
  destruct (st_heap st !! _) as [p|]; [|done].
  destruct (evaluar_modelo p Xe ye None None 5) as [res|e]; [|done].
  destruct (json_dump_file _ _) as [u|e]; [|done].
  pose proof (generar_informe_dom (st_heap st)
                (match mejor_modelo st with Some c => c | None => m end) Xe ye dir) as Hd.
  destruct (generar_informe _ _ _ _ _) as [h' [u'|e']]; done.
Qed.

Lemma informes_same st m p Xe ye dir :
  st_heap st !! (match mejor_modelo st with Some c => c | None => m end) = Some p ->
  no_ajustado p <> Ok true ->
  (informes st m Xe ye dir).1 = st_heap st.
Proof.
  intros Hp Hna. unfold informes. cbv zeta. rewrite Hp.
  destruct (evaluar_modelo p Xe ye None None 5) as [res|e]; [|done].
  destruct (json_dump_file _ _) as [u|e]; [|done].
  pose proof (generar_informe_same (st_heap st) _ p Xe ye dir Hp Hna) as Hs.
  destruct (generar_informe _ _ _ _ _) as [h' [u'|e']]; done.
Qed.

Lemma informes_epocas st m Xe ye dir :
  epocas (informes st m Xe ye dir).2 = epocas (st_log st).
Proof.
  unfold informes. cbv zeta.
  destruct (st_heap st !! _) as [p|]; cbn [snd].
  2: { by rewrite !epocas_snoc. }
  destruct (evaluar_modelo p Xe ye None None 5) as [res|e]; cbn [snd].
  2: { by rewrite !epocas_snoc. }
  destruct (json_dump_file _ _) as [u|e]; cbn [snd].
  2: { by rewrite !epocas_snoc. }
  destruct (generar_informe _ _ _ _ _) as [h' [u'|e']]; cbn [snd];
    by rewrite !epocas_snoc.
Qed.

Lemma ajuste_inicial_dom h modelo X y batch_size g h1 m g1 :
  ajuste_inicial h modelo X y batch_size g = Ok (h1, m, g1) -> m ∈ dom h1.
Proof.
  unfold ajuste_inicial.
  destruct (match modelo with Some l => (h, l) | None => _ end) as [h0 m0].
  destruct (random_choice _ _ g) as [[idx|e] g'] eqn:Hch; [|done]. simpl.
  destruct (take_rows X idx) as [X0|e]; [|done]. simpl.
  destruct (take_rows y idx) as [y0|e]; [|done]. simpl.
  pose proof (call_fit_dom h0 m0 X0 y0) as Hd.
  pose proof (call_fit_ok h0 m0 X0 y0) as Hok.
  destruct (call_fit h0 m0 X0 y0) as [h' [u|e]]; [|done]. simpl in *.
  intros [= <- <- <-]. rewrite Hd. by eapply Hok.
Qed.


(** A call that returns went through the initial fit, the draw of the
    evaluation set, the loop and the reports. *)
Lemma entrenar_inv h modelo X y batch_size n_epochs dir g out :
  entrenar_por_lotes h modelo X y batch_size n_epochs dir g = Ok out ->
  let Xn := to_numpy X in
  let yn := to_numpy y in
  exists h1 m g1 g2 X_eval y_eval res,
    ajuste_inicial h modelo Xn yn batch_size g = Ok (h1, m, g1) /\
    random_choice (Z.of_nat (length Xn)) (Z.min 1000 (Z.of_nat (length Xn))) g1
      = (Ok (sal_indices_eval out), g2) /\
    take_rows Xn (sal_indices_eval out) = Ok X_eval /\
    take_rows yn (sal_indices_eval out) = Ok y_eval /\
    run_epochs m Xn yn X_eval y_eval (length Xn) batch_size n_epochs
      (seq 0 (Z.to_nat n_epochs)) (seq 0 (length Xn)) g2
      (estado_inicial h1 Xn yn batch_size n_epochs) = Ok res /\
    sal_bucle out = res.1.1 /\
    sal_vivo out = m /\
    sal_modelo out = match mejor_modelo res.1.1 with Some c => c | None => m end /\
    (sal_heap out, sal_log out)
      = informes (con_log res.1.1 (LogMejor (mejor_score res.1.1))) m X_eval y_eval dir.
Proof.
  intros Hrun Xn yn. subst Xn yn. unfold entrenar_por_lotes in Hrun.
  destruct (ajuste_inicial _ _ _ _ _ _) as [[[h1 m] g1]|e] eqn:Hini; [|done].
  simpl in Hrun.
  destruct (random_choice _ _ g1) as [[idx|e] g2] eqn:Hch; [|done]. simpl in Hrun.
  destruct (take_rows (to_numpy X) idx) as [X_eval|e] eqn:HXe; [|done]. simpl in Hrun.
  destruct (take_rows (to_numpy y) idx) as [y_eval|e] eqn:Hye; [|done]. simpl in Hrun.
  destruct (run_epochs _ _ _ _ _ _ _ _ _ _ _ _) as [[[st idx'] g3]|e] eqn:Hep; [|done].
  simpl in Hrun.
  destruct (informes _ _ _ _ _) as [hf lg] eqn:Hinf.
  injection Hrun as <-. simpl.
  exists h1, m, g1, g2, X_eval, y_eval, (st, idx', g3).
  by rewrite HXe Hye.
Qed.
End Call.

(** ** The small implementation obeys the laws *)

Lemma toy_gt_lt (x y : Q) : negb (Qle_bool x y) = true <-> (y < x)%Q.
Proof.
  rewrite negb_true_iff. split.
  - intros Hle. apply Qnot_le_lt. intros H. apply Qle_bool_iff in H. congruence.
  - intros Hlt. destruct (Qle_bool x y) eqn:Hle; [|done].
    apply Qle_bool_iff in Hle. by apply Qlt_not_le in Hlt.
Qed.

#[global] Instance toy_float_laws : PyFloatLaws Toy.float.
Proof.
  split.
  - intros [|q|]; simpl; [done| |done].
    apply negb_false_iff, Qle_bool_iff, Qle_refl.
  - intros [|a|] [|b|] [|c|]; simpl; try done.
    rewrite !toy_gt_lt. intros Hba Hcb. by eapply Qlt_trans.
Qed.

Lemma rotar_perm {A} (k : nat) (l : list A) : Permutation l (Toy.rotar k l).
Proof.
  unfold Toy.rotar. rewrite Permutation_app_comm. by rewrite take_drop.
Qed.

#[global] Instance toy_random_laws : NumpyRandomLaws nat.
Proof.
  split.
  - intros a size g Ha Hsize. simpl. unfold Toy.choice.
    destruct (Z.ltb_spec size 0); [lia|].
    destruct (Z.ltb_spec a size); [lia|]. simpl.
    eexists. split; [reflexivity|].
    pose proof (rotar_perm g (seq 0 (Z.to_nat a))) as Hperm.
    assert (Hlen : length (Toy.rotar g (seq 0 (Z.to_nat a))) = Z.to_nat a).
    { by rewrite -(Permutation_length Hperm) length_seq. }
    split; [|split].
    + rewrite length_take Hlen. lia.
    + eapply sublist_NoDup; [|apply sublist_take].
      rewrite -Hperm. apply NoDup_seq.
    + apply Forall_forall. intros i Hi.
      apply (subseteq_take _ _ i) in Hi.
      rewrite -Hperm in Hi. apply elem_of_seq in Hi. lia.
  - intros l g. simpl. apply rotar_perm.
Qed.

(** ** The engine: checkpoints and the returned model *)

Section Claims.
Context {cell num learned G : Type}.
Context `{!Sklearn cell num learned} `{!ReportIO cell num}.
Context `{!PyFloat num} `{!NumpyRandom G}.
Implicit Types (st : @train_state num learned) (h : gmap nat (pipeline learned)).

Lemma clone_despues (p : pipeline learned) (X y : list (list cell)) :
  clone (despues_de_fit p X y) = clone p.
Proof. unfold clone, despues_de_fit. by destruct (sk_fit _ _ _ _). Qed.

Lemma estado_inicial_invariants h1 m (X y : list (list cell)) batch_size n_epochs :
  m ∈ dom h1 ->
  inv_refs m (estado_inicial h1 X y batch_size n_epochs) /\
  inv_scores (estado_inicial h1 X y batch_size n_epochs).
Proof.
  intros Hm. split; [split; [done|done]|].
  split; [done|]. simpl. by intros [c Hc].
Qed.

(** The invariants hold when the loop ends. *)
Lemma bucle_invariants h modelo X y batch_size n_epochs dir g out :
  entrenar_por_lotes h modelo X y batch_size n_epochs dir g = Ok out ->
  inv_refs (sal_vivo out) (sal_bucle out) /\ inv_scores (sal_bucle out).
Proof.
  intros Hrun.
  destruct (entrenar_inv _ _ _ _ _ _ _ _ _ Hrun)
    as (h1 & m & g1 & g2 & Xe & ye & res & Hini & _ & _ & _ & Hep & -> & -> & _).
  apply ajuste_inicial_dom in Hini.
  destruct (estado_inicial_invariants h1 m (to_numpy X) (to_numpy y) batch_size n_epochs Hini)
    as [Hrefs Hsc].
  split.
  - eapply (run_epochs_inv (inv_refs m)); [| |exact Hrefs|exact Hep].
    + intros. by apply batch_step_refs.
    + by intros s ln Hs.
  - eapply (run_epochs_inv inv_scores); [| |exact Hsc|exact Hep].
    + intros. by apply batch_step_scores.
    + by intros s ln Hs.
Qed.

(** C2.  When the score of a batch on the evaluation set is above the
    best score so far, [mejor_modelo] becomes a new object: the clone of
    the live pipeline (same parameters, nothing learned) after one call of
    [fit] on that batch.  Whatever batches and epochs follow, the refits
    of the live pipeline leave this object as it is. *)
Theorem checkpoint_is_clone_fit_on_batch_and_stays
    modelo X y X_eval y_eval n batch_size n_epochs st start bi Xb yb p score :
  st_heap st !! modelo = Some p ->
  batch_score (st_heap st) modelo X_eval y_eval Xb yb = Ok score ->
  fgt score (mejor_score st) = true ->
  let st' := batch_step modelo X_eval y_eval n (Z.to_nat batch_size) st start bi Xb yb in
  exists c,
    mejor_modelo st' = Some c /\
    mejor_score st' = score /\
    (c ∉ dom (st_heap st)) /\
    c <> modelo /\
    st_heap st' !! c = Some (despues_de_fit (clone p) Xb yb) /\
    (forall indices starts st'',
        run_batches modelo X y X_eval y_eval n (Z.to_nat batch_size) indices starts st'
        = Ok st'' ->
        st_heap st'' !! c = Some (despues_de_fit (clone p) Xb yb)) /\
    (forall epochs indices g res,
        run_epochs modelo X y X_eval y_eval n batch_size n_epochs epochs indices g st'
        = Ok res ->
        st_heap res.1.1 !! c = Some (despues_de_fit (clone p) Xb yb)).
Proof.
  intros Hp Hscore Hgt st'.
  assert (Hm : modelo ∈ dom (st_heap st)) by (apply elem_of_dom; eauto).
  pose proof (call_fit_lookup (st_heap st) modelo p Xb yb Hp) as Hlive.
  pose proof (call_fit_dom (st_heap st) modelo Xb yb) as Hdom1.
  set (h1 := (call_fit (st_heap st) modelo Xb yb).1) in *.
  set (c := (call_clone h1 modelo).2).
  assert (Hfresh : c ∉ dom (st_heap st)).
  { rewrite -Hdom1. apply call_clone_fresh. }
  assert (Hne : c <> modelo) by (by intros Heq; rewrite Heq in Hfresh).
  assert (Hc : st_heap st' !! c = Some (despues_de_fit (clone p) Xb yb)).
  { subst st'.
    destruct (batch_step_cases modelo X_eval y_eval n (Z.to_nat batch_size) st start bi Xb yb)
      as [(e & He & _)|[(s & lg & Hs & Hgt' & _)|(s & lg & Hs & _ & ->)]].
    - congruence.
    - congruence.
    - simpl. fold h1. fold c.
      rewrite (call_fit_lookup _ c (clone p)); [|done].
      subst c. rewrite (call_clone_lookup h1 modelo _ Hlive).
      by rewrite clone_despues. }
  assert (Hkeep : forall (s : @train_state num learned) ln, st_heap s !! c = Some (despues_de_fit (clone p) Xb yb) ->
                               st_heap (con_log s ln) !! c
                               = Some (despues_de_fit (clone p) Xb yb)) by done.
  assert (Hstep : forall (s : @train_state num learned) start' bi' Xb' yb',
             st_heap s !! c = Some (despues_de_fit (clone p) Xb yb) ->
             st_heap (batch_step modelo X_eval y_eval n (Z.to_nat batch_size) s
                                 start' bi' Xb' yb') !! c
             = Some (despues_de_fit (clone p) Xb yb)).
  { intros s start' bi' Xb' yb' Hs.
    rewrite batch_step_frame; [|done|done]. apply elem_of_dom. eauto. }
  exists c. repeat split; try done.
  - subst st'.
    destruct (batch_step_cases modelo X_eval y_eval n (Z.to_nat batch_size) st start bi Xb yb)
      as [(e & He & _)|[(s & lg & Hs & Hgt' & _)|(s & lg & Hs & _ & ->)]];
      [congruence|congruence|done].
  - subst st'.
    destruct (batch_step_cases modelo X_eval y_eval n (Z.to_nat batch_size) st start bi Xb yb)
      as [(e & He & _)|[(s & lg & Hs & Hgt' & _)|(s & lg & Hs & _ & ->)]];
      [congruence|congruence|simpl; congruence].
  - intros indices starts st'' Hrun.
    by eapply (run_batches_inv
                 (fun s => st_heap s !! c = Some (despues_de_fit (clone p) Xb yb)));
      [exact Hstep|exact Hc|exact Hrun].
  - intros epochs indices g res Hrun.
    by eapply (run_epochs_inv
                 (fun s => st_heap s !! c = Some (despues_de_fit (clone p) Xb yb)));
      [exact Hstep|exact Hkeep|exact Hc|exact Hrun].
Qed.

(** The returned reference is an object of the final store. *)
Lemma salida_en_store h modelo X y batch_size n_epochs dir g out :
  entrenar_por_lotes h modelo X y batch_size n_epochs dir g = Ok out ->
  sal_modelo out ∈ dom (sal_heap out).
Proof.
  intros Hrun.
  destruct (bucle_invariants _ _ _ _ _ _ _ _ _ Hrun) as [[Hlive Hck] _].
  destruct (entrenar_inv _ _ _ _ _ _ _ _ _ Hrun)
    as (h1 & m & g1 & g2 & Xe & ye & res & _ & _ & _ & _ & _ & Hfin & Hvivo & Hmod & Hinf).
  assert (Hheap : sal_heap out
                  = (informes (con_log res.1.1 (LogMejor (mejor_score res.1.1))) m Xe ye dir).1)
    by (by rewrite -Hinf).
  rewrite -Hfin in Hmod, Hheap. rewrite Hvivo in Hlive, Hck.
  rewrite Hheap informes_dom. simpl. rewrite Hmod.
  destruct (mejor_modelo (sal_bucle out)) as [c|] eqn:Hbest; [by apply Hck|done].
Qed.


Lemma elem_of_concat {A} (x : A) (ls : list (list A)) :
  x ∈ concat ls <-> exists l, l ∈ ls /\ x ∈ l.
Proof.
  rewrite list_elem_of_In in_concat. split.
  - intros (l & Hl & Hx). exists l. by rewrite !list_elem_of_In.
  - intros (l & Hl & Hx). exists l. by rewrite !list_elem_of_In in Hl, Hx.
Qed.

(** Once the initial fit is done, nothing in the loop or in the reports
    can stop the call: the evaluation set is drawn, every batch is
    sliced, and what the batches and the reports raise is caught. *)
Lemma entrenar_devuelve `{!NumpyRandomLaws G}
    h modelo X y batch_size n_epochs dir g :
  (0 < length (to_numpy X))%nat ->
  length (to_numpy y) = length (to_numpy X) ->
  (0 < batch_size)%Z ->
  is_ok (ajuste_inicial h modelo (to_numpy X) (to_numpy y) batch_size g) = true ->
  exists out, entrenar_por_lotes h modelo X y batch_size n_epochs dir g = Ok out.
Proof.
  intros Hn Hlen Hb Hini. unfold entrenar_por_lotes.
  destruct (ajuste_inicial _ _ _ _ _ _) as [[[h1 m] g1]|e]; [|done]. simpl.
  destruct (choice_ok (Z.of_nat (length (to_numpy X)))
              (Z.min 1000 (Z.of_nat (length (to_numpy X)))) g1)
    as (idx & Hidx & _ & _ & Hbound); [lia|lia|].
  destruct (random_choice _ _ g1) as [r g2]. simpl in Hidx. subst r. simpl.
  assert (HbX : Forall (fun i => (i < length (to_numpy X))%nat) idx).
  { eapply Forall_impl; [exact Hbound|]. simpl. lia. }
  destruct (take_rows_ok (to_numpy X) idx HbX) as [Xe [-> _]]. simpl.
  destruct (take_rows_ok (to_numpy y) idx) as [ye [-> _]]; [by rewrite Hlen|]. simpl.
  destruct (run_epochs_total m (to_numpy X) (to_numpy y) Xe ye batch_size n_epochs
              (seq 0 (Z.to_nat n_epochs)) (seq 0 (length (to_numpy X))) g2
              (estado_inicial h1 (to_numpy X) (to_numpy y) batch_size n_epochs)
              Hb Hlen ltac:(done)) as [[[st idx'] g3] Hep].
  unfold estado_inicial in Hep. rewrite Hep. simpl.
  destruct (informes _ _ _ _ _). by eexists.
Qed.

Lemma entrenar_epocas h modelo X y batch_size n_epochs dir g out :
  entrenar_por_lotes h modelo X y batch_size n_epochs dir g = Ok out ->
  epocas (sal_log out) = Z.to_nat n_epochs.
Proof.
  intros Hrun.
  destruct (entrenar_inv _ _ _ _ _ _ _ _ _ Hrun)
    as (h1 & m & g1 & g2 & Xe & ye & res & _ & _ & _ & _ & Hep & _ & _ & _ & Hinf).
  assert (Hlog : sal_log out
                 = (informes (con_log res.1.1 (LogMejor (mejor_score res.1.1))) m Xe ye dir).2)
    by (by rewrite -Hinf).
  rewrite Hlog informes_epocas. simpl. rewrite epocas_snoc; [done|].
  rewrite (run_epochs_epocas _ _ _ _ _ _ _ _ _ _ _ _ _ Hep) length_seq. done.
Qed.

Lemma entrenar_fits `{!NumpyRandomLaws G}
    h modelo X y batch_size n_epochs dir g out :
  (0 < batch_size)%Z ->
  entrenar_por_lotes h modelo X y batch_size n_epochs dir g = Ok out ->
  Permutation (concat (st_fits (sal_bucle out)))
              (concat (replicate (Z.to_nat n_epochs) (seq 0 (length (to_numpy X))))) /\
  length (st_fits (sal_bucle out))
  = (Z.to_nat n_epochs
     * ((length (to_numpy X) + Z.to_nat batch_size - 1) / Z.to_nat batch_size))%nat.
Proof.
  intros Hb Hrun.
  destruct (entrenar_inv _ _ _ _ _ _ _ _ _ Hrun)
    as (h1 & m & g1 & g2 & Xe & ye & res & _ & _ & _ & _ & Hep & -> & _).
  destruct (run_epochs_fits _ _ _ _ _ _ _ _ _ _ _ _ _ Hb ltac:(done) Hep) as [Hp Hl].
  simpl in Hp, Hl. rewrite length_seq in Hp, Hl. done.
Qed.

(** C1, as the code has it.  The evaluation set is drawn once and stays
    the same for the whole call, but it is a sample of the very rows the
    batches are cut from.  The batches the live pipeline is fitted on come
    in as many groups as there are epochs, one group per epoch in the order
    of the loop, and the batches of each group, put together, are every
    row index exactly once: they are disjoint and leave no row out.  So in
    every epoch every evaluation row is in a batch that is fitted on, and
    over the call every row index is fitted on once per epoch. *)
Theorem holdout_rows_are_fitted_in_every_epoch `{!NumpyRandomLaws G}
    h modelo X y batch_size n_epochs dir g out :
  (0 < batch_size)%Z ->
  entrenar_por_lotes h modelo X y batch_size n_epochs dir g = Ok out ->
  let n := length (to_numpy X) in
  Permutation (concat (st_fits (sal_bucle out)))
              (concat (replicate (Z.to_nat n_epochs) (seq 0 n))) /\
  Forall (fun i => (i < n)%nat) (sal_indices_eval out) /\
  ((1 <= n_epochs)%Z ->
   forall i, i ∈ sal_indices_eval out ->
             exists b, b ∈ st_fits (sal_bucle out) /\ i ∈ b) /\
  exists epochs : list (list (list nat)),
    st_fits (sal_bucle out) = concat epochs /\
    length epochs = Z.to_nat n_epochs /\
    Forall (fun ep =>
              Permutation (concat ep) (seq 0 n) /\
              forall i, i ∈ sal_indices_eval out -> exists b, b ∈ ep /\ i ∈ b)
           epochs.
Proof.
  intros Hb Hrun n.
  destruct (entrenar_fits _ _ _ _ _ _ _ _ _ Hb Hrun) as [Hperm _].
  destruct (entrenar_inv _ _ _ _ _ _ _ _ _ Hrun)
    as (h1 & m & g1 & g2 & Xe & ye & res & _ & _ & HXe & _ & Hep & Hfin & _).
  apply take_rows_bound in HXe.
  assert (Hrow : forall i, i ∈ sal_indices_eval out -> i ∈ seq 0 n).
  { intros i Hi. apply elem_of_seq.
    eapply Forall_forall in HXe; [|exact Hi]. simpl in HXe. subst n. lia. }
  split; [done|]. split; [done|]. split.
  - intros HE i Hi. apply elem_of_concat. rewrite Hperm.
    apply elem_of_concat. exists (seq 0 n). split.
    + apply elem_of_replicate. split; [done|lia].
    + by apply Hrow.
  - destruct (run_epochs_por_epoca _ _ _ _ _ _ _ _ _ _ _ _ _ Hb ltac:(done) Hep)
      as (eps & Hfits & Hlen & Hall).
    exists eps. rewrite Hfin Hfits. simpl. rewrite length_seq in Hlen.
    split; [done|]. split; [done|].
    eapply Forall_impl; [exact Hall|]. simpl. intros ep Hp. split; [done|].
    intros i Hi. apply elem_of_concat. rewrite Hp. by apply Hrow.
Qed.

(** C4, as the code has it.  The best score starts at [-inf] and no
    batch lowers it; when the loop ends no score computed on the
    evaluation set is above it, and it is [-inf] or one of those scores.
    The pipeline of the initial fit is never scored, so nothing relates
    the best score to it. *)
Theorem best_score_bounds_the_batch_scores `{!PyFloatLaws num}
    h modelo X y batch_size n_epochs dir g out :
  entrenar_por_lotes h modelo X y batch_size n_epochs dir g = Ok out ->
  let fin := sal_bucle out in
  Forall (fun s => fgt s (mejor_score fin) = false) (st_scores fin) /\
  (mejor_score fin = neg_inf \/ mejor_score fin ∈ st_scores fin) /\
  (forall m X_eval y_eval n b st start bi Xb yb,
      let st' := batch_step m X_eval y_eval n b st start bi Xb yb in
      mejor_score st' = mejor_score st \/ fgt (mejor_score st') (mejor_score st) = true).
Proof.
  intros Hrun fin.
  destruct (entrenar_inv _ _ _ _ _ _ _ _ _ Hrun)
    as (h1 & m & g1 & g2 & Xe & ye & res & _ & _ & _ & _ & Hep & Hfin & _).
  assert (Hbest : inv_best fin).
  { subst fin. rewrite Hfin.
    eapply (run_epochs_inv inv_best); [| | |exact Hep].
    - intros. by apply batch_step_best.
    - by intros s ln Hs.
    - split; [by apply Forall_nil|by left]. }
  destruct Hbest as [Hall Hin].
  split; [done|]. split; [done|].
  intros. apply batch_step_monotone.
Qed.

(** C8, as the code has it.  For [E >= 1] epochs and a batch size
    [1 <= B <= n] on non-empty [X] and [y] with the same number of rows:
    the initial fit is outside every [try], and when it raises the call
    raises the same exception; when it succeeds the call returns, all [E]
    epochs were run, each with all its batches, and the returned
    reference is a model object of the final store. *)
Theorem returns_model_after_all_epochs_once_initial_fit_succeeds
    `{!NumpyRandomLaws G} h modelo X y batch_size n_epochs dir g :
  (0 < length (to_numpy X))%nat ->
  length (to_numpy y) = length (to_numpy X) ->
  (1 <= n_epochs)%Z ->
  (1 <= batch_size <= Z.of_nat (length (to_numpy X)))%Z ->
  match ajuste_inicial h modelo (to_numpy X) (to_numpy y) batch_size g with
  | Raise e => entrenar_por_lotes h modelo X y batch_size n_epochs dir g = Raise e
  | Ok _ =>
      exists out,
        entrenar_por_lotes h modelo X y batch_size n_epochs dir g = Ok out /\
        sal_modelo out ∈ dom (sal_heap out) /\
        epocas (sal_log out) = Z.to_nat n_epochs /\
        length (st_fits (sal_bucle out))
        = (Z.to_nat n_epochs
           * ((length (to_numpy X) + Z.to_nat batch_size - 1) / Z.to_nat batch_size))%nat
  end.
Proof.
  intros Hn Hlen HE HB.
  destruct (ajuste_inicial h modelo (to_numpy X) (to_numpy y) batch_size g)
    as [ini|e] eqn:Hini.
  - destruct (entrenar_devuelve h modelo X y batch_size n_epochs dir g Hn Hlen ltac:(lia))
      as [out Hout]; [by rewrite Hini|].
    exists out. split; [done|]. split; [by eapply salida_en_store|].
    split; [by eapply entrenar_epocas|].
    by apply (entrenar_fits h modelo X y batch_size n_epochs dir g out ltac:(lia) Hout).
  - unfold entrenar_por_lotes. by rewrite Hini.
Qed.
End Claims.

(** ** Taking over a stored model *)

Section MainClaims.
Context {cell num learned G : Type}.
Context `{!Sklearn cell num learned} `{!ReportIO cell num}.
Context `{!PyFloat num} `{!NumpyRandom G}.
Implicit Types (h : gmap nat (pipeline learned)) (X y : frame cell).

Lemma has_column_elem (names : list string) (c : string) :
  has_column names c = true <-> c ∈ names.
Proof.
  unfold has_column. rewrite existsb_exists. split.
  - intros (n & Hn & Heq). apply String.eqb_eq in Heq. subst n.
    by apply list_elem_of_In.
  - intros Hc. exists c. split; [by apply list_elem_of_In|apply String.eqb_refl].
Qed.

Lemma filter_label_absent (names : list string) (c : string) :
  c ∉ names -> filter (fun n => String.eqb c n = true) names = [].
Proof.
  induction names as [|n names IH]; [done|].
  intros Hc. apply not_elem_of_cons in Hc as [Hne Hc].
  rewrite filter_cons_False; [|by apply IH].
  intros Heq. by apply String.eqb_eq in Heq.
Qed.

Lemma filter_label (names : list string) (c : string) :
  NoDup names -> c ∈ names ->
  filter (fun n => String.eqb c n = true) names = [c].
Proof.
  induction 1 as [|n names Hn Hnd IH]; [by intros ?%elem_of_nil|].
  intros Hc. destruct (String.eqb_spec c n) as [->|Hne].
  - rewrite filter_cons_True; [apply String.eqb_refl|]. f_equal.
    by apply filter_label_absent.
  - rewrite filter_cons_False.
    { intros Heq. by apply String.eqb_eq in Heq. }
    apply IH. by apply elem_of_cons in Hc as [?|?].
Qed.

Lemma getitem_columns_present X (cols : list string) :
  NoDup (columns X) ->
  Forall (fun c => c ∈ columns X) cols ->
  getitem_columns X cols
  = Ok (Frame cols (map (fun r => flat_map (fun c => pick c (columns X) r) cols) (rows X))).
Proof.
  intros Hnd Hcols. unfold getitem_columns.
  assert (Hall : forallb (has_column (columns X)) cols = true).
  { apply forallb_forall. intros c Hc. apply has_column_elem.
    eapply Forall_forall in Hcols; [exact Hcols|]. by apply list_elem_of_In. }
  rewrite Hall. do 2 f_equal. clear Hall.
  induction Hcols as [|c cols Hc _ IH]; [done|].
  cbn [flat_map]. by rewrite (filter_label _ _ Hnd Hc) IH.
Qed.

Lemma getitem_columns_missing X (cols : list string) c :
  c ∈ cols -> c ∉ columns X ->
  getitem_columns X cols = Raise (Exn KeyError "not in index").
Proof.
  intros Hc Hmiss. unfold getitem_columns.
  destruct (forallb (has_column (columns X)) cols) eqn:Hall; [|done].
  exfalso. apply Hmiss, has_column_elem.
  eapply forallb_forall in Hall; [exact Hall|]. by apply list_elem_of_In.
Qed.

(** C5, as the code has it.  The stored model is replaced only under the
    guard [hasattr(modelo, 'n_outputs_')]: when the stored object shows
    an [n_outputs_] different from the number of target columns, the
    model handed to the training is a new object, an unfitted pipeline
    from the factory, and the stored object is left as it was and a
    message is printed; when the stored object shows no [n_outputs_], or
    shows the number of target columns, it is the stored object itself
    that is handed on. *)
Theorem stored_model_replaced_when_n_outputs_differs
    h modelo_dict l p X y columnas_procesadas pre :
  b_modelo modelo_dict = Some l ->
  h !! l = Some p ->
  preparar_incremental h (Some modelo_dict) X y columnas_procesadas = Ok pre ->
  let t := Z.of_nat (length (columns y)) in
  (forall k, sk_n_outputs_attr (params p) (state p) = Some k -> k <> t ->
     (pre_modelo pre ∉ dom h) /\
     pre_modelo pre <> l /\
     pre_heap pre !! pre_modelo pre = Some (Obj crear_pipeline_multioutput None) /\
     pre_heap pre !! l = Some p /\
     AvisoObjetivos k t ∈ pre_avisos pre) /\
  (sk_n_outputs_attr (params p) (state p) = None \/
   sk_n_outputs_attr (params p) (state p) = Some t ->
     pre_modelo pre = l /\ pre_heap pre = h).
Proof.
  intros Hl Hp Hpre t. unfold preparar_incremental in Hpre.
  rewrite Hl Hp in Hpre. unfold objetivos_incompatibles in Hpre. fold t in Hpre.
  assert (Hldom : l ∈ dom h) by (apply elem_of_dom; eauto).
  split.
  - intros k Hk Hne. rewrite Hk in Hpre.
    destruct (Z.eqb_spec k t) as [?|_]; [done|].
    unfold alloc in Hpre. cbv zeta in Hpre.
    assert (Hfresh : fresh (dom h) ∉ dom h) by apply is_fresh.
    assert (Hnel : fresh (dom h) <> l) by (by intros Heq; rewrite Heq in Hfresh).
    destruct (columnas_distintas _ _) as [cm|].
    + destruct (getitem_columns X cm) as [X'|e]; [|done]. simpl in Hpre.
      injection Hpre as <-. simpl.
      rewrite lookup_insert_eq lookup_insert_ne; [done|].
      repeat split; try done. apply list_elem_of_here.
    + injection Hpre as <-. simpl.
      rewrite lookup_insert_eq lookup_insert_ne; [done|].
      repeat split; try done. apply list_elem_of_here.
  - intros Hattr.
    assert (Hnone : match sk_n_outputs_attr (params p) (state p) with
                    | Some k => if (k =? t)%Z then None else Some (k, t)
                    | None => None
                    end = None).
    { destruct Hattr as [->| ->]; [done|]. by rewrite Z.eqb_refl. }
    rewrite Hnone in Hpre.
    destruct (columnas_distintas _ _) as [cm|].
    + destruct (getitem_columns X cm) as [X'|e]; [|done]. simpl in Hpre.
      by injection Hpre as <-.
    + by injection Hpre as <-.
Qed.

(** Differing columns with every stored column among the current
    features.  When the stored column list is not empty and differs, as
    a set, from the current column list, and every stored column is a
    column of the current features, the stored model is taken over
    without raising: the features become exactly the stored columns, in
    the stored order, each one a column of the current data (columns that
    are not in the stored list are dropped and none is added), and the
    differences are printed. *)
Lemma drift_alignment_keeps_stored_columns
    h modelo_dict l p X y columnas_procesadas columnas_modelo :
  b_modelo modelo_dict = Some l ->
  h !! l = Some p ->
  b_columnas modelo_dict = Some columnas_modelo ->
  columnas_modelo <> [] ->
  (list_to_set columnas_modelo : gset string) <> list_to_set columnas_procesadas ->
  NoDup (columns X) ->
  Forall (fun c => c ∈ columns X) columnas_modelo ->
  exists pre,
    preparar_incremental h (Some modelo_dict) X y columnas_procesadas = Ok pre /\
    columns (pre_X pre) = columnas_modelo /\
    rows (pre_X pre)
    = map (fun r => flat_map (fun c => pick c (columns X) r) columnas_modelo) (rows X) /\
    last (pre_avisos pre)
    = Some (AvisoCaracteristicas
              (list_to_set columnas_modelo ∖ list_to_set columnas_procesadas)
              (list_to_set columnas_procesadas ∖ list_to_set columnas_modelo)).
Proof.
  intros Hl Hp Hcm Hne Hdiff Hnd Hall. unfold preparar_incremental.
  rewrite Hl Hp Hcm.
  assert (Hcd : columnas_distintas (Some columnas_modelo) columnas_procesadas
                = Some columnas_modelo).
  { unfold columnas_distintas. destruct columnas_modelo as [|c cs]; [done|].
    by rewrite bool_decide_eq_false_2. }
  destruct (objetivos_incompatibles p y) as [[k n]|];
    [unfold alloc; cbv zeta|];
    rewrite Hcd (getitem_columns_present X columnas_modelo Hnd Hall); simpl;
    eexists; (split; [reflexivity|]); simpl; repeat split; try done.
Qed.

(** The warnings of a load that goes through are the ones printed. *)
Lemma avisos_de_carga_ok h almacenado X y columnas_procesadas pre :
  preparar_incremental h almacenado X y columnas_procesadas = Ok pre ->
  pre_avisos pre = avisos_de_carga h almacenado y columnas_procesadas.
Proof.
  unfold preparar_incremental, avisos_de_carga.
  destruct almacenado as [modelo_dict|].
  2: { unfold alloc. cbv zeta. by intros [= <-]. }
  destruct (b_modelo modelo_dict) as [l|]; [|done].
  destruct (h !! l) as [p|]; [|done].
  destruct (objetivos_incompatibles p y) as [[k n]|];
    [unfold alloc; cbv zeta|];
    (destruct (columnas_distintas _ _) as [cm|];
     [destruct (getitem_columns X cm) as [X'|e]; [|done]|]);
    simpl; intros [= <-]; simpl; by rewrite ?app_nil_r.
Qed.

(** C6, on the code.  When the stored column list differs, as a set,
    from the current one and one of the stored columns is not a column of
    the current features: the warning is printed, with the stored names
    that are not in the current list as the missing ones, and then the
    selection of the stored columns raises [KeyError].  Nothing is added
    to the features, and the load does not go through.  On features that
    have every stored column the same load goes through, with the same
    warning, and the features are cut down to the stored columns. *)
Theorem stored_column_missing_raises_after_the_warning
    h modelo_dict l p X y columnas_procesadas columnas_modelo c :
  b_modelo modelo_dict = Some l ->
  h !! l = Some p ->
  b_columnas modelo_dict = Some columnas_modelo ->
  (list_to_set columnas_modelo : gset string) <> list_to_set columnas_procesadas ->
  c ∈ columnas_modelo ->
  (c ∉ columns X) ->
  let avisos := avisos_de_carga h (Some modelo_dict) y columnas_procesadas in
  preparar_incremental h (Some modelo_dict) X y columnas_procesadas
  = Raise (Exn KeyError "not in index") /\
  (exists faltantes nuevas,
      last avisos = Some (AvisoCaracteristicas faltantes nuevas) /\
      faltantes = list_to_set columnas_modelo ∖ list_to_set columnas_procesadas /\
      nuevas = list_to_set columnas_procesadas ∖ list_to_set columnas_modelo /\
      ((c ∉ columnas_procesadas) -> c ∈ faltantes)) /\
  (forall X', NoDup (columns X') ->
              Forall (fun a => a ∈ columns X') columnas_modelo ->
              exists pre,
                preparar_incremental h (Some modelo_dict) X' y columnas_procesadas = Ok pre /\
                columns (pre_X pre) = columnas_modelo /\
                pre_avisos pre = avisos).
Proof.
  intros Hl Hp Hcm Hdiff Hc HcX avisos.
  assert (Hne : columnas_modelo <> []).
  { intros ->. by apply elem_of_nil in Hc. }
  assert (Hcd : columnas_distintas (Some columnas_modelo) columnas_procesadas
                = Some columnas_modelo).
  { unfold columnas_distintas. destruct columnas_modelo as [|a cs]; [done|].
    by rewrite bool_decide_eq_false_2. }
  split; [|split].
  - unfold preparar_incremental. rewrite Hl Hp Hcm Hcd.
    rewrite (getitem_columns_missing X columnas_modelo c Hc HcX).
    destruct (objetivos_incompatibles p y) as [[k n]|]; [unfold alloc; cbv zeta|]; done.
  - eexists _, _. split; [|split; [reflexivity|split; [reflexivity|]]].
    + subst avisos. unfold avisos_de_carga. rewrite Hl Hp Hcm Hcd.
      by rewrite last_snoc.
    + intros Hcp. apply elem_of_difference. split; [by apply elem_of_list_to_set|].
      by rewrite elem_of_list_to_set.
  - intros X' Hnd Hall.
    destruct (drift_alignment_keeps_stored_columns h modelo_dict l p X' y
                columnas_procesadas columnas_modelo Hl Hp Hcm Hne Hdiff Hnd Hall)
      as (pre & Hpre & Hcols & _).
    exists pre. split; [done|]. split; [done|]. by eapply avisos_de_carga_ok.
Qed.

(** C10.  [imputar_valores_faltantes] looks at the type of its argument:
    anything that is not a numpy array, so every data frame, comes back
    as it is, and only a numpy array goes through the mean imputer.  In
    [main] the features are a data frame, so the engine is called on the
    features as they were prepared, without the safeguard. *)
Theorem imputar_returns_non_arrays_unchanged (T : table cell) :
  isinstance_ndarray T = false ->
  imputar_valores_faltantes T = Ok T /\
  (forall f, imputar_valores_faltantes (DataFrame f) = Ok (DataFrame f)) /\
  (forall m, imputar_valores_faltantes (NdArray m)
             = rbind (simple_imputer_mean m) (fun m' => Ok (NdArray m'))) /\
  (forall h almacenado X y columnas_procesadas batch_size epochs salida_dir (g : G),
      main_incremental h almacenado X y columnas_procesadas batch_size epochs salida_dir g
      = rbind (preparar_incremental h almacenado X y columnas_procesadas)
          (fun pre =>
             rbind (entrenar_por_lotes (pre_heap pre) (Some (pre_modelo pre))
                      (DataFrame (pre_X pre)) (DataFrame y)
                      batch_size epochs salida_dir g)
               (fun out => Ok (out, Bundle (Some (sal_modelo out))
                                           (Some columnas_procesadas))))).
Proof.
  intros HT. split; [by destruct T|]. split; [done|]. split; [done|].
  intros. unfold main_incremental.
  by destruct (preparar_incremental _ _ _ _ _).
Qed.
End MainClaims.

(** ** Metrics *)

Section EvalClaims.
Context {cell num learned : Type} `{!Sklearn cell num learned}.


End EvalClaims.

(** ** The statements on concrete inputs *)

Section Concrete.
Import Toy Ejemplo.

(** C1 as stated fails: on two rows with one epoch and batches of one
    row, both rows are in the evaluation set and each is the batch of a
    fit. *)
Lemma holdout_rows_fitted_counterexample :
  exists out,
    entrenar_por_lotes store0 (Some 0%nat) X2 y2 1 1 "resultados" 0%nat = Ok out /\
    ~ holdout_excluido out.
Proof.
  eexists. split; [vm_compute; reflexivity|].
  intros Hex. apply (Hex 0%nat [0%nat]); simpl.
  - apply list_elem_of_further, list_elem_of_here.
  - apply list_elem_of_here.
  - apply list_elem_of_here.
Qed.

Lemma holdout_rows_are_fitted_witness :
  exists out,
    entrenar_por_lotes store0 (Some 0%nat) X2 y2 1 1 "resultados" 0%nat = Ok out /\
    forall i, i ∈ sal_indices_eval out ->
              exists b, b ∈ st_fits (sal_bucle out) /\ i ∈ b.
Proof.
  destruct (entrenar_por_lotes store0 (Some 0%nat) X2 y2 1 1 "resultados" 0%nat)
    as [out|e] eqn:Hrun; [|by vm_compute in Hrun].
  exists out. split; [done|].
  destruct (holdout_rows_are_fitted_in_every_epoch
              store0 (Some 0%nat) X2 y2 1 1 "resultados" 0%nat out ltac:(lia) Hrun)
    as (_ & _ & Hin & _).
  apply Hin. lia.
Defined.

Lemma checkpoint_is_clone_witness :
  exists c,
    mejor_modelo (batch_step 0%nat (to_numpy X2) (to_numpy y2) 2 (Z.to_nat 1) estado1
                             0 [0%nat] [[Some (0 # 1)]] [[Some (0 # 1)]]) = Some c /\
    c <> 0%nat /\
    st_heap (batch_step 0%nat (to_numpy X2) (to_numpy y2) 2 (Z.to_nat 1) estado1
                        0 [0%nat] [[Some (0 # 1)]] [[Some (0 # 1)]]) !! c
    = Some (Obj dummy_pipeline (Some [0 # 1])).
Proof.
  destruct (checkpoint_is_clone_fit_on_batch_and_stays
              0%nat (to_numpy X2) (to_numpy y2) (to_numpy X2) (to_numpy y2) 2%nat 1 1
              estado1 0%nat [0%nat] [[Some (0 # 1)]] [[Some (0 # 1)]]
              dummy_fitted (Num (-1 # 1))
              ltac:(vm_compute; reflexivity) ltac:(vm_compute; reflexivity)
              ltac:(vm_compute; reflexivity))
    as (c & Hc & _ & _ & Hne & Hobj & _).
  exists c. split; [exact Hc|]. split; [exact Hne|].
  rewrite Hobj. vm_compute. reflexivity.
Defined.


(** C4 as stated fails: the pipeline of the initial fit, fitted on both
    rows, has R2 = 0 on the evaluation set; every batch is one row, the
    first one sets the checkpoint with R2 = -1, and that checkpoint is
    returned. *)
Lemma checkpoint_below_initial_fit_counterexample :
  exists out sw sc,
    entrenar_por_lotes store0 (Some 0%nat) X2 y2 1 1 "resultados" 0%nat = Ok out /\
    is_Some (mejor_modelo (sal_bucle out)) /\
    r2_del_ajuste_inicial store0 (Some 0%nat) (to_numpy X2) (to_numpy y2) 1 0%nat
      (sal_indices_eval out) = Ok sw /\
    r2_del_devuelto out (to_numpy X2) (to_numpy y2) = Ok sc /\
    fgt sw sc = true.
Proof.
  eexists. exists (Num (0 # 1)), (Num (-1 # 1)).
  split; [vm_compute; reflexivity|].
  split; [by eexists|].
  split; [vm_compute; reflexivity|].
  split; [vm_compute; reflexivity|].
  reflexivity.
Qed.

Lemma best_score_bounds_witness :
  exists out,
    entrenar_por_lotes store0 (Some 0%nat) X2 y2 1 1 "resultados" 0%nat = Ok out /\
    Forall (fun s => fgt s (mejor_score (sal_bucle out)) = false)
           (st_scores (sal_bucle out)).
Proof.
  destruct (entrenar_por_lotes store0 (Some 0%nat) X2 y2 1 1 "resultados" 0%nat)
    as [out|e] eqn:Hrun; [|by vm_compute in Hrun].
  exists out. split; [done|].
  by destruct (best_score_bounds_the_batch_scores
                 store0 (Some 0%nat) X2 y2 1 1 "resultados" 0%nat out Hrun)
    as (Hall & _).
Defined.

(** C8 as stated fails: with one epoch, batches of one row and two rows
    in [X] and [y], a missing target makes the initial fit raise, and the
    call raises with it. *)
Lemma initial_fit_failure_counterexample :
  (1 <= 1)%Z /\ (1 <= 1 <= Z.of_nat (length (to_numpy X2)))%Z /\
  (0 < length (to_numpy X2))%nat /\
  length (to_numpy y_nan) = length (to_numpy X2) /\
  entrenar_por_lotes store0 (Some 0%nat) X2 y_nan 1 1 "resultados" 0%nat
  = Raise (Exn ValueError "Input y contains NaN").
Proof.
  split; [lia|]. split; [simpl; lia|]. split; [simpl; lia|]. split; [done|].
  vm_compute. reflexivity.
Qed.

Lemma returns_model_after_all_epochs_witness :
  exists out,
    entrenar_por_lotes store0 (Some 0%nat) X2 y2 1 3 "resultados" 0%nat = Ok out /\
    epocas (sal_log out) = 3%nat /\
    length (st_fits (sal_bucle out)) = 6%nat.
Proof.
  pose proof (returns_model_after_all_epochs_once_initial_fit_succeeds
                store0 (Some 0%nat) X2 y2 1 3 "resultados" 0%nat
                ltac:(simpl; lia) ltac:(reflexivity) ltac:(lia) ltac:(simpl; lia))
    as Hthm.
  assert (Hini : ajuste_inicial store0 (Some 0%nat) (to_numpy X2) (to_numpy y2) 1 0%nat
                 = Ok (store1, 0%nat, 1%nat)) by (vm_compute; reflexivity).
  rewrite Hini in Hthm. destruct Hthm as (out & Hrun & _ & Hep & Hfits).
  exists out. split; [exact Hrun|]. split; [exact Hep|exact Hfits].
Defined.

(** C5 as stated fails: a stored pipeline fitted on two target columns
    shows no [n_outputs_]; with three target columns in the current data
    it is the stored object that is handed on, and no pipeline is
    built. *)
Lemma stored_pipeline_reused_counterexample :
  exists pre p s,
    store_dos !! 0%nat = Some p /\
    state p = Some s /\
    sk_outputs s <> Z.of_nat (length (columns y_frame3)) /\
    preparar_incremental store_dos (Some guardado) X_frame y_frame3
      ["activeUsers"; "sessions"] = Ok pre /\
    pre_modelo pre = 0%nat /\
    pre_heap pre = store_dos.
Proof.
  eexists. exists (Obj dummy_pipeline (Some [1 # 1; 5 # 1])), [1 # 1; 5 # 1].
  split; [reflexivity|]. split; [reflexivity|]. split; [by vm_compute|].
  split; [vm_compute; reflexivity|]. split; reflexivity.
Qed.

Lemma stored_model_replaced_witness :
  exists pre,
    preparar_incremental store_bare (Some guardado) X_frame y_frame3
      ["activeUsers"; "sessions"] = Ok pre /\
    pre_modelo pre <> 0%nat /\
    pre_heap pre !! pre_modelo pre = Some (Obj crear_pipeline_multioutput None).
Proof.
  destruct (preparar_incremental store_bare (Some guardado) X_frame y_frame3
              ["activeUsers"; "sessions"]) as [pre|e] eqn:Hpre;
    [|by vm_compute in Hpre].
  exists pre. split; [done|].
  destruct (stored_model_replaced_when_n_outputs_differs
              store_bare guardado 0%nat
              (Obj (Bare "DummyRegressor" [("strategy", PStr "mean")])
                   (Some [1 # 1; 5 # 1]))
              X_frame y_frame3 ["activeUsers"; "sessions"] pre
              ltac:(reflexivity) ltac:(reflexivity) Hpre) as [Hdiff _].
  destruct (Hdiff 2%Z ltac:(reflexivity) ltac:(simpl; lia)) as (_ & Hne & Hnew & _).
  split; [exact Hne|exact Hnew].
Defined.



Lemma imputar_data_frame_witness :
  imputar_valores_faltantes (DataFrame X_frame) = Ok (DataFrame X_frame) /\
  existsb (existsb (fun c : cell => match c with None => true | Some _ => false end))
          (rows X_frame) = true.
Proof.
  split; [|reflexivity].
  by destruct (imputar_returns_non_arrays_unchanged (G := nat)
                 (DataFrame X_frame) ltac:(reflexivity)) as [Hsame _].
Defined.
End Concrete.

(** * Further properties of the engine *)

Lemma all_indices (idx : list nat) (n : nat) :
  NoDup idx -> length idx = n -> Forall (fun i => (i < n)%nat) idx ->
  Permutation idx (seq 0 n).
Proof.
  intros Hnd Hlen Hb. apply submseteq_length_Permutation.
  - apply NoDup_submseteq; [done|]. intros i Hi. apply elem_of_seq.
    eapply Forall_forall in Hb; [|exact Hi]. simpl in Hb. lia.
  - rewrite length_seq. lia.
Qed.

Lemma batch_length {A} (l : list A) (b k : nat) :
  (0 < b)%nat -> (k < (length l + b - 1) / b)%nat ->
  (0 < length (slice l (k * b) (Nat.min (k * b + b) (length l))) <= b)%nat.
Proof.
  intros Hb Hk. unfold slice. rewrite length_take length_drop.
  pose proof (Nat.div_mod_eq (length l + b - 1) b) as Hdm.
  pose proof (Nat.mod_upper_bound (length l + b - 1) b ltac:(lia)) as Hm.
  assert (Hq : (b * (k + 1) <= b * ((length l + b - 1) / b))%nat)
    by (apply Nat.mul_le_mono_l; lia).
  assert (Hs : (k * b < length l)%nat) by lia.
  lia.
Qed.

Section EngineExtras.
Context {cell num learned G : Type}.
Context `{!Sklearn cell num learned} `{!ReportIO cell num}.
Context `{!PyFloat num} `{!NumpyRandom G}.
Implicit Types (st : @train_state num learned) (h : gmap nat (pipeline learned)).

Lemma run_epochs_batches `{!NumpyRandomLaws G}
    modelo X y X_eval y_eval n batch_size n_epochs epochs indices g st res :
  (0 < batch_size)%Z ->
  Permutation indices (seq 0 n) ->
  Forall (batch_bien_formado (Z.to_nat batch_size) n) (st_fits st) ->
  run_epochs modelo X y X_eval y_eval n batch_size n_epochs epochs indices g st = Ok res ->
  Forall (batch_bien_formado (Z.to_nat batch_size) n) (st_fits res.1.1).
Proof.
  intros Hb. revert indices g st.
  induction epochs as [|ep epochs IH]; intros indices g st Hperm Hst; simpl.
  - by intros [= <-].
  - pose proof (shuffle_perm indices g) as Hsh.
    destruct (random_shuffle indices g) as [indices1 g1]. simpl in Hsh.
    rewrite (py_range_pos _ _ Hb). simpl.
    destruct (run_batches _ _ _ _ _ _ _ _ _ _) as [st2|e] eqn:Hrun; [|done]. simpl.
    assert (Hperm1 : Permutation indices1 (seq 0 n)) by (by rewrite -Hsh).
    apply IH; [done|].
    apply run_batches_fits in Hrun. rewrite Hrun. simpl.
    apply Forall_app. split; [done|].
    assert (Hn : length indices1 = n).
    { by rewrite (Permutation_length Hperm1) length_seq. }
    apply Forall_map, Forall_map, Forall_forall. intros k Hk. simpl.
    apply elem_of_seq in Hk. rewrite -Hn. rewrite -Hn in Hk.
    split; [apply batch_length; lia|]. split.
    + eapply sublist_NoDup; [|etrans; [apply sublist_take|apply sublist_drop]].
      rewrite Hperm1. apply NoDup_seq.
    + apply Forall_forall. intros i Hi. apply slice_elem in Hi.
      rewrite Hperm1 in Hi. apply elem_of_seq in Hi. lia.
Qed.
(** X1.  With a positive batch size, every batch the live pipeline is
    fitted on in the loop has at least one and at most [batch_size] row
    indices, without repetition, all of them rows of [X]. *)
Theorem every_batch_is_nonempty_and_bounded `{!NumpyRandomLaws G}
    h modelo X y batch_size n_epochs dir g out :
  (0 < batch_size)%Z ->
  entrenar_por_lotes h modelo X y batch_size n_epochs dir g = Ok out ->
  Forall (batch_bien_formado (Z.to_nat batch_size) (length (to_numpy X)))
         (st_fits (sal_bucle out)).
Proof.
  intros Hb Hrun.
  destruct (entrenar_inv _ _ _ _ _ _ _ _ _ Hrun)
    as (h1 & m & g1 & g2 & Xe & ye & res & _ & _ & _ & _ & Hep & -> & _).
  eapply run_epochs_batches; [exact Hb|done| |exact Hep]. by apply Forall_nil.
Qed.

Lemma ajuste_inicial_frame h modelo X y batch_size g h1 m g1 :
  ajuste_inicial h modelo X y batch_size g = Ok (h1, m, g1) ->
  dom h ⊆ dom h1 /\
  forall r, r ∈ dom h -> modelo <> Some r -> r <> m /\ h1 !! r = h !! r.
Proof.
  unfold ajuste_inicial. unfold alloc.
  destruct modelo as [l|].
  - destruct (random_choice _ _ g) as [[idx|e] g'] eqn:Hch; [|done]. simpl.
    destruct (take_rows X idx) as [X0|e]; [|done]. simpl.
    destruct (take_rows y idx) as [y0|e]; [|done]. simpl.
    pose proof (call_fit_dom h l X0 y0) as Hd.
    pose proof (call_fit_lookup_ne h l) as Hne.
    destruct (call_fit h l X0 y0) as [h' [u|e]] eqn:Hfit; [|done]. simpl in *.
    intros [= <- <- <-]. split; [by rewrite Hd|].
    intros r Hr Hrl. assert (r <> l) by congruence.
    split; [done|]. specialize (Hne r X0 y0 ltac:(done)). by rewrite Hfit in Hne.
  - cbv zeta.
    destruct (random_choice _ _ g) as [[idx|e] g'] eqn:Hch; [|done]. simpl.
    destruct (take_rows X idx) as [X0|e]; [|done]. simpl.
    destruct (take_rows y idx) as [y0|e]; [|done]. simpl.
    set (h0 := <[fresh (dom h) := Obj crear_pipeline_incremental None]> h).
    pose proof (call_fit_dom h0 (fresh (dom h)) X0 y0) as Hd.
    pose proof (call_fit_lookup_ne h0 (fresh (dom h))) as Hne.
    destruct (call_fit h0 (fresh (dom h)) X0 y0) as [h' [u|e]] eqn:Hfit; [|done].
    simpl in *. intros [= <- <- <-].
    assert (Hsub : dom h ⊆ dom h0).
    { subst h0. rewrite dom_insert_L. apply union_subseteq_r. }
    split; [by rewrite Hd|].
    intros r Hr _.
    assert (Hrf : r <> fresh (dom h)).
    { intros ->. by apply (is_fresh (dom h)). }
    split; [done|]. specialize (Hne r X0 y0 Hrf). rewrite Hfit in Hne. simpl in Hne.
    rewrite Hne. subst h0. by rewrite lookup_insert_ne.
Qed.

Lemma generar_informe_frame h l Xv yv dir r :
  r <> l -> (generar_informe h l Xv yv dir).1 !! r = h !! r.
Proof.
  intros Hne. unfold generar_informe.
  destruct (h !! l) as [p|]; [|done].
  destruct (no_ajustado p) as [[|]|e]; [| |done].
  - pose proof (call_fit_lookup_ne h l r Xv yv Hne) as Hf.
    destruct (call_fit h l Xv yv) as [h1 [u|e]]; simpl in *; [|done].
    by destruct (call_predict h1 l Xv).
  - simpl. by destruct (call_predict h l Xv).
Qed.

Lemma informes_frame st m Xe ye dir r :
  r <> (match mejor_modelo st with Some c => c | None => m end) ->
  (informes st m Xe ye dir).1 !! r = st_heap st !! r.
Proof.
  intros Hne. unfold informes. cbv zeta.
  destruct (st_heap st !! _) as [p|]; [|done].
  destruct (evaluar_modelo p Xe ye None None 5) as [res|e]; [|done].
  destruct (json_dump_file _ _) as [u|e]; [|done].
  pose proof (generar_informe_frame (st_heap st) _ Xe ye dir r Hne) as Hf.
  destruct (generar_informe _ _ _ _ _) as [h' [u'|e']]; done.
Qed.

(** What the reports can do to the model they are about: nothing, or a
    refit on the evaluation rows when it looks unfitted. *)
Lemma informes_efecto st m Xe ye dir p :
  let mf := match mejor_modelo st with Some c => c | None => m end in
  st_heap st !! mf = Some p ->
  (no_ajustado p <> Ok true -> (informes st m Xe ye dir).1 = st_heap st) /\
  ((informes st m Xe ye dir).1 !! mf = Some p \/
   (no_ajustado p = Ok true /\
    (informes st m Xe ye dir).1 !! mf = Some (despues_de_fit p Xe ye))).
Proof.
  intros mf Hp. split; [by apply informes_same|].
  subst mf. unfold informes. cbv zeta. rewrite Hp.
  destruct (evaluar_modelo p Xe ye None None 5) as [res|e]; [|by left].
  destruct (json_dump_file _ _) as [u|e]; [|by left].
  destruct (no_ajustado p) as [[|]|e] eqn:Hna.
  - right. split; [done|].
    assert (Hg : (generar_informe (st_heap st)
                    (match mejor_modelo st with Some c => c | None => m end) Xe ye dir).1
                 !! (match mejor_modelo st with Some c => c | None => m end)
                 = Some (despues_de_fit p Xe ye)).
    { pose proof (call_fit_lookup (st_heap st) _ p Xe ye Hp) as Hl.
      unfold generar_informe. rewrite Hp Hna.
      destruct (call_fit (st_heap st) _ Xe ye) as [h1 [u1|e1]]; simpl in *; [|done].
      by destruct (call_predict h1 _ Xe). }
    by destruct (generar_informe _ _ _ _ _) as [h' [u'|e']].
  - left.
    pose proof (generar_informe_same (st_heap st) _ p Xe ye dir Hp) as Hs.
    rewrite Hna in Hs. specialize (Hs ltac:(done)).
    destruct (generar_informe _ _ _ _ _) as [h' [u'|e']]; simpl in Hs; by subst h'.
  - left.
    pose proof (generar_informe_same (st_heap st) _ p Xe ye dir Hp) as Hs.
    rewrite Hna in Hs. specialize (Hs ltac:(done)).
    destruct (generar_informe _ _ _ _ _) as [h' [u'|e']]; simpl in Hs; by subst h'.
Qed.

(** X2.  The call changes the caller's store only at the model object it
    was given (refitted in place); every other object that existed before
    the call is the same after it, and objects are only added.  When no
    model is given, nothing that existed is changed. *)
Theorem only_the_given_model_is_mutated
    h modelo X y batch_size n_epochs dir g out :
  entrenar_por_lotes h modelo X y batch_size n_epochs dir g = Ok out ->
  dom h ⊆ dom (sal_heap out) /\
  forall r, r ∈ dom h -> modelo <> Some r -> sal_heap out !! r = h !! r.
Proof.
  intros Hrun.
  destruct (entrenar_inv _ _ _ _ _ _ _ _ _ Hrun)
    as (h1 & m & g1 & g2 & Xe & ye & res & Hini & _ & _ & _ & Hep & Hfin & Hvivo & Hmod & Hinf).
  destruct (ajuste_inicial_frame _ _ _ _ _ _ _ _ _ Hini) as [Hsub Hfr].
  assert (Hheap : sal_heap out
                  = (informes (con_log res.1.1 (LogMejor (mejor_score res.1.1))) m Xe ye dir).1)
    by (by rewrite -Hinf).
  set (P := fun s : @train_state num learned =>
              dom h ⊆ dom (st_heap s) /\
              (forall c, mejor_modelo s = Some c -> c ∉ dom h) /\
              (forall r, r ∈ dom h -> r <> m -> st_heap s !! r = h1 !! r)).
  assert (HP : P res.1.1).
  { eapply (run_epochs_inv P); [| | |exact Hep].
    - intros s start bi Xb yb (Hd & Hc & Hr).
      split; [etrans; [exact Hd|apply batch_step_dom]|]. split.
      + destruct (batch_step_cases m Xe ye (length (to_numpy X)) (Z.to_nat batch_size)
                    s start bi Xb yb)
          as [(e & _ & ->)|[(sc & lg & _ & _ & ->)|(sc & lg & _ & _ & ->)]];
          simpl; [done|done|].
        intros c [= <-] Hin.
        apply (call_clone_fresh (call_fit (st_heap s) m Xb yb).1 m).
        rewrite call_fit_dom. by apply Hd.
      + intros r Hrd Hrm. rewrite batch_step_frame; [by apply Hd|done|]. by apply Hr.
    - by intros s ln Hs.
    - split; [done|]. split; [done|]. done. }
  destruct HP as (Hd & Hc & Hr).
  split.
  - rewrite Hheap informes_dom. simpl. exact Hd.
  - intros r Hrd Hrm. destruct (Hfr r Hrd Hrm) as [Hne Hsame].
    rewrite Hheap informes_frame.
    + simpl. destruct (mejor_modelo res.1.1) as [c|] eqn:Hbest; [|done].
      intros ->. by apply (Hc c).
    + simpl. rewrite Hr; done.
Qed.

Lemma indices_eval_shape `{!NumpyRandomLaws G}
    h modelo X y batch_size n_epochs dir g out :
  (0 < length (to_numpy X))%nat ->
  entrenar_por_lotes h modelo X y batch_size n_epochs dir g = Ok out ->
  length (sal_indices_eval out) = Nat.min 1000 (length (to_numpy X)) /\
  NoDup (sal_indices_eval out) /\
  Forall (fun i => (i < length (to_numpy X))%nat) (sal_indices_eval out).
Proof.
  intros Hn Hrun.
  destruct (entrenar_inv _ _ _ _ _ _ _ _ _ Hrun)
    as (h1 & m & g1 & g2 & Xe & ye & res & _ & Hch & _).
  destruct (choice_ok (Z.of_nat (length (to_numpy X)))
              (Z.min 1000 (Z.of_nat (length (to_numpy X)))) g1)
    as (idx & Hidx & Hlen & Hnd & Hbound); [lia|lia|].
  rewrite Hch in Hidx. simpl in Hidx. injection Hidx as <-.
  split; [lia|]. split; [done|].
  eapply Forall_impl; [exact Hbound|]. simpl. lia.
Qed.

(** X3.  The evaluation set has [min(1000, n)] different rows of [X];
    with at most 1000 rows it is the whole data set. *)
Theorem holdout_is_all_rows_when_small `{!NumpyRandomLaws G}
    h modelo X y batch_size n_epochs dir g out :
  (0 < length (to_numpy X))%nat ->
  entrenar_por_lotes h modelo X y batch_size n_epochs dir g = Ok out ->
  length (sal_indices_eval out) = Nat.min 1000 (length (to_numpy X)) /\
  NoDup (sal_indices_eval out) /\
  ((length (to_numpy X) <= 1000)%nat ->
   Permutation (sal_indices_eval out) (seq 0 (length (to_numpy X)))).
Proof.
  intros Hn Hrun.
  destruct (indices_eval_shape _ _ _ _ _ _ _ _ _ Hn Hrun) as (Hlen & Hnd & Hb).
  split; [done|]. split; [done|].
  intros Hsmall. apply all_indices; [done|lia|done].
Qed.

(** X4.  With no epoch to run ([n_epochs <= 0]) no batch is fitted and no
    score is computed: there is no checkpoint, and the call returns the
    live pipeline, which the loop leaves as the initial fit made it.  The
    reports come after that, on the same object: in the store of the
    caller the returned model is as the initial fit left it, unless it
    looks unfitted to the report (it is not a [Pipeline], or its imputer
    shows no [statistics_]) and the report gets as far as refitting it;
    then it is that object fitted once more, on the evaluation rows. *)
Theorem zero_epochs_returns_the_live_pipeline
    h modelo X y batch_size n_epochs dir g out :
  (n_epochs <= 0)%Z ->
  entrenar_por_lotes h modelo X y batch_size n_epochs dir g = Ok out ->
  st_fits (sal_bucle out) = [] /\
  st_scores (sal_bucle out) = [] /\
  mejor_modelo (sal_bucle out) = None /\
  sal_modelo out = sal_vivo out /\
  exists g1 p X_eval y_eval,
    ajuste_inicial h modelo (to_numpy X) (to_numpy y) batch_size g
    = Ok (st_heap (sal_bucle out), sal_vivo out, g1) /\
    st_heap (sal_bucle out) !! sal_modelo out = Some p /\
    take_rows (to_numpy X) (sal_indices_eval out) = Ok X_eval /\
    take_rows (to_numpy y) (sal_indices_eval out) = Ok y_eval /\
    (no_ajustado p <> Ok true -> sal_heap out = st_heap (sal_bucle out)) /\
    (sal_heap out !! sal_modelo out = Some p \/
     (no_ajustado p = Ok true /\
      sal_heap out !! sal_modelo out = Some (despues_de_fit p X_eval y_eval))).
Proof.
  intros HE Hrun.
  destruct (entrenar_inv _ _ _ _ _ _ _ _ _ Hrun)
    as (h1 & m & g1 & g2 & Xe & ye & res & Hini & _ & HXe & Hye & Hep & Hfin & Hvivo & Hmod
        & Hinf).
  replace (Z.to_nat n_epochs) with 0%nat in Hep by lia. simpl in Hep.
  injection Hep as <-. simpl in *. rewrite Hfin Hvivo Hmod. simpl.
  repeat (split; [done|]).
  pose proof (ajuste_inicial_dom _ _ _ _ _ _ _ _ _ Hini) as Hdom.
  apply elem_of_dom in Hdom as [p Hp].
  exists g1, p, Xe, ye. repeat (split; [done|]).
  assert (Hheap : sal_heap out
                  = (informes (con_log (estado_inicial h1 (to_numpy X) (to_numpy y)
                                          batch_size n_epochs)
                                       (LogMejor neg_inf)) m Xe ye dir).1)
    by (by rewrite -Hinf).
  rewrite Hheap.
  exact (informes_efecto
           (con_log (estado_inicial h1 (to_numpy X) (to_numpy y) batch_size n_epochs)
                    (LogMejor neg_inf)) m Xe ye dir p Hp).
Qed.

(** X5.  The batch size is not checked: with [batch_size = 0] and at
    least one epoch the call never returns, since [range] with step 0
    raises [ValueError] (unless something raised before). *)
Theorem zero_batch_size_raises h modelo X y n_epochs dir g :
  (1 <= n_epochs)%Z ->
  is_ok (entrenar_por_lotes h modelo X y 0 n_epochs dir g) = false.
Proof.
  intros HE. unfold entrenar_por_lotes.
  destruct (ajuste_inicial _ _ _ _ _ _) as [[[h1 m] g1]|e]; [|done]. simpl.
  destruct (random_choice _ _ g1) as [[idx|e] g2]; [|done]. simpl.
  destruct (take_rows (to_numpy X) idx) as [Xe|e]; [|done]. simpl.
  destruct (take_rows (to_numpy y) idx) as [ye|e]; [|done]. simpl.
  destruct (Z.to_nat n_epochs) as [|k] eqn:Hk; [lia|]. simpl.
  by destruct (random_shuffle _ _).
Qed.

(** X6.  The row counts of [X] and [y] are not compared.  When [y] has
    fewer rows than [X] and [X] has at most 1000, the call never returns:
    the evaluation set is every row of [X], and cutting it out of [y]
    raises [IndexError] (unless something raised before). *)
Theorem shorter_targets_raise `{!NumpyRandomLaws G}
    h modelo X y batch_size n_epochs dir g :
  (length (to_numpy y) < length (to_numpy X) <= 1000)%nat ->
  is_ok (entrenar_por_lotes h modelo X y batch_size n_epochs dir g) = false.
Proof.
  intros Hlen.
  destruct (entrenar_por_lotes h modelo X y batch_size n_epochs dir g) as [out|e] eqn:Hrun;
    [|done].
  exfalso.
  destruct (indices_eval_shape h modelo X y batch_size n_epochs dir g out
              ltac:(lia) Hrun) as (Hl & Hnd & Hb).
  assert (Hperm : Permutation (sal_indices_eval out) (seq 0 (length (to_numpy X))))
    by (apply all_indices; [done|lia|done]).
  destruct (entrenar_inv _ _ _ _ _ _ _ _ _ Hrun)
    as (h1 & m & g1 & g2 & Xe & ye & res & _ & _ & _ & Hye & _).
  apply take_rows_bound in Hye.
  assert (Hin : length (to_numpy y) ∈ sal_indices_eval out).
  { rewrite Hperm. apply elem_of_seq. lia. }
  eapply Forall_forall in Hye; [|exact Hin]. simpl in Hye. lia.
Qed.
Lemma batch_score_ok_inv h modelo X_eval y_eval Xb yb score :
  batch_score h modelo X_eval y_eval Xb yb = Ok score ->
  exists p0 l,
    h !! modelo = Some p0 /\
    sk_fit (params p0) (state p0) Xb yb = Fitted l /\
    r2_en (Obj (params p0) (Some l)) X_eval y_eval = Ok score.
Proof.
  unfold batch_score, call_fit, call_predict, r2_en.
  destruct (h !! modelo) as [p0|] eqn:Hp; [|done].
  destruct (sk_fit (params p0) (state p0) Xb yb) as [l|e a] eqn:Hfit; [|done].
  rewrite lookup_insert_eq. simpl. intros Hsc. by exists p0, l.
Qed.

(** The object of a new checkpoint. *)
Lemma checkpoint_object h modelo p0 Xb yb :
  h !! modelo = Some p0 ->
  let h1 := (call_fit h modelo Xb yb).1 in
  (call_fit (call_clone h1 modelo).1 (call_clone h1 modelo).2 Xb yb).1
    !! (call_clone h1 modelo).2
  = Some (despues_de_fit (clone p0) Xb yb).
Proof.
  intros Hp h1.
  pose proof (call_fit_lookup h modelo p0 Xb yb Hp) as Hlive. fold h1 in Hlive.
  rewrite (call_fit_lookup _ _ (clone p0)); [|done].
  rewrite (call_clone_lookup h1 modelo _ Hlive). by rewrite clone_despues.
Qed.

(** X8.  When a successful [fit] does not depend on what the object had
    learned before, the checkpoint kept at the end of the loop scores, on
    the evaluation set, exactly the best score: the best score is the R2
    of the checkpoint itself and not only of the live pipeline at that
    time. *)
Theorem checkpoint_scores_the_best_score
    h modelo X y batch_size n_epochs dir g out c :
  fit_sin_memoria ->
  entrenar_por_lotes h modelo X y batch_size n_epochs dir g = Ok out ->
  mejor_modelo (sal_bucle out) = Some c ->
  exists p X_eval y_eval,
    take_rows (to_numpy X) (sal_indices_eval out) = Ok X_eval /\
    take_rows (to_numpy y) (sal_indices_eval out) = Ok y_eval /\
    st_heap (sal_bucle out) !! c = Some p /\
    r2_en p X_eval y_eval = Ok (mejor_score (sal_bucle out)).
Proof.
  intros Hsm Hrun Hbest.
  destruct (entrenar_inv _ _ _ _ _ _ _ _ _ Hrun)
    as (h1 & m & g1 & g2 & Xe & ye & res & Hini & _ & HXe & Hye & Hep & Hfin & _).
  apply ajuste_inicial_dom in Hini.
  set (P := fun s : @train_state num learned =>
              inv_refs m s /\
              forall c, mejor_modelo s = Some c ->
                        exists p, st_heap s !! c = Some p /\
                                  r2_en p Xe ye = Ok (mejor_score s)).
  assert (HP : P res.1.1).
  { eapply (run_epochs_inv P); [| | |exact Hep].
    - intros s start bi Xb yb [Hrefs Hck].
      split; [by apply batch_step_refs|].
      destruct Hrefs as [Hm Hc].
      destruct (batch_step_cases m Xe ye (length (to_numpy X)) (Z.to_nat batch_size)
                  s start bi Xb yb)
        as [(e & _ & ->)|[(sc & lg & _ & _ & ->)|(sc & lg & Hsc & _ & ->)]]; simpl.
      + intros c' Hc'. destruct (Hck c' Hc') as (p & Hp & Hr2).
        exists p. split; [|done]. rewrite call_fit_lookup_ne; [|done]. by apply Hc.
      + intros c' Hc'. destruct (Hck c' Hc') as (p & Hp & Hr2).
        exists p. split; [|done]. rewrite call_fit_lookup_ne; [|done]. by apply Hc.
      + intros c' [= <-].
        destruct (batch_score_ok_inv _ _ _ _ _ _ _ Hsc) as (p0 & l & Hp0 & Hfit & Hr2).
        exists (despues_de_fit (clone p0) Xb yb).
        split; [by apply checkpoint_object|].
        unfold despues_de_fit, clone. simpl. by rewrite (Hsm _ _ _ _ _ Hfit).
    - by intros s ln Hs.
    - split; [by apply estado_inicial_invariants|]. done. }
  destruct HP as [_ Hck]. rewrite Hfin in Hbest |- *.
  destruct (Hck c Hbest) as (p & Hp & Hr2).
  by exists p, Xe, ye.
Qed.
End EngineExtras.

Section LoteFallido.
Context {cell num learned G : Type}.
Context `{!Sklearn cell num learned} `{!ReportIO cell num}.
Context `{!PyFloat num} `{!NumpyRandom G}.
Implicit Types (st : @train_state num learned).

(** C7, as the code has it.  Whatever is raised inside the [try] of a
    batch (by the fit of the live pipeline, the prediction, the scoring or
    the fit of the checkpoint clone) is caught: one error line is logged
    for the batch and the loop goes on with the next batch; and once the
    initial fit is done the call returns a model of the final store (the
    checkpoint if there is one, else the live pipeline), whatever the
    batches raise.  The batch is not undone: the live
    pipeline stays as the call of [fit] on the batch left it.  When the
    exception comes before the comparison, the best score, the
    checkpoint and the scores are as before the batch; when it comes from
    the fit of the clone, the score is already the best score and the
    clone, as its failed fit left it, is already the checkpoint. *)
Theorem batch_failure_is_logged_and_loop_continues `{!NumpyRandomLaws G}
    modelo X y X_eval y_eval n b indices start rest st Xb yb e p :
  let bi := slice indices start (Nat.min (start + b) n) in
  take_rows X bi = Ok Xb ->
  take_rows y bi = Ok yb ->
  st_heap st !! modelo = Some p ->
  batch_falla (st_heap st) modelo X_eval y_eval Xb yb (mejor_score st) = Some e ->
  let st' := batch_step modelo X_eval y_eval n b st start bi Xb yb in
  let error := LogErrorBatch start (Nat.min (start + b) n) (exn_msg e) in
  st_log st' = st_log st ++ [error] /\
  st_fits st' = st_fits st ++ [bi] /\
  st_heap st' !! modelo = Some (despues_de_fit p Xb yb) /\
  ((batch_score (st_heap st) modelo X_eval y_eval Xb yb = Raise e /\
    st' = St (call_fit (st_heap st) modelo Xb yb).1 (mejor_score st) (mejor_modelo st)
             (st_log st ++ [error]) (st_fits st ++ [bi]) (st_scores st)) \/
   (exists score c after,
      batch_score (st_heap st) modelo X_eval y_eval Xb yb = Ok score /\
      fgt score (mejor_score st) = true /\
      sk_fit (params p) None Xb yb = FitRaised e after /\
      (c ∉ dom (st_heap st)) /\
      mejor_score st' = score /\
      mejor_modelo st' = Some c /\
      st_scores st' = st_scores st ++ [score] /\
      st_heap st' !! c = Some (Obj (params p) after))) /\
  run_batches modelo X y X_eval y_eval n b indices (start :: rest) st
  = run_batches modelo X y X_eval y_eval n b indices rest st' /\
  (forall h m0 (Xt yt : table cell) batch_size n_epochs dir g,
      (0 < length (to_numpy Xt))%nat ->
      length (to_numpy yt) = length (to_numpy Xt) ->
      (0 < batch_size)%Z ->
      is_ok (ajuste_inicial h m0 (to_numpy Xt) (to_numpy yt) batch_size g) = true ->
      exists out,
        entrenar_por_lotes h m0 Xt yt batch_size n_epochs dir g = Ok out /\
        sal_modelo out ∈ dom (sal_heap out) /\
        sal_modelo out
        = match mejor_modelo (sal_bucle out) with Some c => c | None => sal_vivo out end).
Proof.
  intros bi HXb Hyb Hp Hfalla st' error.
  split; [|split; [by apply batch_step_fits|]].
  2: split; [|split; [|split]].
  - (* the error line *)
    subst st' error. revert Hfalla. unfold batch_falla, batch_step, batch_score.
    destruct (call_fit (st_heap st) modelo Xb yb) as [h1 [u|e1]]; cbn [fst snd rbind].
    2: { by intros [= <-]. }
    destruct (call_predict h1 modelo X_eval) as [y_pred|e1]; cbn [rbind].
    2: { by intros [= <-]. }
    destruct (r2_score y_eval y_pred) as [score|e1].
    2: { by intros [= <-]. }
    destruct (fgt score (mejor_score st)); [|done].
    destruct (call_clone h1 modelo) as [h2 c].
    destruct (call_fit h2 c Xb yb) as [h3 [u3|e3]]; cbn [fst snd]; [done|].
    by intros [= <-].
  - (* the live pipeline *)
    subst st'.
    pose proof (call_fit_lookup (st_heap st) modelo p Xb yb Hp) as Hlive.
    destruct (batch_step_cases modelo X_eval y_eval n b st start bi Xb yb)
      as [(e' & _ & ->)|[(s & lg & _ & _ & ->)|(s & lg & _ & _ & ->)]];
      cbn [st_heap]; [done|done|].
    rewrite call_fit_lookup_ne.
    + intros Heq.
      apply (call_clone_fresh (call_fit (st_heap st) modelo Xb yb).1 modelo).
      rewrite -Heq. apply elem_of_dom. by eexists.
    + rewrite call_clone_lookup_old; [|done]. apply elem_of_dom. by eexists.
  - (* what the batch leaves *)
    subst st' error. revert Hfalla. unfold batch_falla.
    pose proof (call_clone_fresh (call_fit (st_heap st) modelo Xb yb).1 modelo) as Hfresh.
    rewrite call_fit_dom in Hfresh.
    pose proof (call_fit_lookup (st_heap st) modelo p Xb yb Hp) as Hlive.
    assert (Hpar : params (despues_de_fit p Xb yb) = params p).
    { unfold despues_de_fit. by destruct (sk_fit _ _ _ _). }
    remember (despues_de_fit p Xb yb) as p1 eqn:Hp1.
    pose proof (call_clone_lookup _ modelo _ Hlive) as Hclone.
    unfold batch_step, batch_score.
    destruct (call_fit (st_heap st) modelo Xb yb) as [h1 [u|e1]]; cbn [fst snd rbind] in *.
    2: { intros [= <-]. by left. }
    destruct (call_predict h1 modelo X_eval) as [y_pred|e1]; cbn [rbind].
    2: { intros [= <-]. by left. }
    destruct (r2_score y_eval y_pred) as [score|e1].
    2: { intros [= <-]. by left. }
    destruct (fgt score (mejor_score st)) eqn:Hgt; [|done].
    destruct (call_clone h1 modelo) as [h2 c]; cbn [fst snd] in *.
    unfold call_fit. rewrite Hclone. unfold clone. cbn [params state]. rewrite Hpar.
    destruct (sk_fit (params p) None Xb yb) as [l|e3 after] eqn:Hfit; cbn [fst snd]; [done|].
    intros [= <-]. right. exists score, c, after.
    repeat (split; [done|]). cbn [st_heap batch_error con_log]. by rewrite lookup_insert_eq.
  - simpl. fold bi. by rewrite HXb Hyb.
  - intros h m0 Xt yt batch_size n_epochs dir g Hn Hlen Hb Hini.
    destruct (entrenar_devuelve h m0 Xt yt batch_size n_epochs dir g Hn Hlen Hb Hini)
      as [out Hout].
    exists out. split; [done|]. split; [by eapply salida_en_store|].
    destruct (entrenar_inv _ _ _ _ _ _ _ _ _ Hout)
      as (h1 & m & g1 & g2 & Xe & ye & res & _ & _ & _ & _ & _ & Hfin & Hvivo & Hmod & _).
    by rewrite Hmod Hfin Hvivo.
Qed.
End LoteFallido.

Section ReportExtras.
Context {cell num learned G : Type}.
Context `{!Sklearn cell num learned} `{!PyFloat num} `{!NumpyRandom G}.

(** X7.  What the reports do (writing the metrics file, rendering, or
    failing at either) reaches the result of the training in one way
    only.  With another file system and another output directory the call
    returns as well, with the same returned reference, the same loop
    outcome, the same evaluation rows and the same generator state; the
    final store is the store the loop left everywhere but at the returned
    model; and the returned model is as the loop left it, or, when it
    looks unfitted to the report, that object fitted once more on the
    evaluation rows, which may happen in one of the two runs and not in
    the other.  For a model that does not look unfitted the two final
    stores are the same. *)
Theorem reports_reach_only_the_returned_model (io1 io2 : ReportIO cell num)
    (h : gmap nat (pipeline learned)) modelo X y batch_size n_epochs dir1 dir2 (g : G) out1 :
  entrenar_por_lotes (ReportIO0 := io1) h modelo X y batch_size n_epochs dir1 g = Ok out1 ->
  exists out2 p X_eval y_eval,
    entrenar_por_lotes (ReportIO0 := io2) h modelo X y batch_size n_epochs dir2 g = Ok out2 /\
    sal_modelo out2 = sal_modelo out1 /\
    sal_bucle out2 = sal_bucle out1 /\
    sal_indices_eval out2 = sal_indices_eval out1 /\
    sal_rng out2 = sal_rng out1 /\
    take_rows (to_numpy X) (sal_indices_eval out1) = Ok X_eval /\
    take_rows (to_numpy y) (sal_indices_eval out1) = Ok y_eval /\
    st_heap (sal_bucle out1) !! sal_modelo out1 = Some p /\
    (forall r, r <> sal_modelo out1 ->
               sal_heap out1 !! r = st_heap (sal_bucle out1) !! r /\
               sal_heap out2 !! r = st_heap (sal_bucle out1) !! r) /\
    (forall out, out = out1 \/ out = out2 ->
                 sal_heap out !! sal_modelo out1 = Some p \/
                 (no_ajustado p = Ok true /\
                  sal_heap out !! sal_modelo out1
                  = Some (despues_de_fit p X_eval y_eval))) /\
    (no_ajustado p <> Ok true -> sal_heap out2 = sal_heap out1).
Proof.
  intros Hrun1.
  pose proof (salida_en_store (ReportIO0 := io1) _ _ _ _ _ _ _ _ _ Hrun1) as Hdom.
  revert Hrun1 Hdom. unfold entrenar_por_lotes.
  destruct (ajuste_inicial _ _ _ _ _ _) as [[[h1 m] g1]|e]; [|done]. simpl.
  destruct (random_choice _ _ g1) as [[idx|e] g2]; [|done]. simpl.
  destruct (take_rows (to_numpy X) idx) as [Xe|e] eqn:HXe; [|done]. simpl.
  destruct (take_rows (to_numpy y) idx) as [ye|e] eqn:Hye; [|done]. simpl.
  destruct (run_epochs _ _ _ _ _ _ _ _ _ _ _ _) as [[[st idx'] g3]|e]; [|done]. simpl.
  set (st' := con_log st (LogMejor (mejor_score st))).
  set (mf := match mejor_modelo st with Some c => c | None => m end).
  pose proof (informes_dom (ReportIO0 := io1) st' m Xe ye dir1) as Hd1.
  pose proof (fun r => informes_frame (ReportIO0 := io1) st' m Xe ye dir1 r) as Hf1.
  pose proof (fun r => informes_frame (ReportIO0 := io2) st' m Xe ye dir2 r) as Hf2.
  pose proof (fun p => informes_efecto (ReportIO0 := io1) st' m Xe ye dir1 p) as He1.
  pose proof (fun p => informes_efecto (ReportIO0 := io2) st' m Xe ye dir2 p) as He2.
  destruct (informes (ReportIO0 := io1) st' m Xe ye dir1) as [hf1 lg1].
  destruct (informes (ReportIO0 := io2) st' m Xe ye dir2) as [hf2 lg2].
  cbn [fst snd] in *.
  intros [= <-] Hdom. cbn [sal_heap sal_modelo] in Hdom.
  rewrite Hd1 in Hdom. apply elem_of_dom in Hdom as [p Hp].
  destruct (He1 p Hp) as [Hs1 Hc1]. destruct (He2 p Hp) as [Hs2 Hc2].
  eexists _, p, Xe, ye. split; [reflexivity|].
  cbn [sal_heap sal_modelo sal_bucle sal_indices_eval sal_rng].
  split; [done|]. split; [done|]. split; [done|]. split; [done|].
  split; [done|]. split; [done|]. split; [exact Hp|].
  split; [|split].
  - intros r Hr. split; [by apply Hf1|by apply Hf2].
  - intros out [->| ->]; cbn [sal_heap]; done.
  - intros Hna. by rewrite Hs1 ?Hs2.
Qed.
End ReportExtras.

(** * Further properties of [main] and of the reports *)

Section FaltantesExtras.
Context {cell : Type} (isnan : cell -> bool).

Lemma filtrar_mascara_filter (f : list cell -> bool) (yr : list (list cell)) :
  filtrar_mascara yr (map f yr) = filter (fun r => f r = true) yr.
Proof.
  induction yr as [|r yr IH]; [done|]. simpl.
  destruct (f r) eqn:Hr.
  - rewrite filter_cons_True; [done|]. by rewrite IH.
  - rewrite filter_cons_False; [by rewrite Hr|]. done.
Qed.

Lemma filtrar_mascara_combine {A} (f : list cell -> bool) (Xr : list A)
    (yr : list (list cell)) :
  length Xr = length yr ->
  combine (filtrar_mascara Xr (map f yr)) (filtrar_mascara yr (map f yr))
  = filter (fun xy => f xy.2 = true) (combine Xr yr).
Proof.
  revert Xr. induction yr as [|r yr IH]; intros [|x Xr] Hlen; try done.
  simpl in *. destruct (f r) eqn:Hr.
  - rewrite filter_cons_True; [done|]. simpl. rewrite IH; [lia|done].
  - rewrite filter_cons_False; [by rewrite /= Hr|]. apply IH. lia.
Qed.

Lemma filtrar_mascara_length {A} (f : list cell -> bool) (Xr : list A)
    (yr : list (list cell)) :
  length Xr = length yr ->
  length (filtrar_mascara Xr (map f yr)) = length (filtrar_mascara yr (map f yr)).
Proof.
  revert Xr. induction yr as [|r yr IH]; intros [|x Xr] Hlen; try done.
  simpl in *. destruct (f r); simpl; rewrite IH; lia.
Qed.

Lemma filter_todo {A} (P : A -> Prop) `{!forall x, Decision (P x)} (l : list A) :
  Forall P l -> filter P l = l.
Proof.
  induction 1 as [|x l Hx _ IH]; [done|].
  rewrite filter_cons_True; [done|]. by rewrite IH.
Qed.

Lemma sin_faltantes (yr : list (list cell)) :
  existsb (existsb isnan) yr = false <->
  Forall (fun r => fila_completa isnan r = true) yr.
Proof.
  induction yr as [|r yr IH]; simpl; [by split|].
  rewrite orb_false_iff IH Forall_cons. unfold fila_completa.
  by rewrite negb_true_iff.
Qed.

(** X9.  The filter on missing targets keeps exactly the rows whose
    targets are all present, in their order, and drops the same rows from
    [X] and [y]: the pairs of a feature row and its target row are the
    old pairs with complete targets.  The columns stay, [X] and [y] still
    have the same number of rows, and filtering again changes nothing. *)
Theorem missing_target_rows_are_dropped_from_both (X y : frame cell) :
  length (rows X) = length (rows y) ->
  let X' := (filtrar_objetivos_faltantes isnan X y).1 in
  let y' := (filtrar_objetivos_faltantes isnan X y).2 in
  rows y' = filter (fun r => fila_completa isnan r = true) (rows y) /\
  combine (rows X') (rows y')
  = filter (fun xy => fila_completa isnan xy.2 = true) (combine (rows X) (rows y)) /\
  length (rows X') = length (rows y') /\
  columns X' = columns X /\ columns y' = columns y /\
  filtrar_objetivos_faltantes isnan X' y' = (X', y').
Proof.
  intros Hlen X' y'. subst X' y'. unfold filtrar_objetivos_faltantes.
  destruct (existsb (existsb isnan) (rows y)) eqn:Hnan; simpl.
  - pose proof (filtrar_mascara_filter (fila_completa isnan) (rows y)) as Hy.
    pose proof (filtrar_mascara_combine (fila_completa isnan) (rows X) (rows y) Hlen) as Hxy.
    assert (Hok : existsb (existsb isnan)
                    (filtrar_mascara (rows y) (map (fila_completa isnan) (rows y))) = false).
    { rewrite Hy. apply sin_faltantes, Forall_forall.
      by intros r [Hr _]%list_elem_of_filter. }
    split; [done|]. split; [done|]. split.
    + by apply filtrar_mascara_length.
    + split; [done|]. split; [done|]. by rewrite Hok.
  - apply sin_faltantes in Hnan as Hall.
    split; [by rewrite filter_todo|]. split.
    { rewrite filter_todo; [|done]. apply Forall_forall. intros [x r] Hin. simpl.
      eapply Forall_forall in Hall; [exact Hall|].
      apply list_elem_of_In in Hin. apply in_combine_r in Hin. by apply list_elem_of_In. }
    split; [done|]. split; [done|]. split; [done|]. by rewrite Hnan.
Qed.
End FaltantesExtras.

Section TradicionalExtras.
Context {cell num learned G : Type}.
Context `{!Sklearn cell num learned} `{!ReportIO cell num} `{!JoblibIO learned}.
Context `{!PyFloat num} `{!NumpyRandom G}.
Implicit Types (h : gmap nat (pipeline learned)).

Lemma entrenar_y_guardar_frame h0 m (X_train y_train X_val y_val : frame cell)
    columnas_procesadas salida ruta_modelo r :
  r <> m ->
  tr_heap (entrenar_y_guardar h0 m X_train y_train X_val y_val columnas_procesadas
             salida ruta_modelo) !! r = h0 !! r.
Proof.
  intros Hne. unfold entrenar_y_guardar.
  pose proof (call_fit_lookup_ne h0 m r (rows X_train) (rows y_train) Hne) as Hf.
  destruct (call_fit h0 m (rows X_train) (rows y_train)) as [h1 [u|e]]; simpl in Hf;
    [|done].
  destruct (h1 !! m) as [p|]; [|done].
  destruct (objetivos_incompatibles p y_val); [done|].
  destruct (evaluar_modelo p _ _ _ _ _) as [res|e]; [|done].
  pose proof (generar_informe_frame h1 m (rows X_val) (rows y_val) salida r Hne) as Hg.
  destruct (generar_informe h1 m _ _ _) as [h2 [u2|e2]]; simpl in Hg;
    [|by rewrite /= Hg].
  destruct (h2 !! m) as [p2|]; [|by rewrite /= Hg].
  destruct (joblib_dump _ _ _); [|by rewrite /= Hg].
  destruct (json_dump_file _ _); by rewrite /= Hg.
Qed.

Lemma params_despues (p : pipeline learned) (X y : list (list cell)) :
  params (despues_de_fit p X y) = params p.
Proof. unfold despues_de_fit. by destruct (sk_fit _ _ _ _). Qed.

Lemma generar_informe_params h l p Xv yv dir p2 :
  h !! l = Some p ->
  (generar_informe h l Xv yv dir).1 !! l = Some p2 ->
  params p2 = params p.
Proof.
  intros Hp. unfold generar_informe. rewrite Hp.
  destruct (no_ajustado p) as [[|]|e].
  - pose proof (call_fit_lookup h l p Xv yv Hp) as Hl.
    destruct (call_fit h l Xv yv) as [h1 [u|e]]; simpl in Hl.
    + destruct (call_predict h1 l Xv); simpl; rewrite Hl;
        intros [= <-]; apply params_despues.
    + simpl. rewrite Hl. intros [= <-]. apply params_despues.
  - destruct (call_predict h l Xv); simpl; rewrite Hp; by intros [= <-].
  - simpl. rewrite Hp. by intros [= <-].
Qed.

(** X10.  Without [--incremental], a stored bundle whose column list is
    not empty and differs from the current one is not used at all: the
    model that is trained is a new pipeline from the factory, no object
    that existed before is changed (the stored model stays as it was
    loaded), and the bundle that may be written names the new object and
    the current columns.  The features are not aligned in this branch. *)
Theorem column_change_discards_stored_model
    h modelo_dict cm (X_train y_train X_val y_val : frame cell)
    columnas_procesadas salida ruta_modelo :
  columnas_distintas (b_columnas modelo_dict) columnas_procesadas = Some cm ->
  let tr := rama_tradicional h (Some modelo_dict) X_train y_train X_val y_val
              columnas_procesadas salida ruta_modelo in
  (forall r, r ∈ dom h -> tr_heap tr !! r = h !! r) /\
  (forall b, tr_guardado tr = Some b ->
     exists nuevo, b_modelo b = Some nuevo /\ (nuevo ∉ dom h) /\
                   params <$> tr_heap tr !! nuevo = Some crear_pipeline_multioutput /\
                   b_columnas b = Some columnas_procesadas).
Proof.
  intros Hcd tr. subst tr. unfold rama_tradicional, elegir_modelo. rewrite Hcd.
  unfold alloc. cbv zeta.
  set (m := fresh (dom h)).
  set (h0 := <[m := Obj crear_pipeline_multioutput None]> h).
  assert (Hfresh : m ∉ dom h) by apply is_fresh.
  split.
  - intros r Hr. rewrite entrenar_y_guardar_frame.
    + intros ->. done.
    + subst h0. rewrite lookup_insert_ne; [|done]. intros <-. done.
  - unfold entrenar_y_guardar.
    pose proof (call_fit_lookup h0 m (Obj crear_pipeline_multioutput None)
                  (rows X_train) (rows y_train)) as Hl.
    destruct (call_fit h0 m (rows X_train) (rows y_train)) as [h1 [u|e]]; simpl in Hl;
      [|done].
    specialize (Hl ltac:(subst h0; apply lookup_insert_eq)). rewrite Hl.
    destruct (objetivos_incompatibles _ y_val); [done|].
    destruct (evaluar_modelo _ _ _ _ _ _) as [res|e]; [|done].
    destruct (generar_informe h1 m _ _ _) as [h2 [u2|e2]] eqn:Hgi; [|done].
    destruct (h2 !! m) as [p2|] eqn:Hp2; [|done].
    destruct (joblib_dump _ _ _); [|done].
    assert (Hpar : params p2 = crear_pipeline_multioutput).
    { pose proof (generar_informe_params h1 m _ (rows X_val) (rows y_val) salida p2 Hl)
        as Hg. rewrite Hgi in Hg. rewrite (Hg Hp2). apply params_despues. }
    destruct (json_dump_file _ _); simpl; intros b [= <-]; exists m; simpl;
      by rewrite Hp2 /= Hpar.
Qed.

(** X11.  Without [--incremental] the files are written last: a bundle
    is written only after the fit, the check of the outputs, the
    evaluation and the report have all gone through, and the metrics file
    only after the bundle (a run that wrote the metrics wrote the bundle
    and ended well).  So when the report raises, neither file is written
    and the trained model is not saved. *)
Theorem bundle_saved_only_after_report
    h0 m (X_train y_train X_val y_val : frame cell) columnas_procesadas
    salida ruta_modelo :
  let tr := entrenar_y_guardar h0 m X_train y_train X_val y_val columnas_procesadas
              salida ruta_modelo in
  let h1 := (call_fit h0 m (rows X_train) (rows y_train)).1 in
  (forall b, tr_guardado tr = Some b ->
     (call_fit h0 m (rows X_train) (rows y_train)).2 = Ok tt /\
     (exists p res,
         h1 !! m = Some p /\ objetivos_incompatibles p y_val = None /\
         evaluar_modelo p (rows X_train) (rows y_train)
           (Some (rows X_val)) (Some (rows y_val)) 5 = Ok res /\
         (forall d, tr_metricas tr = Some d -> d = res /\ tr_fin tr = Ok tt)) /\
     (generar_informe h1 m (rows X_val) (rows y_val) salida).2 = Ok tt /\
     b = Bundle (Some m) (Some columnas_procesadas)) /\
  (forall d, tr_metricas tr = Some d ->
     tr_guardado tr = Some (Bundle (Some m) (Some columnas_procesadas)) /\
     tr_fin tr = Ok tt) /\
  ((generar_informe h1 m (rows X_val) (rows y_val) salida).2 <> Ok tt ->
   tr_guardado tr = None /\ tr_metricas tr = None).
Proof.
  intros tr h1. subst tr h1. unfold entrenar_y_guardar.
  destruct (call_fit h0 m (rows X_train) (rows y_train)) as [h1 [[]|e]];
    cbn [fst snd]; [|by simpl].
  destruct (h1 !! m) as [p|]; [|by simpl].
  destruct (objetivos_incompatibles p y_val) eqn:Hinc; [by simpl|].
  destruct (evaluar_modelo p (rows X_train) (rows y_train)
              (Some (rows X_val)) (Some (rows y_val)) 5) as [res|e] eqn:Hev; [|by simpl].
  destruct (generar_informe h1 m (rows X_val) (rows y_val) salida) as [h2 [[]|e2]];
    cbn [fst snd]; [|by simpl].
  destruct (h2 !! m) as [p2|]; [|by simpl].
  destruct (joblib_dump _ _ _); [|by simpl].
  destruct (json_dump_file _ _); simpl.
  - split; [|split; [done|done]].
    intros b [= <-]. split; [done|]. split; [|done]. exists p, res.
    split; [done|]. split; [done|]. split; [done|]. by intros d [= <-].
  - split; [|split; [done|done]].
    intros b [= <-]. split; [done|]. split; [|done]. exists p, res.
    split; [done|]. split; [done|]. split; [done|]. done.
Qed.

(** X12.  The bundle that the incremental branch writes holds the current
    column list, also when the features were cut down to the stored list
    for this run.  Loading it again with the same column list finds no
    difference in the columns: the features are left as they are and no
    warning about the columns is printed. *)
Theorem saved_bundle_reloads_without_drift
    h almacenado (X y X' y' : frame cell) columnas_procesadas batch_size epochs
    salida (g : G) out guardado :
  main_incremental h almacenado X y columnas_procesadas batch_size epochs salida g
  = Ok (out, guardado) ->
  b_columnas guardado = Some columnas_procesadas /\
  b_modelo guardado = Some (sal_modelo out) /\
  exists pre,
    preparar_incremental (sal_heap out) (Some guardado) X' y' columnas_procesadas = Ok pre /\
    pre_X pre = X' /\
    forall f n, AvisoCaracteristicas f n ∉ pre_avisos pre.
Proof.
  unfold main_incremental.
  destruct (preparar_incremental h almacenado X y columnas_procesadas) as [pre0|e];
    [|done]. simpl.
  destruct (entrenar_por_lotes _ _ _ _ _ _ _ _) as [out0|e] eqn:Hrun; [|done]. simpl.
  intros [= <- <-]. split; [done|]. split; [done|].
  pose proof (salida_en_store _ _ _ _ _ _ _ _ _ Hrun) as Hdom.
  apply elem_of_dom in Hdom as [p Hp].
  unfold preparar_incremental. cbn [b_modelo b_columnas]. rewrite Hp.
  assert (Hcd : columnas_distintas (Some columnas_procesadas) columnas_procesadas = None).
  { unfold columnas_distintas. destruct columnas_procesadas; [done|].
    by rewrite bool_decide_eq_true_2. }
  destruct (objetivos_incompatibles p y') as [[k n]|]; [unfold alloc; cbv zeta|];
    rewrite Hcd; eexists; (split; [reflexivity|]); (split; [done|]); simpl;
    intros f n' Hin.
  - apply list_elem_of_singleton in Hin. done.
  - by apply elem_of_nil in Hin.
Qed.
End TradicionalExtras.

Section InformeExtras.
Context {cell num learned : Type}.
Context `{!Sklearn cell num learned} `{!ReportIO cell num} `{!JoblibIO learned}.
Implicit Types (h : gmap nat (pipeline learned)).

Lemma generar_informe_refit h l p Xv yv dir :
  h !! l = Some p -> no_ajustado p = Ok true ->
  (generar_informe h l Xv yv dir).1 !! l = Some (despues_de_fit p Xv yv).
Proof.
  intros Hp Hna. unfold generar_informe. rewrite Hp Hna.
  pose proof (call_fit_lookup h l p Xv yv Hp) as Hl.
  destruct (call_fit h l Xv yv) as [h1 [u|e]]; simpl in Hl; [|done].
  by destruct (call_predict h1 l Xv).
Qed.

(** X13.  The report refits, on the validation data it is given, every
    model that is not a [Pipeline] and every pipeline whose imputer shows
    no [statistics_]; any other model is left as it is, and the store is
    not touched either when the pipeline has no step called [imputer]
    (the lookup raises [KeyError]). *)
Theorem report_refits_what_looks_unfitted h l p Xv yv dir :
  h !! l = Some p ->
  match no_ajustado p with
  | Ok true => (generar_informe h l Xv yv dir).1 !! l = Some (despues_de_fit p Xv yv)
  | Ok false => (generar_informe h l Xv yv dir).1 = h
  | Raise e => generar_informe h l Xv yv dir = (h, Raise e)
  end /\
  (named_steps (params p) = None -> no_ajustado p = Ok true) /\
  (forall steps, named_steps (params p) = Some steps ->
                 step_lookup "imputer" steps = None ->
                 no_ajustado p = Raise (Exn KeyError "imputer")).
Proof.
  intros Hp. split; [|split].
  - destruct (no_ajustado p) as [[|]|e] eqn:Hna.
    + by apply generar_informe_refit.
    + unfold generar_informe. rewrite Hp Hna. by destruct (call_predict h l Xv).
    + unfold generar_informe. by rewrite Hp Hna.
  - unfold no_ajustado. by intros ->.
  - unfold no_ajustado. by intros steps -> ->.
Qed.

(** X14.  Without [--incremental], a model that is not a [Pipeline] is
    saved as the report left it: fitted on the training part and then
    once more on the validation part, which is the state the written
    bundle holds. *)
Theorem bare_model_is_saved_as_refitted_on_validation
    h0 m p (X_train y_train X_val y_val : frame cell) columnas_procesadas
    salida ruta_modelo b :
  h0 !! m = Some p -> named_steps (params p) = None ->
  let tr := entrenar_y_guardar h0 m X_train y_train X_val y_val columnas_procesadas
              salida ruta_modelo in
  tr_guardado tr = Some b ->
  b_modelo b = Some m /\
  tr_heap tr !! m
  = Some (despues_de_fit (despues_de_fit p (rows X_train) (rows y_train))
                         (rows X_val) (rows y_val)).
Proof.
  intros Hp Hbare tr. subst tr. unfold entrenar_y_guardar.
  pose proof (call_fit_lookup h0 m p (rows X_train) (rows y_train) Hp) as Hl.
  destruct (call_fit h0 m (rows X_train) (rows y_train)) as [h1 [u|e]];
    cbn [fst snd] in *; [|by simpl].
  rewrite Hl.
  destruct (objetivos_incompatibles _ y_val); [by simpl|].
  destruct (evaluar_modelo _ _ _ _ _ _) as [res|e]; [|by simpl].
  assert (Hna : no_ajustado (despues_de_fit p (rows X_train) (rows y_train)) = Ok true).
  { unfold no_ajustado. by rewrite params_despues Hbare. }
  pose proof (generar_informe_refit h1 m _ (rows X_val) (rows y_val) salida Hl Hna) as Hg.
  destruct (generar_informe h1 m _ _ _) as [h2 [u2|e2]]; cbn [fst snd] in *; [|by simpl].
  rewrite Hg.
  destruct (joblib_dump _ _ _); [|by simpl].
  destruct (json_dump_file _ _); simpl; by intros [= <-].
Qed.
End InformeExtras.

Section DatosExtras.
Context {cell : Type} `{!Pandas cell}.

Lemma cargar_dataframes_legibles (archivos : list string) :
  Forall2 (fun a df => read_csv a = Ok df)
          (filter (fun a => is_ok (read_csv a) = true) archivos)
          (cargar_dataframes archivos).
Proof.
  induction archivos as [|a archivos IH]; [constructor|].
  unfold cargar_dataframes. cbn [flat_map].
  destruct (read_csv a) as [df|e] eqn:Ha.
  - rewrite filter_cons_True; [by rewrite Ha|]. by constructor.
  - rewrite filter_cons_False; [by rewrite Ha|]. done.
Qed.

Lemma cargar_dataframes_idem (archivos : list string) :
  cargar_dataframes (filter (fun a => is_ok (read_csv a) = true) archivos)
  = cargar_dataframes archivos.
Proof.
  induction archivos as [|a archivos IH]; [done|].
  unfold cargar_dataframes in *. cbn [flat_map].
  destruct (read_csv a) as [df|e] eqn:Ha.
  - rewrite filter_cons_True; [by rewrite Ha|]. cbn [flat_map]. by rewrite Ha IH.
  - rewrite filter_cons_False; [by rewrite Ha|]. done.
Qed.

(** X15.  A file that cannot be read is skipped, whatever [read_csv]
    raises: the result is that of loading the readable files alone, their
    frames being concatenated in the order of the list.  [ValueError] is
    raised exactly when no file at all could be read. *)
Theorem unreadable_files_are_skipped (archivos : list string) :
  let legibles := filter (fun a => is_ok (read_csv a) = true) archivos in
  Forall2 (fun a df => read_csv a = Ok df) legibles (cargar_dataframes archivos) /\
  cargar_multiples_archivos archivos = cargar_multiples_archivos legibles /\
  match legibles with
  | [] => cargar_multiples_archivos archivos
          = Raise (Exn ValueError "No se pudo cargar ningún archivo de datos")
  | _ => cargar_multiples_archivos archivos
         = rbind (pd_concat (cargar_dataframes archivos)) drop_duplicates
  end.
Proof.
  intros legibles. pose proof (cargar_dataframes_legibles archivos) as Hleg.
  fold legibles in Hleg. split; [done|]. split.
  - unfold cargar_multiples_archivos. subst legibles.
    by rewrite cargar_dataframes_idem.
  - unfold cargar_multiples_archivos.
    destruct Hleg as [|a df ls dfs Ha Hrest]; done.
Qed.
End DatosExtras.

Section ObjetivosExtras.
Context {cell : Type}.

Lemma primera_presente_elem (cols alts : list string) a :
  primera_presente cols alts = Some a -> a ∈ alts /\ a ∈ cols.
Proof.
  induction alts as [|alt alts IH]; [done|]. simpl.
  destruct (has_column cols alt) eqn:Hc.
  - intros [= <-]. split; [apply elem_of_cons; by left|by apply has_column_elem].
  - intros [Ha Hin]%IH. split; [apply elem_of_cons; by right|done].
Qed.

Lemma resolver_objetivo_elem (cols : list string) c a :
  resolver_objetivo cols c = Some a -> a ∈ cols.
Proof.
  unfold resolver_objetivo.
  destruct (has_column cols c) eqn:Hc.
  - intros [= <-]. by apply has_column_elem.
  - destruct (alternativas c mapeo_columnas) as [alts|]; [|done].
    by intros [_ Hin]%primera_presente_elem.
Qed.

Lemma pares_fst (cols req : list string) :
  (flat_map (fun c => match resolver_objetivo cols c with
                            | Some alt => [(c, alt)]
                            | None => []
                            end) req).*1
  = filter (fun c => is_Some (resolver_objetivo cols c)) req.
Proof.
  induction req as [|c req IH]; [done|]. cbn [flat_map]. rewrite fmap_app IH.
  destruct (resolver_objetivo cols c) as [a|] eqn:Hr.
  - rewrite filter_cons_True; [rewrite Hr; by eexists|]. done.
  - rewrite filter_cons_False; [rewrite Hr; by intros [? ?]|]. done.
Qed.

Lemma pares_snd (cols req : list string) :
  Forall (fun a => a ∈ cols)
         (flat_map (fun c => match resolver_objetivo cols c with
                            | Some alt => [(c, alt)]
                            | None => []
                            end) req).*2.
Proof.
  induction req as [|c req IH]; [constructor|]. cbn [flat_map]. rewrite fmap_app.
  apply Forall_app. split; [|done].
  destruct (resolver_objetivo cols c) as [a|] eqn:Hr; [|constructor].
  repeat constructor. by eapply resolver_objetivo_elem.
Qed.

Lemma pares_rows (cols req : list string) (r : list cell) :
  flat_map (fun a => pick a cols r)
           (flat_map (fun c => match resolver_objetivo cols c with
                            | Some alt => [(c, alt)]
                            | None => []
                            end) req).*2
  = flat_map (fun c => match resolver_objetivo cols c with
                       | Some a => pick a cols r
                       | None => []
                       end)
             (filter (fun c => is_Some (resolver_objetivo cols c)) req).
Proof.
  induction req as [|c req IH]; [done|]. cbn [flat_map].
  rewrite fmap_app flat_map_app IH.
  destruct (resolver_objetivo cols c) as [a|] eqn:Hr.
  - rewrite filter_cons_True; [rewrite Hr; by eexists|]. cbn [flat_map fmap list_fmap snd].
    by rewrite Hr app_nil_r.
  - rewrite filter_cons_False; [rewrite Hr; by intros [? ?]|]. done.
Qed.

(** X16.  With a request and a frame whose column names are all
    different, the targets returned are the requested names that could be
    resolved (directly or through an alternative name), in the order of
    the request; [y] has exactly these names as its columns and, in every
    row of the frame, the cells of the resolved columns.  [ValueError] is
    raised exactly when no requested name could be resolved. *)
Theorem targets_are_the_resolved_requests (df : frame cell) (c : string) (req : list string) :
  NoDup (columns df) ->
  let disp := filter (fun c => is_Some (resolver_objetivo (columns df) c)) (c :: req) in
  match disp with
  | [] => seleccionar_objetivos df (Some (c :: req))
          = Raise (Exn ValueError "No se encontraron las columnas objetivo en el CSV")
  | _ => exists y,
      seleccionar_objetivos df (Some (c :: req)) = Ok (y, disp) /\
      columns y = disp /\
      rows y = map (fun r => flat_map (fun c => match resolver_objetivo (columns df) c with
                                                | Some a => pick a (columns df) r
                                                | None => []
                                                end) disp) (rows df)
  end.
Proof.
  intros Hnd disp. unfold seleccionar_objetivos, objetivos_disponibles. cbv iota zeta.
  pose proof (pares_fst (columns df) (c :: req)) as Hfst. fold disp in Hfst.
  pose proof (pares_snd (columns df) (c :: req)) as Hsnd.
  pose proof (fun r : list cell => pares_rows (columns df) (c :: req) r) as Hrows.
  fold disp in Hrows.
  destruct (flat_map _ (c :: req)) as [|par pares] eqn:Hp.
  - simpl in Hfst. by rewrite -Hfst.
  - rewrite (getitem_columns_present df _ Hnd Hsnd).
    cbn [rbind columns rows].
    change (map fst (par :: pares)) with ((par :: pares).*1).
    rewrite !length_fmap Nat.eqb_refl Hfst. destruct disp as [|d disp'] eqn:Hd; [done|].
    eexists. split; [reflexivity|]. split; [done|]. cbn [rows].
    apply map_ext. intros r. apply Hrows.
Qed.

Lemma alternativas_mapeo c alts :
  alternativas c mapeo_columnas = Some alts ->
  alts = [c] \/ (c = "activeUsers" /\ alts = ["activeUsers"; "users"]).
Proof.
  unfold mapeo_columnas. cbn [alternativas].
  destruct (String.eqb_spec c "engagementRate") as [->|_]; [intros [= <-]; by left|].
  destruct (String.eqb_spec c "sessions") as [->|_]; [intros [= <-]; by left|].
  destruct (String.eqb_spec c "activeUsers") as [->|_]; [intros [= <-]; by right|].
  done.
Qed.

(** X17.  A requested target stands for the column of its own name when
    the frame has one; the only other way is [activeUsers], which stands
    for the column [users] when the frame has no [activeUsers].  Without
    a request no alternative name is tried at all: the targets are those
    of the three default names that are columns themselves. *)
Theorem users_is_the_only_alias (cols : list string) (c a : string) :
  (resolver_objetivo cols c = Some a <->
   (a = c /\ c ∈ cols) \/
   (c = "activeUsers" /\ a = "users" /\ (c ∉ cols) /\ a ∈ cols)) /\
  objetivos_disponibles cols []
  = map (fun k => (k, k))
        (filter (fun k => k ∈ cols) ["engagementRate"; "sessions"; "activeUsers"]).
Proof.
  split.
  - unfold resolver_objetivo. destruct (has_column cols c) eqn:Hc.
    + apply has_column_elem in Hc. split.
      * intros [= <-]. by left.
      * intros [[-> _]|(_ & _ & Hn & _)]; done.
    + assert (Hn : c ∉ cols).
      { intros Hin%has_column_elem. congruence. }
      split.
      * destruct (alternativas c mapeo_columnas) as [alts|] eqn:Halt; [|done].
        destruct (alternativas_mapeo _ _ Halt) as [->|[-> ->]].
        { simpl. by rewrite Hc. }
        simpl. rewrite Hc. destruct (has_column cols "users") eqn:Hu; [|done].
        intros [= <-]. right. by apply has_column_elem in Hu.
      * intros [[_ Hin]|(-> & -> & _ & Hu)]; [done|].
        apply has_column_elem in Hu. simpl. by rewrite Hc Hu.
  - unfold objetivos_disponibles, mapeo_columnas. cbn [flat_map].
    assert (Hk : forall k rest,
               filter (fun k => k ∈ cols) (k :: rest)
               = (if has_column cols k then [k] else []) ++ filter (fun k => k ∈ cols) rest).
    { intros k rest. destruct (has_column cols k) eqn:Hk.
      - rewrite filter_cons_True; [by apply has_column_elem|]. done.
      - rewrite filter_cons_False; [|done]. intros Hin%has_column_elem. congruence. }
    rewrite !Hk. rewrite filter_nil.
    by destruct (has_column cols "engagementRate"), (has_column cols "sessions"),
      (has_column cols "activeUsers").
Qed.
End ObjetivosExtras.

Section ResumenExtras.
Context {cell num learned : Type} `{!Sklearn cell num learned} `{!ReportIO cell num}.
Context (formato_4f : num -> string).

Lemma evaluar_cv_items (p : pipeline learned) X y cv :
  evaluar_cv p X y cv = list_to_map (cv_items p X y cv).
Proof.
  unfold evaluar_cv, cv_items.
  destruct (cross_val_score _ _ _ _ _ ScoringR2); [|done].
  by destruct (cross_val_score _ _ _ _ _ ScoringNegMSE).
Qed.

Lemma evaluar_validacion_items (p : pipeline learned) Xv yv :
  evaluar_validacion p Xv yv
  = match validacion_items p Xv yv with
    | Ok d => Ok (list_to_map d)
    | Raise e => Raise e
    end.
Proof.
  unfold evaluar_validacion, validacion_items, validacion_metricas.
  destruct (sk_predict _ _ _) as [yp|e]; simpl.
  - destruct (mean_squared_error _ _) as [ms|e]; simpl.
    + destruct (r2_score _ _) as [r|e]; simpl; [done|].
      by destruct (isinstance_ValueError e).
    + by destruct (isinstance_ValueError e).
  - by destruct (isinstance_ValueError e).
Qed.

Lemma evaluar_modelo_items (p : pipeline learned) X y Xv yv cv :
  evaluar_modelo p X y Xv yv cv
  = match resultados_items p X y Xv yv cv with
    | Ok items => Ok (a_diccionario items)
    | Raise e => Raise e
    end.
Proof.
  unfold evaluar_modelo, resultados_items, a_diccionario.
  destruct Xv as [Xv|], yv as [yv|]; simpl;
    try (by rewrite evaluar_cv_items insert_empty).
  rewrite evaluar_validacion_items.
  destruct (validacion_items p Xv yv) as [d|e]; simpl; [|done].
  rewrite evaluar_cv_items. by f_equal.
Qed.

(** X18.  The summary of the add-on formats every value of the metrics
    file as a number.  For the dictionary of [evaluar_modelo], it is built
    when the cross-validation went through and the validation metrics, if
    asked for, could be computed; when one of the two was recorded as
    unavailable, the summary raises [TypeError] at the first [None]. *)
Theorem summary_needs_every_metric (p : pipeline learned) X y Xv yv cv items :
  resultados_items p X y Xv yv cv = Ok items ->
  let completo :=
    cv_falla p X y cv = None /\
    match Xv, yv with
    | Some a, Some b => is_ok (validacion_metricas p a b) = true
    | _, _ => True
    end in
  evaluar_modelo p X y Xv yv cv = Ok (a_diccionario items) /\
  (completo -> is_ok (resumen_entrenamiento formato_4f (Some items)) = true) /\
  (~ completo ->
   resumen_entrenamiento formato_4f (Some items)
   = Raise (Exn TypeError "unsupported format string passed to NoneType.__format__")).
Proof.
  intros Hit completo. split; [by rewrite evaluar_modelo_items Hit|].
  subst completo. revert Hit.
  unfold resultados_items, resumen_entrenamiento, cv_falla, cv_items.
  destruct (cross_val_score (params p) (state p) X y cv ScoringR2) as [s1|e1].
  - destruct (cross_val_score (params p) (state p) X y cv ScoringNegMSE) as [s2|e2].
    + destruct Xv as [a|], yv as [b|]; try (intros [= <-]; split; [done|tauto]).
      unfold validacion_items, validacion_metricas.
      destruct (sk_predict _ _ _) as [yp|e]; simpl.
      * destruct (mean_squared_error _ _) as [ms|e]; simpl.
        { destruct (r2_score _ _) as [r|e]; simpl.
          - intros [= <-]. split; [done|tauto].
          - destruct (isinstance_ValueError e); [|done].
            intros [= <-]. split; [by intros [_ ?]|done]. }
        destruct (isinstance_ValueError e); [|done].
        intros [= <-]. split; [by intros [_ ?]|done].
      * destruct (isinstance_ValueError e); [|done].
        intros [= <-]. split; [by intros [_ ?]|done].
    + destruct Xv as [a|], yv as [b|]; simpl;
        try (intros [= <-]; split; [by intros [? _]|done]).
      destruct (validacion_items p a b); simpl; [|done].
      intros [= <-]; split; [by intros [? _]|done].
  - destruct Xv as [a|], yv as [b|]; simpl;
      try (intros [= <-]; split; [by intros [? _]|done]).
    destruct (validacion_items p a b); simpl; [|done].
    intros [= <-]; split; [by intros [? _]|done].
Qed.

(** X19.  The cross-validation entry is all or nothing: it always has the
    six metric keys; when either of the two cross-validations raises, all
    six are [None], also those of the one that went through, and the
    message is kept under [error]; otherwise all six are numbers and
    there is no [error] key. *)
Theorem cv_metrics_are_all_or_nothing (p : pipeline learned) X y cv :
  let d := evaluar_cv p X y cv in
  let claves := ["r2_mean"; "r2_std"; "rmse_mean"; "rmse_std"; "mse_mean"; "mse_std"] in
  match cv_falla p X y cv with
  | Some e => Forall (fun k => d !! k = Some JNone) claves /\
              d !! "error" = Some (JStr (exn_msg e))
  | None => Forall (fun k => exists x, d !! k = Some (JNum x)) claves /\
            d !! "error" = None
  end.
Proof.
  intros d claves. subst d claves. unfold evaluar_cv, cv_falla.
  destruct (cross_val_score (params p) (state p) X y cv ScoringR2) as [s1|e1].
  - destruct (cross_val_score (params p) (state p) X y cv ScoringNegMSE) as [s2|e2].
    + split; [|done]. unfold cv_disponible. repeat constructor; by eexists.
    + split; [|done]. repeat constructor.
  - split; [|done]. repeat constructor.
Qed.
End ResumenExtras.

Section MetricasExtras.
Context {cell : Type}.

Lemma faltantes_vacio (cols l : list string) :
  List.filter (fun m => negb (has_column cols m)) l = [] <-> Forall (fun m => m ∈ cols) l.
Proof.
  induction l as [|m l IH]; [by split|]. simpl.
  destruct (has_column cols m) eqn:Hm; simpl.
  - rewrite IH Forall_cons. apply has_column_elem in Hm. tauto.
  - split; [done|]. intros [Hin%has_column_elem _]%Forall_cons. congruence.
Qed.

Lemma metrics_ok_inv (tipo : tipo_modelo) (cols l : list string) :
  definir_metricas_objetivo tipo (Some (Ok cols)) = Devuelve l ->
  l = metricas tipo /\ Forall (fun m => m ∈ cols) l.
Proof.
  unfold definir_metricas_objetivo. cbv zeta.
  pose proof (faltantes_vacio cols (metricas tipo)) as Hv.
  destruct (List.filter _ (metricas tipo)) as [|m ms] eqn:Hf; [|done].
  intros [= <-]. split; [done|]. by apply Hv.
Qed.

(** X20.  With a file, the add-on returns the metrics of the model type
    exactly when every one of them is a column of the file.  When some
    are not, the [UserError] that lists them is raised inside the [try]
    that guards the reading and is caught by it: what leaves the method is
    the error of the [except] branch, whose message starts as for a file
    that could not be read. *)
Theorem metrics_are_validated_against_the_file (tipo : tipo_modelo) (cols : list string) :
  match definir_metricas_objetivo tipo (Some (Ok cols)) with
  | Devuelve l => l = metricas tipo /\ Forall (fun m => m ∈ cols) l
  | UserError msg =>
      (exists m, m ∈ metricas tipo /\ (m ∉ cols)) /\
      String.prefix "Error al leer el archivo CSV: Faltan las siguientes" msg = true
  end.
Proof.
  unfold definir_metricas_objetivo. cbv zeta.
  pose proof (faltantes_vacio cols (metricas tipo)) as Hv.
  destruct (List.filter _ (metricas tipo)) as [|m ms] eqn:Hf.
  - split; [done|]. by apply Hv.
  - split; [|reflexivity].
    assert (Hin : In m (List.filter (fun m => negb (has_column cols m)) (metricas tipo)))
      by (rewrite Hf; by left).
    apply filter_In in Hin as [Hin Hno]. exists m. split; [by apply list_elem_of_In|].
    intros Hc%has_column_elem. by rewrite Hc in Hno.
Qed.

Lemma pares_directos (cols l : list string) :
  Forall (fun m => m ∈ cols) l ->
  flat_map (fun c => match resolver_objetivo cols c with
                     | Some alt => [(c, alt)]
                     | None => []
                     end) l
  = map (fun c => (c, c)) l.
Proof.
  induction 1 as [|c l Hc _ IH]; [done|]. cbn [flat_map map]. rewrite IH.
  unfold resolver_objetivo. apply has_column_elem in Hc. by rewrite Hc.
Qed.

Lemma seleccion_directa (df : frame cell) (c : string) (req : list string) :
  NoDup (columns df) -> Forall (fun m => m ∈ columns df) (c :: req) ->
  seleccionar_objetivos df (Some (c :: req))
  = Ok (Frame (c :: req)
              (map (fun r => flat_map (fun a => pick a (columns df) r) (c :: req)) (rows df)),
        c :: req).
Proof.
  intros Hnd Hall. unfold seleccionar_objetivos, objetivos_disponibles. cbv iota zeta.
  rewrite (pares_directos _ _ Hall).
  assert (Hsnd : map snd (map (fun c => (c, c)) (c :: req)) = c :: req).
  { rewrite map_map. apply map_id. }
  assert (Hfst : map fst (map (fun c => (c, c)) (c :: req)) = c :: req).
  { rewrite map_map. apply map_id. }
  rewrite Hsnd Hfst. cbn [map].
  rewrite (getitem_columns_present df _ Hnd Hall).
  cbn [rbind columns rows]. by rewrite Nat.eqb_refl.
Qed.

(** X21.  The targets that the add-on hands to the training script, once
    it has checked them against the file, are all kept by the selection
    of the script on a frame with the columns of the file: the targets
    are the whole list in its order, each under its own name (no
    alternative name is used), and the selection does not raise. *)
Theorem validated_metrics_are_all_selected
    (tipo : tipo_modelo) (df : frame cell) (l : list string) :
  NoDup (columns df) ->
  definir_metricas_objetivo tipo (Some (Ok (columns df))) = Devuelve l ->
  exists y,
    seleccionar_objetivos df (Some l) = Ok (y, l) /\
    columns y = l /\
    rows y = map (fun r => flat_map (fun a => pick a (columns df) r) l) (rows df).
Proof.
  intros Hnd Hdef.
  pose proof (metrics_ok_inv tipo (columns df) l Hdef) as [-> Hall].
  destruct (metricas tipo) as [|c req] eqn:Hm; [by destruct tipo|].
  eexists. split; [by apply seleccion_directa|]. done.
Qed.
End MetricasExtras.

(** * The further properties on concrete data *)

Section ConcreteExtras.
Import Toy Ejemplo ToyMas.

Lemma toy_fit_sin_memoria : fit_sin_memoria (cell := cell) (num := float) (learned := list Q).
Proof.
  intros hp s X y l. simpl. unfold fit.
  destruct (length X =? 0)%nat; [done|].
  destruct (negb (length X =? length y)%nat); [done|].
  by destruct (has_nan y).
Qed.

Lemma every_batch_is_nonempty_witness :
  exists out,
    entrenar_por_lotes store0 (Some 0%nat) X2 y2 1 1 "resultados" 0%nat = Ok out /\
    Forall (batch_bien_formado 1 2) (st_fits (sal_bucle out)).
Proof.
  destruct (entrenar_por_lotes store0 (Some 0%nat) X2 y2 1 1 "resultados" 0%nat)
    as [out|e] eqn:Hrun; [|by vm_compute in Hrun].
  exists out. split; [done|].
  exact (every_batch_is_nonempty_and_bounded
           store0 (Some 0%nat) X2 y2 1 1 "resultados" 0%nat out ltac:(lia) Hrun).
Defined.

Lemma only_the_given_model_witness :
  exists out,
    entrenar_por_lotes store_dos None X2 y2 1 1 "resultados" 0%nat = Ok out /\
    sal_heap out !! 0%nat = Some (Obj dummy_pipeline (Some [1 # 1; 5 # 1])).
Proof.
  destruct (entrenar_por_lotes store_dos None X2 y2 1 1 "resultados" 0%nat)
    as [out|e] eqn:Hrun; [|by vm_compute in Hrun].
  exists out. split; [done|].
  destruct (only_the_given_model_is_mutated
              store_dos None X2 y2 1 1 "resultados" 0%nat out Hrun) as [_ Hsame].
  rewrite Hsame; [by apply elem_of_dom; eexists|done|done].
Defined.

Lemma holdout_is_all_rows_witness :
  exists out,
    entrenar_por_lotes store0 (Some 0%nat) X2 y2 1 1 "resultados" 0%nat = Ok out /\
    Permutation (sal_indices_eval out) [0; 1]%nat.
Proof.
  destruct (entrenar_por_lotes store0 (Some 0%nat) X2 y2 1 1 "resultados" 0%nat)
    as [out|e] eqn:Hrun; [|by vm_compute in Hrun].
  exists out. split; [done|].
  assert (Hn : (0 < length (to_numpy X2))%nat) by (simpl; lia).
  destruct (holdout_is_all_rows_when_small
              store0 (Some 0%nat) X2 y2 1 1 "resultados" 0%nat out Hn Hrun)
    as (_ & _ & Hperm).
  apply Hperm. simpl. lia.
Defined.

Lemma zero_epochs_witness :
  exists out,
    entrenar_por_lotes store_bare1 (Some 0%nat) X_doce X_doce 1 0 "resultados" 0%nat = Ok out /\
    st_fits (sal_bucle out) = [] /\ sal_modelo out = sal_vivo out /\
    st_heap (sal_bucle out) !! sal_modelo out
    = Some (Obj (Bare "DummyRegressor" [("strategy", PStr "mean")]) (Some [9 # 2])) /\
    sal_heap out !! sal_modelo out
    = Some (Obj (Bare "DummyRegressor" [("strategy", PStr "mean")]) (Some [11 # 2])).
Proof.
  destruct (entrenar_por_lotes store_bare1 (Some 0%nat) X_doce X_doce 1 0 "resultados" 0%nat)
    as [out|e] eqn:Hrun; [|by vm_compute in Hrun].
  exists out. split; [done|].
  destruct (zero_epochs_returns_the_live_pipeline
              store_bare1 (Some 0%nat) X_doce X_doce 1 0 "resultados" 0%nat out
              ltac:(lia) Hrun)
    as (Hfits & _ & _ & Hmod & _).
  split; [done|]. split; [done|].
  vm_compute in Hrun. injection Hrun as <-. split; vm_compute; reflexivity.
Defined.

Lemma zero_batch_size_witness :
  is_ok (entrenar_por_lotes store0 (Some 0%nat) X2 y2 0 1 "resultados" 0%nat) = false.
Proof.
  exact (zero_batch_size_raises store0 (Some 0%nat) X2 y2 1 "resultados" 0%nat ltac:(lia)).
Defined.

Lemma shorter_targets_witness :
  is_ok (entrenar_por_lotes store0 (Some 0%nat) X2 (NdArray [[Some (0 # 1)]])
           1 1 "resultados" 0%nat) = false.
Proof.
  assert (Hlen : (length (to_numpy (NdArray [[Some (0 # 1)]] : table cell))
                  < length (to_numpy X2) <= 1000)%nat) by (simpl; lia).
  exact (shorter_targets_raise store0 (Some 0%nat) X2 (NdArray [[Some (0 # 1)]])
           1 1 "resultados" 0%nat Hlen).
Defined.

Lemma reports_reach_witness :
  exists out1 out2,
    entrenar_por_lotes store_bare1 (Some 0%nat) X2 y2 1 1 "resultados" 0%nat = Ok out1 /\
    entrenar_por_lotes store_bare1 (Some 0%nat) X2 y2 1 1 "/proc/resultados" 0%nat = Ok out2 /\
    sal_modelo out2 = sal_modelo out1 /\ sal_bucle out2 = sal_bucle out1 /\
    sal_heap out2 !! 0%nat = sal_heap out1 !! 0%nat /\
    sal_heap out1 !! sal_modelo out1
    = Some (Obj (Bare "DummyRegressor" [("strategy", PStr "mean")]) (Some [1 # 1])) /\
    sal_heap out2 !! sal_modelo out1
    = Some (Obj (Bare "DummyRegressor" [("strategy", PStr "mean")]) (Some [0 # 1])).
Proof.
  destruct (entrenar_por_lotes store_bare1 (Some 0%nat) X2 y2 1 1 "resultados" 0%nat)
    as [out1|e] eqn:Hrun; [|by vm_compute in Hrun].
  destruct (reports_reach_only_the_returned_model toy_io toy_io
              store_bare1 (Some 0%nat) X2 y2 1 1 "resultados" "/proc/resultados" 0%nat
              out1 Hrun)
    as (out2 & p & Xe & ye & Hrun2 & Hmod & Hbucle & _ & _ & _ & _ & _ & Hframe & _).
  exists out1, out2. repeat (split; [done|]).
  assert (Hne : 0%nat <> sal_modelo out1).
  { vm_compute in Hrun. by injection Hrun as <-. }
  destruct (Hframe 0%nat Hne) as [H1 H2]. split; [by rewrite H1 H2|].
  vm_compute in Hrun. injection Hrun as <-.
  vm_compute in Hrun2. injection Hrun2 as <-.
  split; vm_compute; reflexivity.
Defined.

Lemma checkpoint_scores_witness :
  exists out c p,
    entrenar_por_lotes store0 (Some 0%nat) X2 y2 1 1 "resultados" 0%nat = Ok out /\
    mejor_modelo (sal_bucle out) = Some c /\
    st_heap (sal_bucle out) !! c = Some p /\
    mejor_score (sal_bucle out) = Num (-1 # 1).
Proof.
  destruct (entrenar_por_lotes store0 (Some 0%nat) X2 y2 1 1 "resultados" 0%nat)
    as [out|e] eqn:Hrun; [|by vm_compute in Hrun].
  destruct (mejor_modelo (sal_bucle out)) as [c|] eqn:Hc;
    [|by vm_compute in Hrun; injection Hrun as <-].
  destruct (checkpoint_scores_the_best_score
              store0 (Some 0%nat) X2 y2 1 1 "resultados" 0%nat out c
              toy_fit_sin_memoria Hrun Hc)
    as (p & Xe & ye & _ & _ & Hp & _).
  exists out, c, p. split; [done|]. split; [done|]. split; [done|].
  vm_compute in Hrun. by injection Hrun as <-.
Defined.

Lemma missing_target_rows_witness :
  rows (filtrar_objetivos_faltantes es_nan X_tres y_tres).2
  = [[Some (1 # 1)]; [Some (2 # 1)]] /\
  rows (filtrar_objetivos_faltantes es_nan X_tres y_tres).1
  = [[Some (3 # 1)]; [Some (5 # 1)]].
Proof.
  destruct (missing_target_rows_are_dropped_from_both es_nan X_tres y_tres
              ltac:(reflexivity)) as (Hy & _).
  split; [by rewrite Hy|reflexivity].
Defined.

Lemma column_change_witness :
  tr_heap (rama_tradicional store0 (Some guardado_otro) X_train y_train X_val y_val
             ["sessions"] "resultados" "modelo.joblib") !! 0%nat
  = Some (Obj dummy_pipeline None).
Proof.
  assert (Hcd : columnas_distintas (b_columnas guardado_otro) ["sessions"]
                = Some ["bounceRate"]) by (vm_compute; reflexivity).
  destruct (column_change_discards_stored_model
              store0 guardado_otro ["bounceRate"] X_train y_train X_val y_val
              ["sessions"] "resultados" "modelo.joblib" Hcd) as [Hsame _].
  rewrite Hsame; [by apply elem_of_dom; eexists|done].
Defined.

Lemma bundle_saved_witness :
  exists b,
    tr_guardado (entrenar_y_guardar store0 0%nat X_train2 y_train2 X_val2 y_val2
                   ["activeUsers"] "resultados" "modelo.joblib") = Some b /\
    (generar_informe (call_fit store0 0%nat (rows X_train2) (rows y_train2)).1 0%nat
       (rows X_val2) (rows y_val2) "resultados").2 = Ok tt /\
    b = Bundle (Some 0%nat) (Some ["activeUsers"]).
Proof.
  destruct (tr_guardado (entrenar_y_guardar store0 0%nat X_train2 y_train2 X_val2 y_val2
                           ["activeUsers"] "resultados" "modelo.joblib"))
    as [b|] eqn:Hb; [|by vm_compute in Hb].
  exists b. split; [done|].
  destruct (bundle_saved_only_after_report
              store0 0%nat X_train2 y_train2 X_val2 y_val2
              ["activeUsers"] "resultados" "modelo.joblib") as (Hsaved & _).
  by destruct (Hsaved b Hb) as (_ & _ & Hinf & Hbun).
Defined.

Lemma saved_bundle_reloads_witness :
  exists out guardado pre,
    main_incremental store0 (Some (Bundle (Some 0%nat) (Some ["sessions"])))
      X_train y_train ["sessions"] 1 1 "resultados" 0%nat = Ok (out, guardado) /\
    preparar_incremental (sal_heap out) (Some guardado) X_val y_val ["sessions"] = Ok pre /\
    pre_X pre = X_val.
Proof.
  destruct (main_incremental store0 (Some (Bundle (Some 0%nat) (Some ["sessions"])))
              X_train y_train ["sessions"] 1 1 "resultados" 0%nat)
    as [[out guardado]|e] eqn:Hrun; [|by vm_compute in Hrun].
  destruct (saved_bundle_reloads_without_drift
              store0 (Some (Bundle (Some 0%nat) (Some ["sessions"])))
              X_train y_train X_val y_val ["sessions"] 1 1 "resultados" 0%nat
              out guardado Hrun)
    as (_ & _ & pre & Hpre & HX & _).
  by exists out, guardado, pre.
Defined.

Lemma report_refits_witness :
  (generar_informe store_bare1 0%nat (rows X_val) (rows y_val) "resultados").1 !! 0%nat
  = Some (Obj (Bare "DummyRegressor" [("strategy", PStr "mean")]) (Some [3 # 1])).
Proof.
  destruct (report_refits_what_looks_unfitted store_bare1 0%nat
              (Obj (Bare "DummyRegressor" [("strategy", PStr "mean")]) (Some [1 # 1]))
              (rows X_val) (rows y_val) "resultados" ltac:(reflexivity))
    as (Hgi & _).
  simpl in Hgi. rewrite Hgi. vm_compute. reflexivity.
Defined.

Lemma bare_model_saved_witness :
  exists b,
    tr_guardado (entrenar_y_guardar store_bare 0%nat X_train2 y_train2 X_val2 y_val2
                   ["activeUsers"] "resultados" "modelo.joblib") = Some b /\
    tr_heap (entrenar_y_guardar store_bare 0%nat X_train2 y_train2 X_val2 y_val2
               ["activeUsers"] "resultados" "modelo.joblib") !! 0%nat
    = Some (Obj (Bare "DummyRegressor" [("strategy", PStr "mean")])
                (Some [3 # 1; 7 # 1])).
Proof.
  destruct (tr_guardado (entrenar_y_guardar store_bare 0%nat X_train2 y_train2 X_val2 y_val2
                           ["activeUsers"] "resultados" "modelo.joblib"))
    as [b|] eqn:Hb; [|by vm_compute in Hb].
  exists b. split; [done|].
  destruct (bare_model_is_saved_as_refitted_on_validation
              store_bare 0%nat
              (Obj (Bare "DummyRegressor" [("strategy", PStr "mean")])
                   (Some [1 # 1; 5 # 1]))
              X_train2 y_train2 X_val2 y_val2 ["activeUsers"] "resultados" "modelo.joblib" b
              ltac:(reflexivity) ltac:(reflexivity) Hb) as [_ Hheap].
  rewrite Hheap. vm_compute. reflexivity.
Defined.

Lemma targets_witness :
  exists y,
    seleccionar_objetivos df_ga (Some ["activeUsers"; "conversions"; "sessions"])
    = Ok (y, ["activeUsers"; "sessions"]) /\
    columns y = ["activeUsers"; "sessions"] /\
    rows y = [[Some (2 # 1); Some (3 # 1)]; [Some (4 # 1); Some (4 # 1)]].
Proof.
  assert (Hnd : NoDup (columns df_ga)).
  { apply (bool_decide_unpack _). vm_compute. exact I. }
  pose proof (targets_are_the_resolved_requests df_ga "activeUsers"
                ["conversions"; "sessions"] Hnd) as Hsel.
  destruct Hsel as (y & Hy & Hcols & Hrows).
  exists y. split; [exact Hy|]. split; [exact Hcols|]. rewrite Hrows. reflexivity.
Defined.

Lemma summary_witness :
  exists items,
    resultados_items dummy_fitted (rows X_train) (rows y_train)
      (Some (rows X_val)) (Some (rows y_val)) 5 = Ok items /\
    resumen_entrenamiento formato (Some items)
    = Raise (Exn TypeError "unsupported format string passed to NoneType.__format__").
Proof.
  destruct (resultados_items dummy_fitted (rows X_train) (rows y_train)
              (Some (rows X_val)) (Some (rows y_val)) 5) as [items|e] eqn:Hit;
    [|by vm_compute in Hit].
  exists items. split; [done|].
  destruct (summary_needs_every_metric formato dummy_fitted (rows X_train) (rows y_train)
              (Some (rows X_val)) (Some (rows y_val)) 5 items Hit) as (_ & _ & Hno).
  apply Hno. intros [Hcv _]. by vm_compute in Hcv.
Defined.

Lemma validated_metrics_witness :
  exists y,
    seleccionar_objetivos df_engagement (Some ["engagementRate"; "sessions"; "activeUsers"])
    = Ok (y, ["engagementRate"; "sessions"; "activeUsers"]) /\
    rows y = [[Some (1 # 2); Some (3 # 1); Some (2 # 1)];
              [Some (1 # 4); Some (4 # 1); Some (4 # 1)]].
Proof.
  assert (Hnd : NoDup (columns df_engagement)).
  { apply (bool_decide_unpack _). vm_compute. exact I. }
  destruct (validated_metrics_are_all_selected Engagement df_engagement
              ["engagementRate"; "sessions"; "activeUsers"] Hnd ltac:(reflexivity))
    as (y & Hy & _ & Hrows).
  exists y. split; [exact Hy|]. rewrite Hrows. reflexivity.
Defined.

(** C7 as stated fails: on twelve rows with the last target missing, one
    epoch and batches of one row, the initial fit takes rows 0 to 9 and
    the evaluation set is every row, so the scoring raises for every
    batch: all twelve batches are logged as failed and no batch is left
    to train from.  The last batch is row 1; its fit went through before
    the scoring raised, and the model that is returned holds what that fit
    learned (the mean 1), not what the initial fit learned (the mean
    9/2). *)
Lemma failed_batch_fit_is_returned_counterexample :
  exists out h1,
    entrenar_por_lotes store0 (Some 0%nat) X_doce y_doce 1 1 "resultados" 0%nat = Ok out /\
    ajuste_inicial store0 (Some 0%nat) (to_numpy X_doce) (to_numpy y_doce) 1 0%nat
    = Ok (h1, 0%nat, 1%nat) /\
    h1 !! 0%nat = Some (Obj dummy_pipeline (Some [9 # 2])) /\
    length (st_fits (sal_bucle out)) = 12%nat /\
    length (filter (fun ln => es_error_batch ln = true) (sal_log out)) = 12%nat /\
    st_scores (sal_bucle out) = [] /\
    last (st_fits (sal_bucle out)) = Some [1%nat] /\
    last (filter (fun ln => es_error_batch ln = true) (sal_log out))
    = Some (LogErrorBatch 11 12 "Input contains NaN") /\
    sal_heap out !! sal_modelo out = Some (Obj dummy_pipeline (Some [1 # 1])).
Proof.
  eexists. eexists.
  split; [vm_compute; reflexivity|].
  split; [vm_compute; reflexivity|].
  repeat split; vm_compute; reflexivity.
Qed.

Lemma batch_failure_witness :
  let st' := batch_step 0%nat (to_numpy X2) (to_numpy y_nan) 2 1 estado1 0%nat [0%nat]
               [[Some (0 # 1)]] [[Some (0 # 1)]] in
  st_log st' = [LogErrorBatch 0 1 "Input contains NaN"] /\
  st_heap st' !! 0%nat = Some (Obj dummy_pipeline (Some [0 # 1])) /\
  mejor_modelo st' = None /\
  run_batches 0%nat (to_numpy X2) (to_numpy y2) (to_numpy X2) (to_numpy y_nan) 2 1
              [0%nat; 1%nat] [0%nat; 1%nat] estado1
  = run_batches 0%nat (to_numpy X2) (to_numpy y2) (to_numpy X2) (to_numpy y_nan) 2 1
                [0%nat; 1%nat] [1%nat] st'.
Proof.
  intros st'.
  assert (Hfalla : batch_falla (st_heap estado1) 0%nat (to_numpy X2) (to_numpy y_nan)
                     [[Some (0 # 1)]] [[Some (0 # 1)]] (mejor_score estado1)
                   = Some (Exn ValueError "Input contains NaN"))
    by (vm_compute; reflexivity).
  destruct (batch_failure_is_logged_and_loop_continues
              0%nat (to_numpy X2) (to_numpy y2) (to_numpy X2) (to_numpy y_nan) 2%nat 1%nat
              [0%nat; 1%nat] 0%nat [1%nat] estado1
              [[Some (0 # 1)]] [[Some (0 # 1)]] (Exn ValueError "Input contains NaN")
              (Obj dummy_pipeline (Some [1 # 1]))
              ltac:(reflexivity) ltac:(reflexivity) ltac:(reflexivity) Hfalla)
    as (Hlog & _ & Hlive & Hcase & Hcont & _).
  split; [exact Hlog|]. split; [exact Hlive|]. split; [|exact Hcont].
  destruct Hcase as [[_ Hst]|(score & c & after & Hsc & _)].
  - subst st'. by rewrite Hst.
  - by vm_compute in Hsc.
Defined.

(** C6 at work.  An earlier run had the targets [engagementRate] and
    [sessions], and their names are the stored column list; now the only
    target is [engagementRate], so the current list is [engagementRate]
    and the features are the other column, [sessions].  The lists differ:
    the warning is printed, and the selection of the stored columns
    raises [KeyError], since [engagementRate] is not among the features;
    no column is added. *)
Lemma stored_column_missing_witness :
  preparar_incremental store_dos (Some guardado_objetivos) X_cuatro y_cuatro
    ["engagementRate"]
  = Raise (Exn KeyError "not in index") /\
  avisos_de_carga store_dos (Some guardado_objetivos) y_cuatro ["engagementRate"]
  = [AvisoCaracteristicas {["sessions"]} ∅].
Proof.
  assert (Hdiff : (list_to_set ["engagementRate"; "sessions"] : gset string)
                  <> list_to_set ["engagementRate"]).
  { apply (proj1 (bool_decide_eq_false _)). vm_compute. reflexivity. }
  assert (Hin : "engagementRate" ∈ ["engagementRate"; "sessions"])
    by apply list_elem_of_here.
  assert (HcX : "engagementRate" ∉ columns X_cuatro)
    by (by apply (bool_decide_unpack _)).
  destruct (stored_column_missing_raises_after_the_warning
              store_dos guardado_objetivos 0%nat (Obj dummy_pipeline (Some [1 # 1; 5 # 1]))
              X_cuatro y_cuatro ["engagementRate"] ["engagementRate"; "sessions"]
              "engagementRate"
              ltac:(reflexivity) ltac:(reflexivity) ltac:(reflexivity) Hdiff Hin HcX)
    as (Hraise & _ & _).
  split; [exact Hraise|].
  vm_compute. reflexivity.
Defined.
End ConcreteExtras.
